(** * Easy Pruning: the pruning decision engine, embedded and verified

    A shallow embedding of [src/pruner.ts] and [src/strategies.ts]: the token
    estimator, the message timeline, the protection rules and zone
    boundaries, the three degradation strategies, the orchestrator
    [applyPruningWithStats], the configuration normaliser and the
    trigger/cooldown gate.

    Conventions of the embedding:
    - a JavaScript string is the list of its UTF-16 code units ([jstr]), so
      [length] is the [.length] of the source;
    - a JavaScript number is [NaN], an infinity, or a finite value held as a
      rational: comparisons, [Math.floor], [Math.max] and the guards of the
      source are those of IEEE numbers, and a product is rounded to the
      nearest binary64 as [*] does; sums and differences are computed
      exactly, which is what IEEE arithmetic does on the whole numbers below
      2^53 that lengths and token counts are (the sign of zero is not
      represented);
    - object identity ([next !== original]) is made explicit: a strategy
      answers [Same] when it returns its argument and [Fresh m] when it
      builds a new object;
    - a [TypeError] raised by the source is the answer [None]. *)

From Stdlib Require Import ZArith QArith Qround Qabs Qpower Lqa Lia.
From Stdlib Require Import List Bool Ascii String.
From Stdlib Require DecimalString Floats.
From stdpp Require Import base option list gmap.
Import ListNotations.

Set Default Proof Using "Type".
Set Warnings "-register-all".

(** ** The JavaScript values and built-ins the program uses *)
Module JS.

(** Strings: sequences of UTF-16 code units. *)
Definition jstr := list N.

Definition str (s : string) : jstr := List.map N_of_ascii (list_ascii_of_string s).

(** Numbers. *)
Inductive number :=
| NaN
| PInf
| NInf
| Fin (q : Q).

Definition of_Z (z : Z) : number := Fin (inject_Z z).
Definition of_nat (n : nat) : number := of_Z (Z.of_nat n).

Definition isFinite (n : number) : bool :=
  match n with Fin _ => true | _ => false end.

(** IEEE comparison: [None] when an operand is [NaN]. *)
Definition cmp (x y : number) : option comparison :=
  match x, y with
  | NaN, _ | _, NaN => None
  | PInf, PInf | NInf, NInf => Some Eq
  | PInf, _ | _, NInf => Some Gt
  | NInf, _ | _, PInf => Some Lt
  | Fin a, Fin b => Some (a ?= b)%Q
  end.

Definition ltb (x y : number) : bool :=
  match cmp x y with Some Lt => true | _ => false end.
Definition leb (x y : number) : bool :=
  match cmp x y with Some Lt | Some Eq => true | _ => false end.
Definition gtb (x y : number) : bool := ltb y x.
Definition geb (x y : number) : bool := leb y x.

Definition neg (x : number) : number :=
  match x with
  | NaN => NaN | PInf => NInf | NInf => PInf | Fin q => Fin (- q)
  end.

Definition add (x y : number) : number :=
  match x, y with
  | NaN, _ | _, NaN => NaN
  | PInf, NInf | NInf, PInf => NaN
  | PInf, _ | _, PInf => PInf
  | NInf, _ | _, NInf => NInf
  | Fin a, Fin b => Fin (a + b)
  end.

Definition sub (x y : number) : number := add x (neg y).

Definition sign_of (q : Q) : comparison := (q ?= 0)%Q.

(** *** Rounding to binary64

    A finite number of the program is a binary64: a whole multiple of a
    power of two with at most 53 significant bits, and no bit below
    2^-1074. [binary64 q] is the one nearest to [q], the even one of two
    that are equally near; it is [q] itself when [q] is a binary64, and it
    is what the numeric literal [q] denotes. The exponent is not bounded
    above: a value at or beyond 2^1024, where IEEE arithmetic answers an
    infinity, does not arise in a product of a token count and a ratio
    below 1. *)

(** [floor (log2 |q|)], for [q] other than 0. *)
Definition exponentOf (q : Q) : Z :=
  let a := Qabs q in
  if Qle_bool 1 a then Z.log2 (Qfloor a) else (- Z.log2_up (Qceiling (/ a)))%Z.

(** The nearest whole number, the even one of two that are equally near. *)
Definition roundHalfEven (y : Q) : Z :=
  let f := Qfloor y in
  match (y - inject_Z f ?= 1 # 2)%Q with
  | Lt => f
  | Gt => (f + 1)%Z
  | Eq => if Z.even f then f else (f + 1)%Z
  end.

Definition binary64 (q : Q) : Q :=
  let e := Z.max (exponentOf q - 52) (-1074) in
  Qred (inject_Z (roundHalfEven (q / 2 ^ e)) * 2 ^ e).

(** [x * y]: each operand is read as a binary64, which it is in a run of the
    program, and the exact product of the two is rounded to the nearest
    binary64. *)
Definition mul (x y : number) : number :=
  match x, y with
  | NaN, _ | _, NaN => NaN
  | Fin a, Fin b => Fin (binary64 (binary64 a * binary64 b))
  | Fin a, PInf | PInf, Fin a =>
      match sign_of a with Eq => NaN | Gt => PInf | Lt => NInf end
  | Fin a, NInf | NInf, Fin a =>
      match sign_of a with Eq => NaN | Gt => NInf | Lt => PInf end
  | PInf, PInf | NInf, NInf => PInf
  | PInf, NInf | NInf, PInf => NInf
  end.

(** [Math.floor], [Math.max], [Math.min]. *)
Definition floor (x : number) : number :=
  match x with Fin q => of_Z (Qfloor q) | _ => x end.

Definition max (x y : number) : number :=
  match cmp x y with
  | None => NaN
  | Some Lt => y
  | Some _ => x
  end.

Definition min (x y : number) : number :=
  match cmp x y with
  | None => NaN
  | Some Gt => y
  | Some _ => x
  end.

(** [ToIntegerOrInfinity] followed by the clamping of a relative index into
    [0, len], as [String.prototype.slice] does for each of its bounds. *)
Definition truncate (q : Q) : Z :=
  if Qle_bool 0 q then Qfloor q else Qceiling q.

Definition relativeIndex (len : Z) (n : number) : Z :=
  match n with
  | NaN => 0
  | PInf => len
  | NInf => 0
  | Fin q => let t := truncate q in
             if (t <? 0)%Z then Z.max (len + t) 0 else Z.min t len
  end.

(** [s.slice(start, end)]; [end] omitted is [None]. *)
Definition slice (s : jstr) (start : number) (stop : option number) : jstr :=
  let len := Z.of_nat (length s) in
  let from := relativeIndex len start in
  let to := match stop with None => len | Some e => relativeIndex len e end in
  take (Z.to_nat (to - from)) (drop (Z.to_nat from) s).

Fixpoint startsWith (s p : jstr) {struct p} : bool :=
  match p, s with
  | [], _ => true
  | _ :: _, [] => false
  | c :: p', d :: s' => (c =? d)%N && startsWith s' p'
  end.

(** [s.includes(needle)]. *)
Fixpoint includes (s needle : jstr) : bool :=
  startsWith s needle ||
  match s with
  | [] => false
  | _ :: t => includes t needle
  end.

(** [s.lastIndexOf(needle)], counting positions from [i]; [-1] when absent. *)
Fixpoint lastIndexOf_from (i : Z) (s needle : jstr) : Z :=
  match s with
  | [] => if startsWith [] needle then i else (-1)%Z
  | _ :: t =>
      let later := lastIndexOf_from (i + 1) t needle in
      if (later =? -1)%Z
      then (if startsWith s needle then i else (-1)%Z)
      else later
  end.

Definition lastIndexOf (s needle : jstr) : Z := lastIndexOf_from 0 s needle.

(** White space and line terminators, as [trim] and the regular expression
    class [\s] understand them. *)
Definition isWhiteSpace (c : N) : bool :=
  existsb (N.eqb c)
    [9; 10; 11; 12; 13; 32; 160; 5760; 8232; 8233; 8239; 8287; 12288; 65279]%N
  || ((8192 <=? c)%N && (c <=? 8202)%N).

Fixpoint trimStart (s : jstr) : jstr :=
  match s with
  | c :: t => if isWhiteSpace c then trimStart t else s
  | [] => []
  end.

Definition trimEnd (s : jstr) : jstr := rev (trimStart (rev s)).

Definition trim (s : jstr) : jstr := trimEnd (trimStart s).

(** [s.toLowerCase()] on the ASCII letters. No other code unit lowers to an
    ASCII one except U+212A (to [k]) and U+0130 (to [i] followed by U+0307),
    neither of which can complete one of the ASCII needles the program
    looks for, so [includes] on the result answers as the source does. *)
Definition lowerUnit (c : N) : N :=
  if ((65 <=? c) && (c <=? 90))%N then (c + 32)%N else c.

Definition toLowerCase (s : jstr) : jstr := List.map lowerUnit s.

(** [parts.join(sep)]. *)
Fixpoint join (sep : jstr) (parts : list jstr) : jstr :=
  match parts with
  | [] => []
  | [p] => p
  | p :: rest => p ++ sep ++ join sep rest
  end.

(** The regular expression [/\n\s*\n/] anchored at the head of [s]: the
    number of code units of its (greedy) match, a line feed, the longest
    run of white space that still ends in a line feed. *)
Fixpoint lastLineFeed (i : nat) (s : jstr) : option nat :=
  match s with
  | c :: t =>
      if isWhiteSpace c then
        match lastLineFeed (S i) t with
        | Some j => Some j
        | None => if (c =? 10)%N then Some i else None
        end
      else None
  | [] => None
  end.

Definition blankLineMatch (s : jstr) : option nat :=
  match s with
  | c :: t => if (c =? 10)%N then lastLineFeed 2 t else None
  | [] => None
  end.

(** [s.split(/\n\s*\n/g)]: [skip] code units of a match remain to be
    dropped, [cur] is the piece being read, reversed. *)
Fixpoint splitBlank_go (skip : nat) (cur : jstr) (s : jstr) : list jstr :=
  match s with
  | [] => [rev cur]
  | c :: t =>
      match skip with
      | S k => splitBlank_go k cur t
      | O =>
          match blankLineMatch s with
          | Some n => rev cur :: splitBlank_go (n - 1) [] t
          | None => splitBlank_go 0 (c :: cur) t
          end
      end
  end.

Definition splitBlankLines (s : jstr) : list jstr := splitBlank_go 0 [] s.

(** Values, as far as the program can tell them apart. The properties of an
    object are listed in the order JavaScript enumerates them, each key
    once. *)
Inductive value :=
| VUndef
| VNull
| VBool (b : bool)
| VNum (n : number)
| VStr (s : jstr)
| VArr (items : list value)
| VObj (props : list (jstr * value)).

Definition isNullish (v : value) : bool :=
  match v with VUndef | VNull => true | _ => false end.

(** [a ?? b]. *)
Definition nullish (a b : value) : value := if isNullish a then b else a.

(** Truthiness ([!!v]). *)
Definition truthy (v : value) : bool :=
  match v with
  | VUndef | VNull => false
  | VBool b => b
  | VNum NaN => false
  | VNum (Fin q) => negb (Qeq_bool q 0)
  | VNum _ => true
  | VStr s => match s with [] => false | _ => true end
  | VArr _ | VObj _ => true
  end.

(** [typeof v === "object"] (which holds of [null] and of arrays). *)
Definition typeofObject (v : value) : bool :=
  match v with VNull | VArr _ | VObj _ => true | _ => false end.

Fixpoint lookupProp (k : jstr) (props : list (jstr * value)) : value :=
  match props with
  | [] => VUndef
  | (k', v) :: rest => if bool_decide (k' = k) then v else lookupProp k rest
  end.

(** [v.k] for the names the program reads ([role], [content], [type],
    [text], [image], [images], [url]): none is an own property of an array. *)
Definition get (v : value) (k : string) : value :=
  match v with
  | VObj props => lookupProp (str k) props
  | _ => VUndef
  end.

(** [{ ...props, k: v }]: an existing key keeps its place. *)
Fixpoint setProp (k : jstr) (v : value) (props : list (jstr * value))
  : list (jstr * value) :=
  match props with
  | [] => [(k, v)]
  | (k', v') :: rest =>
      if bool_decide (k' = k) then (k, v) :: rest
      else (k', v') :: setProp k v rest
  end.

(** *** Conversions to text

    [Number_toString] is the platform's rendering of a number
    ([Number::toString], the shortest decimal that reads back as the same
    double). The embedding keeps it abstract: everything proved below holds
    whatever the rendering is. *)
Section Text.

Variable Number_toString : number -> jstr.

(** [String(v)]. *)
Fixpoint toString (v : value) : jstr :=
  match v with
  | VUndef => str "undefined"
  | VNull => str "null"
  | VBool b => str (if b then "true" else "false")
  | VNum n => Number_toString n
  | VStr s => s
  | VArr items =>
      join (str ",")
        (List.map (fun x => if isNullish x then [] else toString x) items)
  | VObj _ => str "[object Object]"
  end.

Definition hexDigit (d : N) : N :=
  if (d <? 10)%N then (48 + d)%N else (87 + d)%N.

Definition unicodeEscape (c : N) : jstr :=
  str "\u" ++ [hexDigit ((c / 4096) mod 16); hexDigit ((c / 256) mod 16);
               hexDigit ((c / 16) mod 16); hexDigit (c mod 16)]%N.

Definition isHighSurrogate (c : N) : bool := ((55296 <=? c) && (c <=? 56319))%N.
Definition isLowSurrogate (c : N) : bool := ((56320 <=? c) && (c <=? 57343))%N.

Definition escapeUnit (c : N) : jstr :=
  if (c =? 8)%N then str "\b"
  else if (c =? 9)%N then str "\t"
  else if (c =? 10)%N then str "\n"
  else if (c =? 12)%N then str "\f"
  else if (c =? 13)%N then str "\r"
  else if (c =? 34)%N then [92; 34]%N
  else if (c =? 92)%N then [92; 92]%N
  else if (c <? 32)%N then unicodeEscape c
  else [c].

Fixpoint quoteBody (s : jstr) : jstr :=
  match s with
  | [] => []
  | c :: t =>
      if isHighSurrogate c then
        match t with
        | d :: t' =>
            if isLowSurrogate d then c :: d :: quoteBody t'
            else unicodeEscape c ++ quoteBody t
        | [] => unicodeEscape c
        end
      else if isLowSurrogate c then unicodeEscape c ++ quoteBody t
      else escapeUnit c ++ quoteBody t
  end.

Definition quote (s : jstr) : jstr := [34%N] ++ quoteBody s ++ [34%N].

(** [JSON.stringify(v)] on tree-shaped data; [None] is the answer
    [undefined]. On such data it never raises. *)
Fixpoint JSON_stringify (v : value) : option jstr :=
  match v with
  | VUndef => None
  | VNull => Some (str "null")
  | VBool b => Some (str (if b then "true" else "false"))
  | VNum n => Some (if isFinite n then Number_toString n else str "null")
  | VStr s => Some (quote s)
  | VArr items =>
      Some (str "[" ++
            join (str ",")
              (List.map (fun x => match JSON_stringify x with
                                  | Some t => t
                                  | None => str "null"
                                  end) items) ++
            str "]")
  | VObj props =>
      Some (str "{" ++
            join (str ",")
              ((fix members (ps : list (jstr * value)) : list jstr :=
                  match ps with
                  | [] => []
                  | (k, x) :: rest =>
                      match JSON_stringify x with
                      | Some t => (quote k ++ str ":" ++ t) :: members rest
                      | None => members rest
                      end
                  end) props) ++
            str "}")
  end.

End Text.

End JS.

Import JS.

(** ** The configuration and the message types of [pruner.ts] *)

Record SoftTrim := {
  max_chars : number;
  head_chars : number;
  tail_chars : number;
}.

(** A normalised configuration. The two optional keys, and a flag that an
    input may carry as [undefined], are [None] when they read [undefined]. *)
Record EasyPruningConfig := {
  pruning_threshold : number;
  trigger_every_n_tokens : number;
  keep_recent_tokens : number;
  keep_recent_messages : number;
  keep_rencent_message : option number;
  soft_threshold : number;
  hard_threshold : number;
  detail_threshold : number;
  soft_trim : SoftTrim;
  hard_clear_placeholder : jstr;
  detail_placeholder : jstr;
  skip_tools_with_images : option bool;
  compaction_threshold_hint : option number;
}.

Inductive MessageZone := ZoneNone | ZoneSoft | ZoneHard | ZoneDetail.

(** What a strategy hands back: its argument itself, or a new object. *)
Inductive applied :=
| Same
| Fresh (next : value).

(** ** [strategies.ts] *)
Module Strategies.

Section WithRendering.

Variable Number_toString : number -> jstr.

Definition textBlock (text : jstr) : value :=
  VObj [(str "type", VStr (str "text")); (str "text", VStr text)].

Definition roleOf (message : value) : jstr :=
  toString Number_toString (nullish (get message "role") (VStr [])).

Definition isToolResultRole (role : jstr) : bool :=
  bool_decide (role = str "tool_result") || bool_decide (role = str "toolResult").

Definition isAssistantRole (role : jstr) : bool :=
  bool_decide (role = str "assistant").

Fixpoint hasImageContent (content : value) : bool :=
  match content with
  | VStr s =>
      let lower := toLowerCase s in
      includes lower (str "data:image") || includes lower (str ".png")
      || includes lower (str ".jpg")
  | VArr items => existsb hasImageContent items
  | VObj _ =>
      let t := toLowerCase
                 (toString Number_toString (nullish (get content "type") (VStr []))) in
      if includes t (str "image") then true
      else if truthy (get content "image") || truthy (get content "images") then true
      else match get content "url" with
           | VStr url => includes (toLowerCase url) (str "image")
           | _ => false
           end
  | _ => false
  end.

(** The text parts of a block sequence, in order. *)
Definition textPart (block : value) : option jstr :=
  match block with
  | VStr s => Some s
  | VObj _ =>
      match get block "type", get block "text" with
      | VStr ty, VStr text => if bool_decide (ty = str "text") then Some text else None
      | _, _ => None
      end
  | _ => None
  end.

(** [None] when the source's function returns [undefined], which is what
    [JSON.stringify(undefined)] answers. *)
Definition toUnifiedText (content : value) : option jstr :=
  match content with
  | VStr s => Some s
  | VArr items => Some (join [10%N] (omap textPart items))
  | _ => JSON_stringify Number_toString content
  end.

Definition preserveContentShape (original : value) (text : jstr) : value :=
  match original with
  | VStr _ => VStr text
  | VArr _ => VArr [textBlock text]
  | _ => VStr text
  end.

Definition markers : list jstr :=
  [ str "Final Answer:"; str "Final:"; str "Summary:"; str "Conclusion:";
    str "Answer:"; str "Result:"; str "Output:";
    [26368; 32456; 32467; 35770]%N; [24635; 32467]%N; [32467; 35770]%N ].

(** The loop over the markers of [extractFinalSummary]. *)
Fixpoint markerSummary (ms : list jstr) (text : jstr) : option jstr :=
  match ms with
  | [] => None
  | marker :: rest =>
      let idx := lastIndexOf text marker in
      if (idx =? -1)%Z then markerSummary rest text
      else
        let sliced := trim (slice text (of_Z idx) None) in
        if (0 <? length sliced)%nat then Some sliced
        else markerSummary rest text
  end.

Definition nonEmpty (s : jstr) : bool :=
  match s with [] => false | _ => true end.

Definition paragraphs (text : jstr) : list jstr :=
  List.filter nonEmpty (List.map trim (splitBlankLines text)).

Definition extractFinalSummary (text : jstr) : option jstr :=
  match markerSummary markers text with
  | Some sliced => Some sliced
  | None =>
      match last (paragraphs text) with
      | None => None
      | Some final => if (0 <? length final)%nat then Some final else None
      end
  end.

(** [{ ...message, content }]. Only an object reaches a spread: any other
    value has no role, and every strategy returns it as it is. *)
Definition withContent (message : value) (content : value) : value :=
  match message with
  | VObj props => VObj (setProp (str "content") content props)
  | _ => VObj [(str "content", content)]
  end.

Definition skipsImages (config : EasyPruningConfig) (message : value) : bool :=
  match skip_tools_with_images config with
  | Some true => hasImageContent (get message "content")
  | _ => false
  end.

Definition truncationNote (len : nat) : jstr :=
  [10; 10]%N ++ str "... (truncated)" ++ [10; 10]%N ++ str "[Original size: "
  ++ Number_toString (of_nat len) ++ str " characters]" ++ [10%N].

Definition applySoftPruning (message : value) (config : EasyPruningConfig)
  : option applied :=
  let role := roleOf message in
  if negb (isToolResultRole role) then Some Same
  else if skipsImages config message then Some Same
  else
    raw ← toUnifiedText (get message "content");
    if leb (of_nat (length raw)) (max_chars (soft_trim config)) then Some Same
    else
      let head := slice raw (of_Z 0)
                    (Some (max (of_Z 0) (head_chars (soft_trim config)))) in
      let tail := slice raw
                    (max (of_Z 0)
                       (sub (of_nat (length raw))
                            (max (of_Z 0) (tail_chars (soft_trim config)))))
                    None in
      let soft := head ++ truncationNote (length raw) ++ tail in
      Some (Fresh (withContent message
                     (preserveContentShape (get message "content") soft))).

Definition applyHardPruning (message : value) (config : EasyPruningConfig)
  : option applied :=
  let role := roleOf message in
  if negb (isToolResultRole role) then Some Same
  else if skipsImages config message then Some Same
  else
    Some (Fresh (withContent message
                   (preserveContentShape (get message "content")
                      (hard_clear_placeholder config)))).

Definition isTextBlock (block : value) : bool :=
  match block with
  | VObj _ =>
      match get block "type", get block "text" with
      | VStr ty, VStr _ => bool_decide (ty = str "text")
      | _, _ => false
      end
  | _ => false
  end.

Definition detailPrefix : jstr := str "[Process details pruned]" ++ [10; 10]%N.

Definition applyDetailPruning (message : value) (config : EasyPruningConfig)
  : option applied :=
  let role := roleOf message in
  if bool_decide (role = str "user") || bool_decide (role = str "system")
  then Some Same
  else if isAssistantRole role then
    match get message "content" with
    | VStr _ => Some Same
    | VArr items =>
        let textBlocks := List.filter isTextBlock items in
        if (0 <? length textBlocks)%nat
        then Some (Fresh (withContent message (VArr textBlocks)))
        else Some (Fresh (withContent message
                            (VArr [textBlock (detail_placeholder config)])))
    | _ => Some (Fresh (withContent message (VStr (detail_placeholder config))))
    end
  else if isToolResultRole role then
    if skipsImages config message then Some Same
    else
      unified ← toUnifiedText (get message "content");
      match extractFinalSummary unified with
      | Some summary =>
          if nonEmpty summary
          then Some (Fresh (withContent message
                              (preserveContentShape (get message "content")
                                 (detailPrefix ++ summary))))
          else Some (Fresh (withContent message
                              (preserveContentShape (get message "content")
                                 (detail_placeholder config))))
      | None =>
          Some (Fresh (withContent message
                         (preserveContentShape (get message "content")
                            (detail_placeholder config))))
      end
  else Some Same.

(** [createStrategies(config)[zone].apply]. The orchestrator never asks for
    a strategy of zone [none]. *)
Definition applyStrategy (config : EasyPruningConfig) (zone : MessageZone)
    (message : value) : option applied :=
  match zone with
  | ZoneNone => Some Same
  | ZoneSoft => applySoftPruning message config
  | ZoneHard => applyHardPruning message config
  | ZoneDetail => applyDetailPruning message config
  end.

End WithRendering.

End Strategies.

(** ** [pruner.ts] *)
Module Pruner.

Record ZoneCounts := {
  soft : Z;
  hard : Z;
  detail : Z;
}.

Record PruningStats := {
  contextTokensBefore : Z;
  contextTokensAfter : Z;
  deletedTokens : Z;
  totalMessages : Z;
  protectedMessages : Z;
  changedMessages : Z;
  zoneChanged : ZoneCounts;
  zoneDeletedTokens : ZoneCounts;
}.

Record SessionTriggerState := {
  lastTriggerTokenCount : Z;
  lastTriggeredAt : Z;
  pruneCount : Z;
}.

Record MessageMeta := {
  index : nat;
  message : value;
  role : jstr;
  tokenCount : Z;
  tokenStart : Z;
  tokenEnd : Z;
  tokenMid : Q;
}.

Definition TOKENS_PER_CHAR_ESTIMATE : Z := 4.

(** [stats.zoneChanged[zone] += n] and its like. *)
Definition bump (zone : MessageZone) (n : Z) (c : ZoneCounts) : ZoneCounts :=
  match zone with
  | ZoneNone => c
  | ZoneSoft => {| soft := soft c + n; hard := hard c; detail := detail c |}
  | ZoneHard => {| soft := soft c; hard := hard c + n; detail := detail c |}
  | ZoneDetail => {| soft := soft c; hard := hard c; detail := detail c + n |}
  end.

Definition resolveZone (tokenMid : Q) (softStart hardStart detailStart : number)
  : MessageZone :=
  if ltb (Fin tokenMid) softStart then ZoneNone
  else if ltb (Fin tokenMid) hardStart then ZoneSoft
  else if ltb (Fin tokenMid) detailStart then ZoneHard
  else ZoneDetail.

Definition resolveThresholdToToken (value : number) (totalTokens : Z) : number :=
  if negb (isFinite value) || ltb value (of_Z 0) then of_Z 0
  else if ltb value (of_Z 1) then floor (mul (of_Z totalTokens) value)
  else min (of_Z totalTokens) (floor value).

(** [Number.isFinite(value)] at a place that may hold [undefined] ([None]). *)
Definition isFiniteNumber (value : option number) : bool :=
  match value with Some n => isFinite n | None => false end.

Definition safePositiveInt (value : option number) (fallback : number) : number :=
  match value with
  | Some n => if negb (isFinite n) || leb n (of_Z 0) then fallback else floor n
  | None => fallback
  end.

Definition safeNonNegativeNumber (value : option number) (fallback : number)
  : number :=
  match value with
  | Some n => if negb (isFinite n) || ltb n (of_Z 0) then fallback else n
  | None => fallback
  end.

(** *** The input of [normalizeConfig]

    [Partial<EasyPruningConfig>]: a key is missing, present and [undefined],
    or present with a value of its type. *)
Inductive optional (A : Type) :=
| Absent
| Undefined
| Given (a : A).
Arguments Absent {A}.
Arguments Undefined {A}.
Arguments Given {A} a.

Record RawSoftTrim := {
  raw_max_chars : optional number;
  raw_head_chars : optional number;
  raw_tail_chars : optional number;
}.

Record RawConfig := {
  raw_pruning_threshold : optional number;
  raw_trigger_every_n_tokens : optional number;
  raw_keep_recent_tokens : optional number;
  raw_keep_recent_messages : optional number;
  raw_keep_rencent_message : optional number;
  raw_soft_threshold : optional number;
  raw_hard_threshold : optional number;
  raw_detail_threshold : optional number;
  raw_soft_trim : optional RawSoftTrim;
  raw_hard_clear_placeholder : optional jstr;
  raw_detail_placeholder : optional jstr;
  raw_skip_tools_with_images : optional bool;
  raw_compaction_threshold_hint : optional number;
}.

(** The object [{}]. *)
Definition emptyRawSoftTrim : RawSoftTrim :=
  {| raw_max_chars := Absent; raw_head_chars := Absent; raw_tail_chars := Absent |}.

Definition emptyRaw : RawConfig :=
  {| raw_pruning_threshold := Absent; raw_trigger_every_n_tokens := Absent;
     raw_keep_recent_tokens := Absent; raw_keep_recent_messages := Absent;
     raw_keep_rencent_message := Absent; raw_soft_threshold := Absent;
     raw_hard_threshold := Absent; raw_detail_threshold := Absent;
     raw_soft_trim := Absent; raw_hard_clear_placeholder := Absent;
     raw_detail_placeholder := Absent; raw_skip_tools_with_images := Absent;
     raw_compaction_threshold_hint := Absent |}.

(** One key of [{ ...defaults, ...input }]: what the merged object reads
    there, [None] for [undefined]. *)
Definition spreadOver {A} (fromDefaults : option A) (fromInput : optional A)
  : option A :=
  match fromInput with
  | Absent => fromDefaults
  | Undefined => None
  | Given a => Some a
  end.

(** [String(value || fallback)] at a string-typed place. *)
Definition orString (value : option jstr) (fallback : jstr) : jstr :=
  match value with
  | Some (c :: s) => c :: s
  | _ => fallback
  end.

Definition normalizeConfig (defaults : EasyPruningConfig) (raw : option RawConfig)
  : EasyPruningConfig :=
  let input := match raw with Some r => r | None => emptyRaw end in
  let keepRecentMessagesRaw :=
    match raw_keep_recent_messages input with
    | Given n => n
    | _ => match raw_keep_rencent_message input with
           | Given n => n
           | _ => keep_recent_messages defaults
           end
    end in
  let inputTrim :=
    match raw_soft_trim input with Given t => t | _ => emptyRawSoftTrim end in
  let over {A} (d : A) (i : optional A) := spreadOver (Some d) i in
  {| pruning_threshold :=
       safePositiveInt
         (over (pruning_threshold defaults) (raw_pruning_threshold input))
         (pruning_threshold defaults);
     trigger_every_n_tokens :=
       safePositiveInt
         (over (trigger_every_n_tokens defaults) (raw_trigger_every_n_tokens input))
         (trigger_every_n_tokens defaults);
     keep_recent_tokens :=
       safePositiveInt
         (over (keep_recent_tokens defaults) (raw_keep_recent_tokens input))
         (keep_recent_tokens defaults);
     keep_recent_messages := max (of_Z 0) (floor keepRecentMessagesRaw);
     keep_rencent_message :=
       spreadOver (keep_rencent_message defaults) (raw_keep_rencent_message input);
     soft_threshold :=
       safeNonNegativeNumber
         (over (soft_threshold defaults) (raw_soft_threshold input))
         (soft_threshold defaults);
     hard_threshold :=
       safeNonNegativeNumber
         (over (hard_threshold defaults) (raw_hard_threshold input))
         (hard_threshold defaults);
     detail_threshold :=
       safeNonNegativeNumber
         (over (detail_threshold defaults) (raw_detail_threshold input))
         (detail_threshold defaults);
     soft_trim :=
       {| max_chars :=
            safePositiveInt
              (over (max_chars (soft_trim defaults)) (raw_max_chars inputTrim))
              (max_chars (soft_trim defaults));
          head_chars :=
            safePositiveInt
              (over (head_chars (soft_trim defaults)) (raw_head_chars inputTrim))
              (head_chars (soft_trim defaults));
          tail_chars :=
            safePositiveInt
              (over (tail_chars (soft_trim defaults)) (raw_tail_chars inputTrim))
              (tail_chars (soft_trim defaults)) |};
     hard_clear_placeholder :=
       orString
         (over (hard_clear_placeholder defaults) (raw_hard_clear_placeholder input))
         (hard_clear_placeholder defaults);
     detail_placeholder :=
       orString
         (over (detail_placeholder defaults) (raw_detail_placeholder input))
         (detail_placeholder defaults);
     skip_tools_with_images :=
       spreadOver (skip_tools_with_images defaults) (raw_skip_tools_with_images input);
     compaction_threshold_hint :=
       spreadOver (compaction_threshold_hint defaults)
         (raw_compaction_threshold_hint input) |}.

(** A normalised configuration handed back as an input: every key it holds
    is present, with its value or [undefined]. *)
Definition present {A} (v : option A) : optional A :=
  match v with Some a => Given a | None => Undefined end.

Definition asInput (cfg : EasyPruningConfig) : RawConfig :=
  {| raw_pruning_threshold := Given (pruning_threshold cfg);
     raw_trigger_every_n_tokens := Given (trigger_every_n_tokens cfg);
     raw_keep_recent_tokens := Given (keep_recent_tokens cfg);
     raw_keep_recent_messages := Given (keep_recent_messages cfg);
     raw_keep_rencent_message := present (keep_rencent_message cfg);
     raw_soft_threshold := Given (soft_threshold cfg);
     raw_hard_threshold := Given (hard_threshold cfg);
     raw_detail_threshold := Given (detail_threshold cfg);
     raw_soft_trim :=
       Given {| raw_max_chars := Given (max_chars (soft_trim cfg));
                raw_head_chars := Given (head_chars (soft_trim cfg));
                raw_tail_chars := Given (tail_chars (soft_trim cfg)) |};
     raw_hard_clear_placeholder := Given (hard_clear_placeholder cfg);
     raw_detail_placeholder := Given (detail_placeholder cfg);
     raw_skip_tools_with_images := present (skip_tools_with_images cfg);
     raw_compaction_threshold_hint := present (compaction_threshold_hint cfg) |}.

(** *** Token estimation, timeline and orchestration *)
Section WithRendering.

Variable Number_toString : number -> jstr.

Fixpoint estimateUnknownChars (input : value) : Z :=
  match input with
  | VUndef | VNull => 0
  | VStr s => Z.of_nat (length s)
  | VNum _ | VBool _ => Z.of_nat (length (toString Number_toString input))
  | VArr items =>
      fold_left (fun sum item => sum + estimateUnknownChars item)%Z items 0%Z
  | VObj _ =>
      match JSON_stringify Number_toString input with
      | Some text => Z.of_nat (length text)
      | None => 128
      end
  end.

Definition estimateMessageTokens (msg : value) : Z :=
  let roleWeight :=
    match get msg "role" with VStr r => Z.of_nat (length r) | _ => 0%Z end in
  let contentWeight := estimateUnknownChars (get msg "content") in
  let chars := (roleWeight + contentWeight + 16)%Z in
  Qceiling (inject_Z chars / inject_Z TOKENS_PER_CHAR_ESTIMATE).

(** [!raw || typeof raw !== "object"]. *)
Definition notMessageLike (raw : value) : bool :=
  negb (truthy raw) || negb (typeofObject raw).

Definition estimateContextTokens (messages : list value) : Z :=
  fold_left
    (fun sum raw =>
       if notMessageLike raw then sum else (sum + estimateMessageTokens raw)%Z)
    messages 0%Z.

(** The loop of [buildMessageMeta], from index [i] with the token cursor at
    [cursor]. *)
Fixpoint buildMessageMeta_from (i : nat) (cursor : Z) (messages : list value)
  : list MessageMeta :=
  match messages with
  | [] => []
  | raw :: rest =>
      if notMessageLike raw then buildMessageMeta_from (S i) cursor rest
      else
        let tokenCount := Z.max 1 (estimateMessageTokens raw) in
        let tokenStart := cursor in
        let tokenEnd := (tokenStart + tokenCount)%Z in
        let tokenMid := (inject_Z tokenStart + inject_Z tokenCount / 2)%Q in
        {| index := i;
           message := raw;
           role := Strategies.roleOf Number_toString raw;
           tokenCount := tokenCount;
           tokenStart := tokenStart;
           tokenEnd := tokenEnd;
           tokenMid := tokenMid |}
        :: buildMessageMeta_from (S i) tokenEnd rest
  end.

Definition buildMessageMeta (messages : list value) : list MessageMeta :=
  buildMessageMeta_from 0 0 messages.

(** The three protection rules of the first loop. *)
Definition protects (keepRecentMessageStartIndex keepRecentStartToken : number)
    (meta : MessageMeta) : bool :=
  if bool_decide (role meta = str "user") || bool_decide (role meta = str "system")
  then true
  else if geb (of_nat (index meta)) keepRecentMessageStartIndex then true
  else if geb (of_Z (tokenStart meta)) keepRecentStartToken then true
  else false.

Definition protectedSet (keepRecentMessageStartIndex keepRecentStartToken : number)
    (metas : list MessageMeta) : gset nat :=
  fold_left
    (fun acc meta =>
       if protects keepRecentMessageStartIndex keepRecentStartToken meta
       then {[ index meta ]} ∪ acc else acc)
    metas ∅.

(** The state the second loop updates: the working copy, the flag and the
    statistics. *)
Record Pass := {
  out : list value;
  changed : bool;
  stats : PruningStats;
}.

Definition recordChange (zone : MessageZone) (delta : Z) (s : PruningStats)
  : PruningStats :=
  {| contextTokensBefore := contextTokensBefore s;
     contextTokensAfter := contextTokensAfter s;
     deletedTokens := deletedTokens s;
     totalMessages := totalMessages s;
     protectedMessages := protectedMessages s;
     changedMessages := changedMessages s + 1;
     zoneChanged := bump zone 1 (zoneChanged s);
     zoneDeletedTokens := bump zone delta (zoneDeletedTokens s) |}.

Section Loop.

Variable config : EasyPruningConfig.
Variable protectedIndices : gset nat.
Variables prunableEndToken softStart hardStart detailStart : number.

(** One turn of the second loop; [None] when the strategy raises. *)
Definition pruneStep (st : Pass) (meta : MessageMeta) : option Pass :=
  if bool_decide (index meta ∈ protectedIndices) then Some st
  else if geb (Fin (tokenMid meta)) prunableEndToken then Some st
  else
    let zone := resolveZone (tokenMid meta) softStart hardStart detailStart in
    match zone with
    | ZoneNone => Some st
    | _ =>
        let original := message meta in
        next ← Strategies.applyStrategy Number_toString config zone original;
        match next with
        | Same => Some st
        | Fresh next =>
            let before := estimateMessageTokens original in
            let after := estimateMessageTokens next in
            let delta := Z.max 0 (before - after) in
            Some {| out := <[ index meta := next ]> (out st);
                    changed := true;
                    stats := recordChange zone delta (stats st) |}
        end
    end.

Fixpoint pruneLoop (metas : list MessageMeta) (st : Pass) : option Pass :=
  match metas with
  | [] => Some st
  | meta :: rest => st' ← pruneStep st meta; pruneLoop rest st'
  end.

End Loop.

(** What [applyPruningWithStats] returns. [replaced] tells whether
    [messages] is a new array holding at least one new object rather than
    the caller's own array: callers recover it by comparing references. *)
Record PruneResult := {
  messages : list value;
  resultStats : PruningStats;
  replaced : bool;
}.

Definition lastTokenEnd (metas : list MessageMeta) : Z :=
  match last metas with Some meta => tokenEnd meta | None => 0%Z end.

Definition emptyStats (beforeTokens : Z) (count : nat) : PruningStats :=
  {| contextTokensBefore := beforeTokens;
     contextTokensAfter := beforeTokens;
     deletedTokens := 0;
     totalMessages := Z.of_nat count;
     protectedMessages := 0;
     changedMessages := 0;
     zoneChanged := {| soft := 0; hard := 0; detail := 0 |};
     zoneDeletedTokens := {| soft := 0; hard := 0; detail := 0 |} |}.

Definition withProtected (n : Z) (s : PruningStats) : PruningStats :=
  {| contextTokensBefore := contextTokensBefore s;
     contextTokensAfter := contextTokensAfter s;
     deletedTokens := deletedTokens s;
     totalMessages := totalMessages s;
     protectedMessages := n;
     changedMessages := changedMessages s;
     zoneChanged := zoneChanged s;
     zoneDeletedTokens := zoneDeletedTokens s |}.

Definition withAfter (afterTokens : Z) (s : PruningStats) : PruningStats :=
  {| contextTokensBefore := contextTokensBefore s;
     contextTokensAfter := afterTokens;
     deletedTokens := Z.max 0 (contextTokensBefore s - afterTokens);
     totalMessages := totalMessages s;
     protectedMessages := protectedMessages s;
     changedMessages := changedMessages s;
     zoneChanged := zoneChanged s;
     zoneDeletedTokens := zoneDeletedTokens s |}.

Definition keepRecentStartTokenOf (config : EasyPruningConfig) (totalTokens : Z)
  : number :=
  max (of_Z 0) (sub (of_Z totalTokens) (keep_recent_tokens config)).

Definition keepRecentMessageStartIndexOf (config : EasyPruningConfig)
    (count : nat) : number :=
  max (of_Z 0) (sub (of_nat count) (keep_recent_messages config)).

(** The three boundaries after the two ordering repairs. *)
Definition zoneStarts (config : EasyPruningConfig) (totalTokens : Z)
  : number * number * number :=
  let softStart := resolveThresholdToToken (soft_threshold config) totalTokens in
  let hardStart := resolveThresholdToToken (hard_threshold config) totalTokens in
  let detailStart := resolveThresholdToToken (detail_threshold config) totalTokens in
  let hardStart := if ltb hardStart softStart then softStart else hardStart in
  let detailStart := if ltb detailStart hardStart then hardStart else detailStart in
  (softStart, hardStart, detailStart).

Definition applyPruningWithStats (msgs : list value) (config : EasyPruningConfig)
  : option PruneResult :=
  let metas := buildMessageMeta msgs in
  let beforeTokens := lastTokenEnd metas in
  let emptyStats := emptyStats beforeTokens (length msgs) in
  match metas with
  | [] => Some {| messages := msgs; resultStats := emptyStats; replaced := false |}
  | _ =>
      let totalTokens := lastTokenEnd metas in
      let keepRecentStartToken := keepRecentStartTokenOf config totalTokens in
      let keepRecentMessageStartIndex :=
        keepRecentMessageStartIndexOf config (length msgs) in
      let protectedIndices :=
        protectedSet keepRecentMessageStartIndex keepRecentStartToken metas in
      let '(softStart, hardStart, detailStart) := zoneStarts config totalTokens in
      let prunableEndToken := keepRecentStartToken in
      let start :=
        {| out := msgs;
           changed := false;
           stats := withProtected (Z.of_nat (size protectedIndices)) emptyStats |} in
      final ← pruneLoop config protectedIndices prunableEndToken
                softStart hardStart detailStart metas start;
      if negb (changed final)
      then Some {| messages := msgs; resultStats := stats final; replaced := false |}
      else
        let afterTokens := estimateContextTokens (out final) in
        Some {| messages := out final;
                resultStats := withAfter afterTokens (stats final);
                replaced := true |}
  end.

Definition applyPruning (msgs : list value) (config : EasyPruningConfig)
  : option (list value) :=
  messages <$> applyPruningWithStats msgs config.

(** *** The trigger and cooldown gate *)

Record Ctx := {
  sessionKey : option jstr;
  sessionId : option jstr;
}.

(** What one call of the handler did, as its log lines tell it. *)
Inductive Outcome :=
| Ignored
| SkippedBelowThreshold
| SkippedCooldown
| CheckedNoChange (s : PruningStats)
| Pruned (s : PruningStats).

Record Handled := {
  outcome : Outcome;
  sessions : gmap jstr SessionTriggerState;
  eventMessages : list value;
}.

Definition freshState : SessionTriggerState :=
  {| lastTriggerTokenCount := 0; lastTriggeredAt := 0; pruneCount := 0 |}.

(** [ctx.sessionKey || ctx.sessionId || "__global__"]. *)
Definition sessionKeyOf (ctx : Ctx) : jstr :=
  orString (sessionKey ctx) (orString (sessionId ctx) (str "__global__")).

(** The handler [createBeforeAgentStartHandler] returns, run on the session
    store [sessionState] with the clock reading [now], for an event whose
    [messages] is an array. [None] when the pruning pass raises, which
    leaves the store as it was. The source's [changed], the negation of
    [sameArrayShallow(messages, result.messages)], is [replaced result]:
    the two arrays differ in a reference exactly when the pass stored a
    new object. *)
Definition handler (config : EasyPruningConfig)
    (sessionState : gmap jstr SessionTriggerState)
    (msgs : list value) (ctx : Ctx) (now : Z) : option Handled :=
  match msgs with
  | [] => Some {| outcome := Ignored; sessions := sessionState; eventMessages := msgs |}
  | _ =>
      let totalTokens := estimateContextTokens msgs in
      let key := sessionKeyOf ctx in
      if ltb (of_Z totalTokens) (pruning_threshold config)
      then Some {| outcome := SkippedBelowThreshold;
                   sessions := sessionState; eventMessages := msgs |}
      else
        let state := default freshState (sessionState !! key) in
        let tokensSinceLast := Z.max 0 (totalTokens - lastTriggerTokenCount state) in
        if (0 <? pruneCount state)%Z
           && ltb (of_Z tokensSinceLast) (trigger_every_n_tokens config)
        then Some {| outcome := SkippedCooldown;
                     sessions := sessionState; eventMessages := msgs |}
        else
          result ← applyPruningWithStats msgs config;
          let changed := replaced result in
          let state' :=
            {| lastTriggerTokenCount := totalTokens;
               lastTriggeredAt := now;
               pruneCount := if changed then pruneCount state + 1
                             else pruneCount state |} in
          let sessionState' := <[ key := state' ]> sessionState in
          if negb changed
          then Some {| outcome := CheckedNoChange (resultStats result);
                       sessions := sessionState'; eventMessages := msgs |}
          else Some {| outcome := Pruned (resultStats result);
                       sessions := sessionState';
                       eventMessages := messages result |}
  end.

End WithRendering.

End Pruner.

(** ** Concrete data: the shipped defaults and the test suite's inputs *)
Module Data.

(** [defaultConfig] of [src/index.ts]. *)
Definition defaultConfig : EasyPruningConfig :=
  {| pruning_threshold := of_Z 80000;
     trigger_every_n_tokens := of_Z 5000;
     keep_recent_tokens := of_Z 10000;
     keep_recent_messages := of_Z 10;
     keep_rencent_message := None;
     soft_threshold := Fin (7 # 10);
     hard_threshold := Fin (85 # 100);
     detail_threshold := Fin (95 # 100);
     soft_trim := {| max_chars := of_Z 4000;
                     head_chars := of_Z 1500;
                     tail_chars := of_Z 1500 |};
     hard_clear_placeholder := str "[Old tool result content cleared]";
     detail_placeholder := str "[Detailed execution context pruned to save tokens]";
     skip_tools_with_images := Some true;
     compaction_threshold_hint := None |}.

(** [defaults] of the test suite. *)
Definition testDefaults : EasyPruningConfig :=
  {| pruning_threshold := of_Z 100;
     trigger_every_n_tokens := of_Z 20;
     keep_recent_tokens := of_Z 20;
     keep_recent_messages := of_Z 2;
     keep_rencent_message := None;
     soft_threshold := Fin (3 # 10);
     hard_threshold := Fin (6 # 10);
     detail_threshold := Fin (85 # 100);
     soft_trim := {| max_chars := of_Z 40;
                     head_chars := of_Z 10;
                     tail_chars := of_Z 10 |};
     hard_clear_placeholder := str "[CLEARED]";
     detail_placeholder := str "[DETAIL_PRUNED]";
     skip_tools_with_images := Some true;
     compaction_threshold_hint := None |}.

(** The configuration of the test "uses absolute token thresholds when >= 1". *)
Definition absoluteConfig : EasyPruningConfig :=
  {| pruning_threshold := of_Z 100;
     trigger_every_n_tokens := of_Z 20;
     keep_recent_tokens := of_Z 0;
     keep_recent_messages := of_Z 0;
     keep_rencent_message := None;
     soft_threshold := of_Z 1;
     hard_threshold := of_Z 20;
     detail_threshold := of_Z 40;
     soft_trim := soft_trim testDefaults;
     hard_clear_placeholder := str "[CLEARED]";
     detail_placeholder := str "[DETAIL_PRUNED]";
     skip_tools_with_images := Some true;
     compaction_threshold_hint := None |}.

(** [{ role, content }]. *)
Definition msg (role : string) (content : value) : value :=
  VObj [(str "role", VStr (str role)); (str "content", content)].

(** ["c".repeat(n)]. *)
Definition repeated (n : nat) (c : string) : jstr := concat (repeat (str c) n).

Definition absoluteMessages : list value :=
  [ msg "tool_result" (VStr (repeated 120 "X"));
    msg "tool_result" (VStr (repeated 120 "Y"));
    msg "tool_result" (VStr (repeated 120 "Z")) ].

Definition protectedMessagesExample : list value :=
  [ msg "system" (VStr (str "SOUL"));
    msg "user" (VStr (str "hello"));
    msg "tool_result" (VStr (repeated 200 "A"));
    msg "assistant" (VStr (str "ok")) ].

(** A rendering of numbers to run the model with: that of JavaScript for
    [NaN], the infinities and the integers below 10^21. A number with a
    fraction is rendered by its integral part; none occurs inside the
    messages of the examples below. *)
Definition renderNumber (n : number) : jstr :=
  match n with
  | NaN => str "NaN"
  | PInf => str "Infinity"
  | NInf => str "-Infinity"
  | Fin q => str (DecimalString.NilZero.string_of_int (Z.to_int (Qfloor q)))
  end.

(** The test "keeps recent tail by keep_recent_messages": eight tool
    results, the last three kept. *)
Definition tailConfig : EasyPruningConfig :=
  {| pruning_threshold := of_Z 100;
     trigger_every_n_tokens := of_Z 20;
     keep_recent_tokens := of_Z 0;
     keep_recent_messages := of_Z 3;
     keep_rencent_message := None;
     soft_threshold := Fin (3 # 10);
     hard_threshold := Fin (6 # 10);
     detail_threshold := Fin (85 # 100);
     soft_trim := soft_trim testDefaults;
     hard_clear_placeholder := str "[CLEARED]";
     detail_placeholder := str "[DETAIL_PRUNED]";
     skip_tools_with_images := Some true;
     compaction_threshold_hint := None |}.

Definition payload (i : string) : value :=
  msg "tool_result" (VStr (str "payload-" ++ str i ++ str "-" ++ repeated 80 "A")).

Definition tailMessages : list value :=
  List.map payload ["0"; "1"; "2"; "3"; "4"; "5"; "6"; "7"]%string.

(** The test "soft pruning keeps head + tail for oversized tool results". *)
Definition oversized : value := msg "tool_result" (VStr (repeated 100 "A")).

(** The test "hard pruning replaces full tool result". *)
Definition longPayload : value := msg "tool_result" (VStr (str "Long payload")).

(** Tool results that name an image file. *)
Definition screenshot : value :=
  msg "tool_result" (VStr (str "shot.png" ++ repeated 100 "A")).

Definition chart : value := msg "tool_result" (VStr (str "see chart.png")).

(** A tool result in which a marker early in the list stands before a
    marker late in the list. *)
Definition twoMarkers : jstr := str "Summary: a" ++ [10%N] ++ str "Answer: b".

Definition report : value := msg "tool_result" (VStr twoMarkers).

(** A tool result that ends in a final answer. *)
Definition solved : value :=
  msg "tool_result" (VStr (str "step 1" ++ [10; 10]%N ++ str "Final Answer: 42")).

(** [{ pruning_threshold: 0.5 }] and [{ keep_recent_messages: -5 }]. *)
Definition fractionalInput : Pruner.RawConfig :=
  {| Pruner.raw_pruning_threshold := Pruner.Given (Fin (1 # 2));
     Pruner.raw_trigger_every_n_tokens := Pruner.Absent;
     Pruner.raw_keep_recent_tokens := Pruner.Absent;
     Pruner.raw_keep_recent_messages := Pruner.Absent;
     Pruner.raw_keep_rencent_message := Pruner.Absent;
     Pruner.raw_soft_threshold := Pruner.Absent;
     Pruner.raw_hard_threshold := Pruner.Absent;
     Pruner.raw_detail_threshold := Pruner.Absent;
     Pruner.raw_soft_trim := Pruner.Absent;
     Pruner.raw_hard_clear_placeholder := Pruner.Absent;
     Pruner.raw_detail_placeholder := Pruner.Absent;
     Pruner.raw_skip_tools_with_images := Pruner.Absent;
     Pruner.raw_compaction_threshold_hint := Pruner.Absent |}.

Definition negativeKeepInput : Pruner.RawConfig :=
  {| Pruner.raw_pruning_threshold := Pruner.Absent;
     Pruner.raw_trigger_every_n_tokens := Pruner.Absent;
     Pruner.raw_keep_recent_tokens := Pruner.Absent;
     Pruner.raw_keep_recent_messages := Pruner.Given (of_Z (-5));
     Pruner.raw_keep_rencent_message := Pruner.Absent;
     Pruner.raw_soft_threshold := Pruner.Absent;
     Pruner.raw_hard_threshold := Pruner.Absent;
     Pruner.raw_detail_threshold := Pruner.Absent;
     Pruner.raw_soft_trim := Pruner.Absent;
     Pruner.raw_hard_clear_placeholder := Pruner.Absent;
     Pruner.raw_detail_placeholder := Pruner.Absent;
     Pruner.raw_skip_tools_with_images := Pruner.Absent;
     Pruner.raw_compaction_threshold_hint := Pruner.Absent |}.

(** The test "supports keep_rencent_message typo alias":
    [{ keep_rencent_message: 7, keep_recent_messages: undefined }]. *)
Definition aliasInput : Pruner.RawConfig :=
  {| Pruner.raw_pruning_threshold := Pruner.Absent;
     Pruner.raw_trigger_every_n_tokens := Pruner.Absent;
     Pruner.raw_keep_recent_tokens := Pruner.Absent;
     Pruner.raw_keep_recent_messages := Pruner.Undefined;
     Pruner.raw_keep_rencent_message := Pruner.Given (of_Z 7);
     Pruner.raw_soft_threshold := Pruner.Absent;
     Pruner.raw_hard_threshold := Pruner.Absent;
     Pruner.raw_detail_threshold := Pruner.Absent;
     Pruner.raw_soft_trim := Pruner.Absent;
     Pruner.raw_hard_clear_placeholder := Pruner.Absent;
     Pruner.raw_detail_placeholder := Pruner.Absent;
     Pruner.raw_skip_tools_with_images := Pruner.Absent;
     Pruner.raw_compaction_threshold_hint := Pruner.Absent |}.

(** [{ pruning_threshold: 120000.5, keep_recent_tokens: -1,
       soft_threshold: 0.5, detail_threshold: NaN }]. *)
Definition overrideInput : Pruner.RawConfig :=
  {| Pruner.raw_pruning_threshold := Pruner.Given (Fin (240001 # 2));
     Pruner.raw_trigger_every_n_tokens := Pruner.Absent;
     Pruner.raw_keep_recent_tokens := Pruner.Given (of_Z (-1));
     Pruner.raw_keep_recent_messages := Pruner.Absent;
     Pruner.raw_keep_rencent_message := Pruner.Absent;
     Pruner.raw_soft_threshold := Pruner.Given (Fin (1 # 2));
     Pruner.raw_hard_threshold := Pruner.Absent;
     Pruner.raw_detail_threshold := Pruner.Given NaN;
     Pruner.raw_soft_trim := Pruner.Absent;
     Pruner.raw_hard_clear_placeholder := Pruner.Absent;
     Pruner.raw_detail_placeholder := Pruner.Absent;
     Pruner.raw_skip_tools_with_images := Pruner.Absent;
     Pruner.raw_compaction_threshold_hint := Pruner.Absent |}.

(** The test "detail pruning for assistant strips non-text blocks". *)
Definition thinkingReply : value :=
  msg "assistant"
    (VArr [ VObj [(str "type", VStr (str "thinking"));
                  (str "thinking", VStr (str "secret"))];
            VObj [(str "type", VStr (str "toolCall"));
                  (str "toolName", VStr (str "read"));
                  (str "arguments", VObj [(str "path", VStr (str "x"))])];
            VObj [(str "type", VStr (str "text"));
                  (str "text", VStr (str "final reply"))] ]).

(** A session without key or id: the store's ["__global__"] entry. *)
Definition anonymous : Pruner.Ctx :=
  {| Pruner.sessionKey := None; Pruner.sessionId := None |}.

End Data.

(** ** The binary64 product, against the floats of the machine *)
Module Hardware.

(** The rational a float holds; [None] for [NaN] and the infinities. *)
Definition ofFloat (f : PrimFloat.float) : option Q :=
  match FloatOps.Prim2SF f with
  | SpecFloat.S754_zero _ => Some 0%Q
  | SpecFloat.S754_finite negative m e =>
      Some (Qred ((if negative then -1 else 1) * inject_Z (Z.pos m) * 2 ^ e))
  | _ => None
  end.

(** A whole number below 2^63 in magnitude, as a float. *)
Definition toFloat (z : Z) : PrimFloat.float :=
  match z with
  | Z0 => PrimFloat.zero
  | Z.pos _ => PrimFloat.of_uint63 (Uint63.of_Z z)
  | Z.neg p => PrimFloat.opp (PrimFloat.of_uint63 (Uint63.of_Z (Z.pos p)))
  end.

(** The float nearest to [n / d], for [n] and [d] below 2^53: the literal
    [n / d], since a quotient of floats is rounded once. *)
Definition literal (n d : Z) : PrimFloat.float :=
  PrimFloat.div (toFloat n) (toFloat d).

(** [totalTokens * value] on the machine and in the model. *)
Definition sameProduct (totalTokens n d : Z) : bool :=
  match ofFloat (PrimFloat.mul (toFloat totalTokens) (literal n d)) with
  | Some q => Qeq_bool q (Qred (binary64 (binary64 (inject_Z totalTokens)
                                          * binary64 (n # Z.to_pos d))))
  | None => false
  end.

Definition sameLiteral (n d : Z) : bool :=
  match ofFloat (literal n d) with
  | Some q => Qeq_bool q (binary64 (n # Z.to_pos d))
  | None => false
  end.

Definition ratios : list (Z * Z) :=
  [ (7, 10); (85, 100); (95, 100); (3, 10); (6, 10); (1, 10); (1, 3); (2, 3);
    (1, 7); (5, 9); (33, 100); (57, 100); (999, 1000); (1, 1000000);
    (123456789, 1000000000); (0, 1) ]%Z.

Definition totals : list Z :=
  [ 0; 1; 2; 3; 7; 10; 78; 90; 100; 111; 113; 1000; 4096; 12345; 80000; 99999;
    1048576; 123456789; 4503599627370497; 9007199254740991; 9007199254740992;
    1152921504606846976 ]%Z.

End Hardware.

(** ** Vocabulary of the statements *)
Module Spec.

(** A positive integer, as [safePositiveInt] means to return. *)
Definition positiveInteger (n : number) : Prop :=
  exists z : Z, (1 <= z)%Z /\ n = of_Z z.

Definition nonNegative (n : number) : Prop :=
  exists q : Q, (0 <= q)%Q /\ n = Fin q.

(** The six fields [normalizeConfig] passes through [safePositiveInt]. *)
Definition countFields (cfg : EasyPruningConfig) : list number :=
  [ pruning_threshold cfg; trigger_every_n_tokens cfg; keep_recent_tokens cfg;
    max_chars (soft_trim cfg); head_chars (soft_trim cfg);
    tail_chars (soft_trim cfg) ].

(** The three it passes through [safeNonNegativeNumber]. *)
Definition thresholdFields (cfg : EasyPruningConfig) : list number :=
  [ soft_threshold cfg; hard_threshold cfg; detail_threshold cfg ].

Definition safeDefaults (defaults : EasyPruningConfig) : Prop :=
  Forall positiveInteger (countFields defaults) /\
  Forall nonNegative (thresholdFields defaults).

(** Claim C4 in its own words. A count becomes the floor of the number
    given for its key when that is finite and above 0, and the default
    otherwise: when the key is missing or holds [undefined], [NaN], an
    infinity, 0 or a negative number. A threshold becomes the number given
    when that is finite and not negative, and the default otherwise. *)
Definition flooredOrDefault (given : Pruner.optional number) (default : number)
  : number :=
  match given with
  | Pruner.Given (Fin q) => if Qle_bool q 0 then default else of_Z (Qfloor q)
  | _ => default
  end.

Definition givenOrDefault (given : Pruner.optional number) (default : number)
  : number :=
  match given with
  | Pruner.Given (Fin q) => if Qle_bool 0 q then Fin q else default
  | _ => default
  end.

(** What an input gives for the six counts and for the three thresholds,
    in the order of [countFields] and [thresholdFields]; [undefined] and a
    missing or [undefined] [soft_trim] give nothing. *)
Definition softTrimInput (raw : option Pruner.RawConfig) : Pruner.RawSoftTrim :=
  match raw with
  | Some input =>
      match Pruner.raw_soft_trim input with
      | Pruner.Given trim => trim
      | _ => Pruner.emptyRawSoftTrim
      end
  | None => Pruner.emptyRawSoftTrim
  end.

Definition countInputs (raw : option Pruner.RawConfig)
  : list (Pruner.optional number) :=
  let input := match raw with Some r => r | None => Pruner.emptyRaw end in
  [ Pruner.raw_pruning_threshold input; Pruner.raw_trigger_every_n_tokens input;
    Pruner.raw_keep_recent_tokens input;
    Pruner.raw_max_chars (softTrimInput raw);
    Pruner.raw_head_chars (softTrimInput raw);
    Pruner.raw_tail_chars (softTrimInput raw) ].

Definition thresholdInputs (raw : option Pruner.RawConfig)
  : list (Pruner.optional number) :=
  let input := match raw with Some r => r | None => Pruner.emptyRaw end in
  [ Pruner.raw_soft_threshold input; Pruner.raw_hard_threshold input;
    Pruner.raw_detail_threshold input ].

(** A number strictly between 0 and 1, which [Math.floor] turns into 0. *)
Definition fractional (given : Pruner.optional number) : Prop :=
  exists q : Q, given = Pruner.Given (Fin q) /\ (0 < q)%Q /\ (q < 1)%Q.

Definition noFractionalCount (raw : option Pruner.RawConfig) : Prop :=
  Forall (fun given => ~ fractional given) (countInputs raw).

(** The keep-recent count [normalizeConfig] reads: the key, else its
    misspelt alias, else the default. *)
Definition keepRecentInput (defaults : EasyPruningConfig)
    (raw : option Pruner.RawConfig) : number :=
  match raw with
  | Some input =>
      match Pruner.raw_keep_recent_messages input with
      | Pruner.Given n => n
      | _ => match Pruner.raw_keep_rencent_message input with
             | Pruner.Given n => n
             | _ => keep_recent_messages defaults
             end
      end
  | None => keep_recent_messages defaults
  end.

(** A marker that occurs nowhere in a text. *)
Definition absent (text marker : jstr) : Prop := lastIndexOf text marker = (-1)%Z.

Definition visibleHead (marker : jstr) : bool :=
  match marker with c :: _ => negb (isWhiteSpace c) | [] => false end.

(** Claim C8 in its own words: the position of the last occurrence of any
    marker of the list, [-1] when none occurs. *)
Definition lastOccurrenceOfAnyMarker (text : jstr) : Z :=
  fold_right Z.max (-1)%Z (List.map (lastIndexOf text) Strategies.markers).

Section WithRendering.

Variable Number_toString : number -> jstr.

(** What it takes for the second loop of [applyPruningWithStats] to write
    [next] at the entry of [meta]. *)
Definition rewritten (config : EasyPruningConfig) (protectedIndices : gset nat)
    (prunableEndToken softStart hardStart detailStart : number)
    (meta : Pruner.MessageMeta) (next : value) : Prop :=
  (Pruner.index meta ∉ protectedIndices) /\
  geb (Fin (Pruner.tokenMid meta)) prunableEndToken = false /\
  exists zone,
    zone = Pruner.resolveZone (Pruner.tokenMid meta) softStart hardStart detailStart /\
    zone <> ZoneNone /\
    Strategies.applyStrategy Number_toString config zone (Pruner.message meta)
    = Some (Fresh next).

(** The set of protected indices of a run. *)
Definition protectedIn (msgs : list value) (config : EasyPruningConfig) : gset nat :=
  let metas := Pruner.buildMessageMeta Number_toString msgs in
  let totalTokens := Pruner.lastTokenEnd metas in
  Pruner.protectedSet
    (Pruner.keepRecentMessageStartIndexOf config (length msgs))
    (Pruner.keepRecentStartTokenOf config totalTokens) metas.

(** The same, with the protected set, the prunable region and the zone
    boundaries of a run on [msgs]. *)
Definition rewrittenIn (msgs : list value) (config : EasyPruningConfig)
    (meta : Pruner.MessageMeta) (next : value) : Prop :=
  let metas := Pruner.buildMessageMeta Number_toString msgs in
  let totalTokens := Pruner.lastTokenEnd metas in
  rewritten config (protectedIn msgs config)
    (Pruner.keepRecentStartTokenOf config totalTokens)
    (Pruner.zoneStarts config totalTokens).1.1
    (Pruner.zoneStarts config totalTokens).1.2
    (Pruner.zoneStarts config totalTokens).2
    meta next.

(** The two recency conditions of claim C2, on an index of the list. *)
Definition recentByIndex (msgs : list value) (config : EasyPruningConfig)
    (i : nat) : Prop :=
  geb (of_nat i) (sub (of_nat (length msgs)) (keep_recent_messages config)) = true.

Definition recentByTokens (msgs : list value) (config : EasyPruningConfig)
    (i : nat) : Prop :=
  let metas := Pruner.buildMessageMeta Number_toString msgs in
  exists meta, meta ∈ metas /\ Pruner.index meta = i /\
    geb (of_Z (Pruner.tokenStart meta))
        (sub (of_Z (Pruner.lastTokenEnd metas)) (keep_recent_tokens config)) = true.

(** The text soft pruning builds from [raw]. *)
Definition softText (config : EasyPruningConfig) (raw : jstr) : jstr :=
  slice raw (of_Z 0) (Some (max (of_Z 0) (head_chars (soft_trim config))))
  ++ Strategies.truncationNote Number_toString (length raw)
  ++ slice raw
       (max (of_Z 0)
          (sub (of_nat (length raw)) (max (of_Z 0) (tail_chars (soft_trim config)))))
       None.

End WithRendering.

End Spec.

(** ** Further vocabulary: the orchestrator, the strategies and the gate
    beyond the places the claims name *)
Module Notions.

(** The zones in the order [resolveZone] tests them. *)
Definition zoneRank (zone : MessageZone) : nat :=
  match zone with
  | ZoneNone => 0
  | ZoneSoft => 1
  | ZoneHard => 2
  | ZoneDetail => 3
  end.


(** A text with a code unit that is not white space; a text with none. *)
Definition hasVisible (s : jstr) : bool :=
  existsb (fun c => negb (isWhiteSpace c)) s.

Definition blank (s : jstr) : bool := forallb isWhiteSpace s.

Definition zoneTotal (c : Pruner.ZoneCounts) : Z :=
  (Pruner.soft c + Pruner.hard c + Pruner.detail c)%Z.

(** A count that is an integer and not negative. *)
Definition naturalNumber (n : number) : Prop :=
  exists z : Z, (0 <= z)%Z /\ n = of_Z z.

(** The state the gate reads for a session: the stored one, else the
    fresh one. *)
Definition stateOf (sessionState : gmap jstr Pruner.SessionTriggerState)
    (ctx : Pruner.Ctx) : Pruner.SessionTriggerState :=
  default Pruner.freshState (sessionState !! Pruner.sessionKeyOf ctx).

Definition skipped (o : Pruner.Outcome) : Prop :=
  o = Pruner.Ignored \/ o = Pruner.SkippedBelowThreshold \/ o = Pruner.SkippedCooldown.

(** The counters of a pass agree with one another: the number of changed
    messages is the sum of the per-zone numbers, no counter is negative, and
    the changed flag is up exactly when a message was counted. *)
Definition countersAgree (st : Pruner.Pass) : Prop :=
  let s := Pruner.stats st in
  Pruner.changedMessages s = zoneTotal (Pruner.zoneChanged s) /\
  (0 <= Pruner.soft (Pruner.zoneChanged s))%Z /\
  (0 <= Pruner.hard (Pruner.zoneChanged s))%Z /\
  (0 <= Pruner.detail (Pruner.zoneChanged s))%Z /\
  (0 <= Pruner.soft (Pruner.zoneDeletedTokens s))%Z /\
  (0 <= Pruner.hard (Pruner.zoneDeletedTokens s))%Z /\
  (0 <= Pruner.detail (Pruner.zoneDeletedTokens s))%Z /\
  (Pruner.changed st = true <-> (1 <= Pruner.changedMessages s)%Z).

Section WithRendering.

Variable Number_toString : number -> jstr.

(** What one entry of the list adds to [estimateContextTokens]. *)
Definition contribution (raw : value) : Z :=
  if Pruner.notMessageLike raw then 0%Z
  else Pruner.estimateMessageTokens Number_toString raw.

(** The zone of a metadata entry in a run on [msgs]. *)
Definition zoneIn (msgs : list value) (config : EasyPruningConfig)
    (meta : Pruner.MessageMeta) : MessageZone :=
  let totalTokens :=
    Pruner.lastTokenEnd (Pruner.buildMessageMeta Number_toString msgs) in
  let starts := Pruner.zoneStarts config totalTokens in
  Pruner.resolveZone (Pruner.tokenMid meta) starts.1.1 starts.1.2 starts.2.

End WithRendering.

End Notions.
(** ** Facts about numbers *)
Section NumberFacts.

Lemma cmp_Fin (a b : Q) : cmp (Fin a) (Fin b) = Some (a ?= b)%Q.
Proof. reflexivity. Qed.

Lemma ltb_Fin (a b : Q) : ltb (Fin a) (Fin b) = true <-> (a < b)%Q.
Proof.
  unfold ltb. rewrite cmp_Fin, Qlt_alt.
  destruct (a ?= b)%Q; split; congruence.
Qed.

Lemma ltb_Fin_false (a b : Q) : ltb (Fin a) (Fin b) = false <-> (b <= a)%Q.
Proof.
  rewrite <- not_true_iff_false, ltb_Fin. split.
  - apply Qnot_lt_le.
  - apply Qle_not_lt.
Qed.

Lemma leb_Fin (a b : Q) : leb (Fin a) (Fin b) = true <-> (a <= b)%Q.
Proof.
  unfold leb. rewrite cmp_Fin, Qle_alt.
  destruct (a ?= b)%Q; split; congruence.
Qed.

Lemma leb_Fin_false (a b : Q) : leb (Fin a) (Fin b) = false <-> (b < a)%Q.
Proof.
  rewrite <- not_true_iff_false, leb_Fin. split.
  - apply Qnot_le_lt.
  - apply Qlt_not_le.
Qed.

Lemma of_Z_le (x y : Z) : leb (of_Z x) (of_Z y) = true <-> (x <= y)%Z.
Proof. unfold of_Z. rewrite leb_Fin, <- Zle_Qle. reflexivity. Qed.

Lemma of_Z_lt (x y : Z) : ltb (of_Z x) (of_Z y) = true <-> (x < y)%Z.
Proof. unfold of_Z. rewrite ltb_Fin, <- Zlt_Qlt. reflexivity. Qed.

Lemma of_Z_inj (x y : Z) : of_Z x = of_Z y -> x = y.
Proof. unfold of_Z, inject_Z. congruence. Qed.

Lemma floor_of_Z (z : Z) : floor (of_Z z) = of_Z z.
Proof. unfold floor, of_Z. now rewrite Qfloor_Z. Qed.

(** A comparison that holds has no [NaN] on either side. *)
Lemma leb_true_cmp (x y : number) :
  leb x y = true -> cmp x y = Some Lt \/ cmp x y = Some Eq.
Proof. unfold leb. destruct (cmp x y) as [[]|]; auto; discriminate. Qed.

Lemma ltb_leb (x y : number) : ltb x y = true -> leb x y = true.
Proof. unfold ltb, leb. destruct (cmp x y) as [[]|]; auto. Qed.

Lemma geb_ltb (x y : number) : geb x y = true -> ltb x y = false.
Proof.
  unfold geb, leb, ltb.
  destruct x as [| | |a], y as [| | |b]; simpl; try reflexivity; try discriminate.
  rewrite <- Qcompare_antisym. destruct (a ?= b)%Q; simpl; congruence.
Qed.

(** [x >= Math.max(0, y)] follows from [x >= y] when [x] is not negative. *)
Lemma geb_max_zero (x : Z) (y : number) :
  (0 <= x)%Z -> geb (of_Z x) y = true -> geb (of_Z x) (max (of_Z 0) y) = true.
Proof.
  intros Hx. unfold geb, max.
  destruct y as [| | |b]; simpl; try discriminate.
  - intros _. apply (of_Z_le 0 x), Hx.
  - change (leb (Fin b) (of_Z x) = true ->
            leb (match (inject_Z 0 ?= b)%Q with Lt => Fin b | _ => of_Z 0 end)
                (of_Z x) = true).
    intros H. destruct (inject_Z 0 ?= b)%Q; try exact H; apply (of_Z_le 0 x), Hx.
Qed.

(** *** Rounding to binary64 *)

Lemma roundHalfEven_nonneg (y : Q) : (0 <= y)%Q -> (0 <= roundHalfEven y)%Z.
Proof.
  intros H. unfold roundHalfEven.
  assert (0 <= Qfloor y)%Z
    by (change 0%Z with (Qfloor (inject_Z 0)); apply Qfloor_resp_le; exact H).
  destruct (_ ?= _)%Q; try lia. destruct (Z.even _); lia.
Qed.

Lemma roundHalfEven_le (y : Q) (n : Z) :
  (y <= inject_Z n)%Q -> (roundHalfEven y <= n)%Z.
Proof.
  intros H. unfold roundHalfEven.
  assert (Hf : (Qfloor y <= n)%Z)
    by (rewrite <- (Qfloor_Z n); apply Qfloor_resp_le; exact H).
  destruct (Z.eq_dec (Qfloor y) n) as [E|E].
  - assert (Hy : (y - inject_Z (Qfloor y) <= 0)%Q) by (rewrite E; lra).
    destruct (Qcompare_spec (y - inject_Z (Qfloor y)) (1 # 2)) as [C|C|C];
      try lia; lra.
  - destruct (_ ?= _)%Q; try lia. destruct (Z.even _); lia.
Qed.

Lemma Qpower_two_pos (e : Z) : (0 < 2 ^ e)%Q.
Proof. apply Qpower_0_lt. reflexivity. Qed.

Lemma binary64_nonneg (q : Q) : (0 <= q)%Q -> (0 <= binary64 q)%Q.
Proof.
  intros H. unfold binary64. rewrite Qred_correct.
  set (e := Z.max _ _). pose proof (Qpower_two_pos e) as Hp.
  apply Qmult_le_0_compat; [|apply Qlt_le_weak, Hp].
  change 0%Q with (inject_Z 0). rewrite <- Zle_Qle.
  apply roundHalfEven_nonneg. apply Qle_shift_div_l; [exact Hp|]. lra.
Qed.

Lemma exponentOf_small (q : Q) (n : Z) :
  (0 <= q)%Q -> (q <= inject_Z n)%Q -> (n < 2 ^ 53)%Z -> (exponentOf q <= 52)%Z.
Proof.
  intros H0 Hn Hsmall. unfold exponentOf.
  pose proof (Qabs_pos q H0) as Ha. set (a := Qabs q) in *.
  destruct (Qle_bool 1 a) eqn:E.
  - apply Qle_bool_iff in E.
    assert (1 <= Qfloor a)%Z
      by (change 1%Z with (Qfloor (inject_Z 1)); apply Qfloor_resp_le; exact E).
    assert (Qfloor a <= n)%Z
      by (rewrite <- (Qfloor_Z n); apply Qfloor_resp_le; rewrite Ha; exact Hn).
    assert (Z.log2 (Qfloor a) < 53)%Z
      by (apply Z.log2_lt_pow2; [lia|eapply Z.le_lt_trans; eassumption]).
    lia.
  - pose proof (Z.log2_up_nonneg (Qceiling (/ a))). lia.
Qed.

(** Rounding never crosses a whole number below 2^53. *)
Lemma binary64_le (q : Q) (n : Z) :
  (0 <= q)%Q -> (q <= inject_Z n)%Q -> (n < 2 ^ 53)%Z ->
  (binary64 q <= inject_Z n)%Q.
Proof.
  intros H0 Hn Hsmall. unfold binary64. rewrite Qred_correct.
  pose proof (exponentOf_small q n H0 Hn Hsmall) as He.
  set (e := Z.max _ _).
  assert (Hneg : (e <= 0)%Z) by (subst e; lia).
  set (k := (- e)%Z).
  assert (Hpow : (2 ^ e == / inject_Z (2 ^ k))%Q).
  { replace e with (- k)%Z by (subst k; lia).
    rewrite Qpower_opp, Zpower_Qpower by (subst k; lia). reflexivity. }
  assert (Hk : (0 < inject_Z (2 ^ k))%Q).
  { change 0%Q with (inject_Z 0). rewrite <- Zlt_Qlt.
    apply Z.pow_pos_nonneg; subst k; lia. }
  assert (Hm : (roundHalfEven (q / 2 ^ e) <= n * 2 ^ k)%Z).
  { apply roundHalfEven_le. rewrite inject_Z_mult, Hpow.
    unfold Qdiv. rewrite Qinv_involutive.
    apply Qmult_le_compat_r; [exact Hn|apply Qlt_le_weak, Hk]. }
  revert Hm. generalize (roundHalfEven (q / 2 ^ e)). intros m Hm.
  rewrite Hpow. apply Qle_shift_div_r; [exact Hk|].
  rewrite <- inject_Z_mult, <- Zle_Qle. exact Hm.
Qed.

End NumberFacts.

(** ** Zone boundaries *)
Section Boundaries.

Lemma resolve_finite (value : number) (totalTokens : Z) :
  exists q, Pruner.resolveThresholdToToken value totalTokens = Fin q.
Proof.
  unfold Pruner.resolveThresholdToToken.
  destruct value as [| | |v]; simpl; eauto.
  destruct (ltb (Fin v) (of_Z 0)); eauto.
  destruct (ltb (Fin v) (of_Z 1)); simpl; eauto.
  unfold min, of_Z. rewrite cmp_Fin. destruct (_ ?= _)%Q; eauto.
Qed.

(** A ratio: a finite value in [0, 1). *)
Lemma resolve_ratio (v : Q) (totalTokens : Z) :
  (0 <= v)%Q -> (v < 1)%Q ->
  Pruner.resolveThresholdToToken (Fin v) totalTokens
  = of_Z (Qfloor (binary64 (binary64 (inject_Z totalTokens) * binary64 v))).
Proof.
  intros H0 H1. unfold Pruner.resolveThresholdToToken. cbn [isFinite negb orb].
  replace (ltb (Fin v) (of_Z 0)) with false
    by (symmetry; apply ltb_Fin_false; exact H0).
  replace (ltb (Fin v) (of_Z 1)) with true
    by (symmetry; apply ltb_Fin; exact H1).
  reflexivity.
Qed.

(** An absolute position: a finite value at or above 1. *)
Lemma resolve_absolute (v : Q) (totalTokens : Z) :
  (1 <= v)%Q ->
  Pruner.resolveThresholdToToken (Fin v) totalTokens
  = of_Z (Z.min totalTokens (Qfloor v)).
Proof.
  intros H1. unfold Pruner.resolveThresholdToToken. simpl.
  replace (ltb (Fin v) (of_Z 0)) with false
    by (symmetry; apply ltb_Fin_false; change (inject_Z 0) with 0%Q; lra).
  replace (ltb (Fin v) (of_Z 1)) with false
    by (symmetry; apply ltb_Fin_false; exact H1).
  unfold min, of_Z. rewrite cmp_Fin.
  destruct (Qcompare_spec (inject_Z totalTokens) (inject_Z (Qfloor v))) as [E|E|E].
  - f_equal. f_equal. unfold Qeq, inject_Z in E. simpl in E. lia.
  - rewrite <- Zlt_Qlt in E. f_equal. f_equal. lia.
  - rewrite <- Zlt_Qlt in E. f_equal. f_equal. lia.
Qed.

Lemma resolve_out_of_range (value : number) (totalTokens : Z) :
  isFinite value = false \/ ltb value (of_Z 0) = true ->
  Pruner.resolveThresholdToToken value totalTokens = of_Z 0.
Proof.
  intros H. unfold Pruner.resolveThresholdToToken.
  destruct H as [-> | ->]; [reflexivity | now rewrite orb_true_r].
Qed.

Lemma repair_ordered (a b : number) :
  (exists q, a = Fin q) -> (exists q, b = Fin q) ->
  leb a (if ltb b a then a else b) = true.
Proof.
  intros [x ->] [y ->]. destruct (ltb (Fin y) (Fin x)) eqn:E.
  - apply leb_Fin. lra.
  - apply leb_Fin. apply ltb_Fin_false in E. exact E.
Qed.

Lemma zoneStarts_ordered (config : EasyPruningConfig) (totalTokens : Z) :
  let '(softStart, hardStart, detailStart) := Pruner.zoneStarts config totalTokens in
  leb softStart hardStart = true /\ leb hardStart detailStart = true.
Proof.
  unfold Pruner.zoneStarts.
  destruct (resolve_finite (soft_threshold config) totalTokens) as [s Hs].
  destruct (resolve_finite (hard_threshold config) totalTokens) as [h Hh].
  destruct (resolve_finite (detail_threshold config) totalTokens) as [d Hd].
  rewrite Hs, Hh, Hd. split.
  - apply repair_ordered; eauto.
  - apply repair_ordered; eauto. destruct (ltb (Fin h) (Fin s)); eauto.
Qed.

End Boundaries.
(** ** The timeline and the two loops of the orchestrator *)
Section Orchestrator.

Variable Number_toString : number -> jstr.

Local Abbreviation buildMessageMeta_from := (Pruner.buildMessageMeta_from Number_toString).
Local Abbreviation buildMessageMeta := (Pruner.buildMessageMeta Number_toString).
Local Abbreviation applyStrategy := (Strategies.applyStrategy Number_toString).
Local Abbreviation pruneStep := (Pruner.pruneStep Number_toString).
Local Abbreviation pruneLoop := (Pruner.pruneLoop Number_toString).
Local Abbreviation applyPruningWithStats := (Pruner.applyPruningWithStats Number_toString).
Local Abbreviation rewrittenIn := (Spec.rewrittenIn Number_toString).
Local Abbreviation protectedIn := (Spec.protectedIn Number_toString).
Local Abbreviation recentByIndex := Spec.recentByIndex.
Local Abbreviation recentByTokens := (Spec.recentByTokens Number_toString).

(** Every metadata entry describes the message at its index. *)
Lemma build_sound (msgs : list value) : forall (i : nat) (cursor : Z) meta,
  meta ∈ buildMessageMeta_from i cursor msgs ->
  exists k : nat,
    Pruner.index meta = (i + k)%nat /\
    msgs !! k = Some (Pruner.message meta) /\
    Pruner.notMessageLike (Pruner.message meta) = false /\
    Pruner.role meta = Strategies.roleOf Number_toString (Pruner.message meta) /\
    (cursor <= Pruner.tokenStart meta)%Z.
Proof.
  induction msgs as [|raw rest IH]; intros i cursor meta Hin; simpl in Hin.
  - inversion Hin.
  - destruct (Pruner.notMessageLike raw) eqn:E.
    + destruct (IH _ _ _ Hin) as (k & Hk & Hl & Hm & Hr & Hc).
      exists (S k). repeat split; auto. lia.
    + apply elem_of_cons in Hin as [-> | Hin].
      * exists 0%nat. simpl. repeat split; auto. lia.
      * destruct (IH _ _ _ Hin) as (k & Hk & Hl & Hm & Hr & Hc).
        exists (S k). repeat split; auto; lia.
Qed.

(** Every object of the list has a metadata entry. *)
Lemma build_complete (msgs : list value) : forall (i : nat) (cursor : Z) k v,
  msgs !! k = Some v -> Pruner.notMessageLike v = false ->
  exists meta, meta ∈ buildMessageMeta_from i cursor msgs /\
               Pruner.index meta = (i + k)%nat /\ Pruner.message meta = v.
Proof.
  induction msgs as [|raw rest IH]; intros i cursor k v Hl Hv; [inversion Hl|].
  simpl. destruct k as [|k]; simpl in Hl.
  - injection Hl as ->. rewrite Hv. eexists. split; [apply list_elem_of_here|].
    simpl. split; [lia|reflexivity].
  - destruct (Pruner.notMessageLike raw).
    + destruct (IH (S i) cursor k v Hl Hv) as (meta & Hin & Hi & Hm).
      exists meta. repeat split; auto. lia.
    + destruct (IH (S i)
                  (cursor + Z.max 1 (Pruner.estimateMessageTokens Number_toString raw))%Z
                  k v Hl Hv) as (meta & Hin & Hi & Hm).
      exists meta. split; [apply list_elem_of_further, Hin|]. split; [lia|auto].
Qed.

(** No two entries share an index. *)
Lemma build_unique (msgs : list value) : forall (i : nat) (cursor : Z) m1 m2,
  m1 ∈ buildMessageMeta_from i cursor msgs ->
  m2 ∈ buildMessageMeta_from i cursor msgs ->
  Pruner.index m1 = Pruner.index m2 -> m1 = m2.
Proof.
  induction msgs as [|raw rest IH]; intros i cursor m1 m2 H1 H2 Hi;
    simpl in H1, H2; [inversion H1|].
  destruct (Pruner.notMessageLike raw); [eauto|].
  apply elem_of_cons in H1 as [-> | H1]; apply elem_of_cons in H2 as [-> | H2];
    auto; simpl in Hi.
  - destruct (build_sound _ _ _ _ H2) as (k & Hk & _). lia.
  - destruct (build_sound _ _ _ _ H1) as (k & Hk & _). lia.
  - eauto.
Qed.

(** The token axis never runs backwards. *)
Lemma build_last_end (msgs : list value) : forall (i : nat) (cursor : Z),
  (cursor <= match last (buildMessageMeta_from i cursor msgs) with
             | Some meta => Pruner.tokenEnd meta
             | None => cursor
             end)%Z.
Proof.
  induction msgs as [|raw rest IH]; intros i cursor; simpl; [lia|].
  destruct (Pruner.notMessageLike raw); [apply IH|].
  rewrite last_cons.
  set (next := (cursor + Z.max 1 (Pruner.estimateMessageTokens Number_toString raw))%Z).
  specialize (IH (S i) next).
  destruct (last (buildMessageMeta_from (S i) next rest)); simpl; subst next; lia.
Qed.

Lemma lastTokenEnd_nonneg (msgs : list value) :
  (0 <= Pruner.lastTokenEnd (buildMessageMeta msgs))%Z.
Proof.
  unfold Pruner.lastTokenEnd, Pruner.buildMessageMeta.
  pose proof (build_last_end msgs 0 0) as H.
  destruct (last _); [exact H|lia].
Qed.

(** The protected set holds exactly the indices a protection rule names. *)
Lemma protectedSet_spec (a b : number) (metas : list Pruner.MessageMeta) (j : nat) :
  j ∈ Pruner.protectedSet a b metas <->
  exists meta, meta ∈ metas /\ Pruner.index meta = j /\ Pruner.protects a b meta = true.
Proof.
  unfold Pruner.protectedSet.
  assert (G : forall (acc : gset nat),
    j ∈ fold_left (fun acc meta =>
                     if Pruner.protects a b meta then {[ Pruner.index meta ]} ∪ acc
                     else acc) metas acc <->
    j ∈ acc \/ exists meta, meta ∈ metas /\ Pruner.index meta = j
                            /\ Pruner.protects a b meta = true).
  { induction metas as [|m rest IH]; intros acc; simpl.
    - split; [auto|]. intros [H|(meta & H & _)]; [exact H|inversion H].
    - rewrite IH. split.
      + intros [H|(meta & Hin & Hi & Hp)].
        * destruct (Pruner.protects a b m) eqn:E; [|auto].
          apply elem_of_union in H as [H|H]; [|auto].
          apply elem_of_singleton in H. right. exists m.
          split; [apply list_elem_of_here|auto].
        * right. exists meta. split; [apply list_elem_of_further, Hin|auto].
      + intros [H|(meta & Hin & Hi & Hp)].
        * left. destruct (Pruner.protects a b m); [apply elem_of_union; auto|auto].
        * apply elem_of_cons in Hin as [-> | Hin].
          -- left. rewrite Hp. apply elem_of_union. left.
             apply elem_of_singleton. auto.
          -- right. eauto. }
  rewrite G. split; [|auto]. intros [H|H]; [|exact H].
  apply not_elem_of_empty in H. contradiction.
Qed.

Section Loop.

Variable config : EasyPruningConfig.
Variable protectedIndices : gset nat.
Variables prunableEndToken softStart hardStart detailStart : number.

Local Abbreviation rewritten :=
  (Spec.rewritten Number_toString config protectedIndices prunableEndToken
     softStart hardStart detailStart).

Lemma pruneStep_spec (st st' : Pruner.Pass) (meta : Pruner.MessageMeta) :
  pruneStep config protectedIndices prunableEndToken softStart hardStart
    detailStart st meta = Some st' ->
  (st' = st) \/
  (exists next, rewritten meta next /\
     Pruner.out st' = <[ Pruner.index meta := next ]> (Pruner.out st) /\
     Pruner.changed st' = true /\
     Pruner.contextTokensBefore (Pruner.stats st')
       = Pruner.contextTokensBefore (Pruner.stats st)).
Proof.
  unfold Pruner.pruneStep. intros H.
  destruct (bool_decide (Pruner.index meta ∈ protectedIndices)) eqn:Ep;
    [left; congruence|].
  destruct (geb (Fin (Pruner.tokenMid meta)) prunableEndToken) eqn:Eg;
    [left; congruence|].
  apply bool_decide_eq_false in Ep.
  destruct (Pruner.resolveZone _ _ _ _) eqn:Ez; [left; congruence| | |];
    (destruct (applyStrategy config _ (Pruner.message meta)) as [[|next]|] eqn:Ea;
     simpl in H; [left; congruence| |discriminate];
     right; exists next; injection H as <-; simpl;
     repeat split; auto; eexists; rewrite Ez; repeat split; eauto; discriminate).
Qed.

(** The loop keeps the length of the working copy, and an entry of the
    result is the entry it started with or what a strategy made of the
    message with that index. *)
Lemma pruneLoop_spec (metas : list Pruner.MessageMeta) : forall st st',
  pruneLoop config protectedIndices prunableEndToken softStart hardStart
    detailStart metas st = Some st' ->
  length (Pruner.out st') = length (Pruner.out st) /\
  (Pruner.changed st = true -> Pruner.changed st' = true) /\
  Pruner.contextTokensBefore (Pruner.stats st')
    = Pruner.contextTokensBefore (Pruner.stats st) /\
  forall j : nat,
    Pruner.out st' !! j = Pruner.out st !! j \/
    exists meta next, meta ∈ metas /\ Pruner.index meta = j /\
                      rewritten meta next /\ Pruner.out st' !! j = Some next.
Proof.
  induction metas as [|meta rest IH]; intros st st' H; simpl in H.
  - injection H as <-. repeat split; auto.
  - destruct (pruneStep _ _ _ _ _ _ st meta) as [mid|] eqn:Es; [|discriminate].
    simpl in H. destruct (IH _ _ H) as (Hlen & Hch & Hb & Hout).
    apply pruneStep_spec in Es as [-> | (next & Hw & Ho & Hc & Hbe)].
    + repeat split; auto. intros j. destruct (Hout j) as [E|(m & n & Hin & R)]; auto.
      right. exists m, n. split; [apply list_elem_of_further, Hin|exact R].
    + split; [rewrite Hlen, Ho; apply length_insert|].
      split; [auto|]. split; [congruence|].
      intros j. destruct (Hout j) as [E|(m & n & Hin & R)].
      * rewrite E, Ho. destruct (decide (Pruner.index meta = j)) as [<-|Hne].
        -- destruct (decide (Pruner.index meta < length (Pruner.out st))%nat) as [Hlt|Hge].
           ++ right. exists meta, next. split; [apply list_elem_of_here|].
              rewrite list_lookup_insert_eq by exact Hlt. auto.
           ++ left. rewrite list_insert_ge by lia. reflexivity.
        -- left. apply list_lookup_insert_ne. exact Hne.
      * right. exists m, n. split; [apply list_elem_of_further, Hin|exact R].
Qed.

End Loop.

(** The run of [applyPruningWithStats], seen from one index of its result. *)
Lemma apply_spec (msgs : list value) (config : EasyPruningConfig)
    (r : Pruner.PruneResult) :
  applyPruningWithStats msgs config = Some r ->
  length (Pruner.messages r) = length msgs /\
  forall j : nat,
    Pruner.messages r !! j = msgs !! j \/
    exists meta next, meta ∈ buildMessageMeta msgs /\ Pruner.index meta = j /\
                      rewrittenIn msgs config meta next /\
                      Pruner.messages r !! j = Some next.
Proof.
  unfold Pruner.applyPruningWithStats, Spec.rewrittenIn, Spec.protectedIn.
  destruct (buildMessageMeta msgs) as [|m0 metas] eqn:Em.
  - intros H. injection H as <-. simpl. auto.
  - rewrite <- Em.
    destruct (Pruner.zoneStarts config (Pruner.lastTokenEnd (buildMessageMeta msgs)))
      as [[softStart hardStart] detailStart]. simpl.
    destruct (pruneLoop _ _ _ _ _ _ _ _) as [final|] eqn:El; [|discriminate].
    simpl. apply pruneLoop_spec in El as (Hlen & _ & _ & Hout). simpl in *.
    destruct (Pruner.changed final); simpl; intros H; injection H as <-; simpl; auto.
Qed.


Lemma protected_kept (msgs : list value) (config : EasyPruningConfig)
    (r : Pruner.PruneResult) (i : nat) :
  applyPruningWithStats msgs config = Some r ->
  i ∈ protectedIn msgs config ->
  Pruner.messages r !! i = msgs !! i.
Proof.
  intros Hr Hp. destruct (apply_spec _ _ _ Hr) as [_ Hout].
  destruct (Hout i) as [E|(meta & next & _ & Hi & (Hn & _) & _)]; [exact E|].
  rewrite Hi in Hn. contradiction.
Qed.

Lemma roleOf_object (msg : value) (role : string) :
  Strategies.roleOf Number_toString msg = str role -> str role <> [] ->
  Pruner.notMessageLike msg = false.
Proof.
  destruct msg; try reflexivity; unfold Strategies.roleOf; simpl; congruence.
Qed.

(** C1. A message whose role is [system] or [user] is marked protected
    wherever it stands and whatever its size, each of the three zone
    strategies hands it back as it is, and a pruning pass returns it
    unaltered at its index. *)
Theorem system_user_never_altered (config : EasyPruningConfig) (msg : value) :
  Strategies.roleOf Number_toString msg = str "system" \/
  Strategies.roleOf Number_toString msg = str "user" ->
  Strategies.applySoftPruning Number_toString msg config = Some Same /\
  Strategies.applyHardPruning Number_toString msg config = Some Same /\
  Strategies.applyDetailPruning Number_toString msg config = Some Same /\
  forall (msgs : list value) (i : nat),
    msgs !! i = Some msg ->
    i ∈ protectedIn msgs config /\
    forall r, applyPruningWithStats msgs config = Some r ->
              Pruner.messages r !! i = Some msg.
Proof.
  intros Hrole.
  assert (Hobj : Pruner.notMessageLike msg = false)
    by (destruct Hrole as [H|H]; eapply roleOf_object; eauto; discriminate).
  repeat split.
  - unfold Strategies.applySoftPruning. destruct Hrole as [-> | ->]; reflexivity.
  - unfold Strategies.applyHardPruning. destruct Hrole as [-> | ->]; reflexivity.
  - unfold Strategies.applyDetailPruning. destruct Hrole as [-> | ->]; reflexivity.
  - destruct (build_complete msgs 0 0 i msg H Hobj) as (meta & Hin & Hi & Hm).
    apply protectedSet_spec. exists meta. split; [exact Hin|]. split; [exact Hi|].
    destruct (build_sound _ _ _ _ Hin) as (_ & _ & _ & _ & Hr & _).
    unfold Pruner.protects. rewrite Hr, Hm.
    destruct Hrole as [-> | ->]; reflexivity.
  - intros r Hr. rewrite <- H. eapply protected_kept; [exact Hr|].
    destruct (build_complete msgs 0 0 i msg H Hobj) as (meta & Hin & Hi & Hm).
    apply protectedSet_spec. exists meta. split; [exact Hin|]. split; [exact Hi|].
    destruct (build_sound _ _ _ _ Hin) as (_ & _ & _ & _ & Hr' & _).
    unfold Pruner.protects. rewrite Hr', Hm.
    destruct Hrole as [-> | ->]; reflexivity.
Qed.

(** C2. A pruning pass leaves unaltered every message among the last
    [keep_recent_messages] by index, and every message whose token span
    starts within [keep_recent_tokens] of the end of the token axis. *)
Theorem recent_tail_never_altered (msgs : list value)
    (config : EasyPruningConfig) (r : Pruner.PruneResult) (i : nat) :
  applyPruningWithStats msgs config = Some r ->
  recentByIndex msgs config i \/ recentByTokens msgs config i ->
  Pruner.messages r !! i = msgs !! i.
Proof.
  intros Hr Hrecent. destruct (apply_spec _ _ _ Hr) as [_ Hout].
  destruct (Hout i) as [E|(meta & next & Hin & Hi & (Hn & _) & _)]; [exact E|].
  exfalso. apply Hn. apply protectedSet_spec. exists meta.
  split; [exact Hin|]. split; [reflexivity|].
  unfold Pruner.protects.
  destruct (bool_decide _ || bool_decide _); [reflexivity|].
  destruct Hrecent as [Hidx | (meta' & Hin' & Hi' & Htok)].
  - unfold Spec.recentByIndex in Hidx. rewrite <- Hi in Hidx.
    unfold Pruner.keepRecentMessageStartIndexOf, of_nat in *.
    rewrite (geb_max_zero (Z.of_nat (Pruner.index meta)) _ (Nat2Z.is_nonneg _) Hidx).
    reflexivity.
  - assert (meta' = meta) as -> by (eapply build_unique; eauto; congruence).
    destruct (geb (of_nat (Pruner.index meta)) _); [reflexivity|].
    destruct (build_sound _ _ _ _ Hin) as (_ & _ & _ & _ & _ & Hs).
    unfold Pruner.keepRecentStartTokenOf.
    rewrite (geb_max_zero _ _ Hs Htok). reflexivity.
Qed.

(** C10. The list a pruning pass returns has the length of its input, and
    at each index holds the entry of the input or what a zone strategy made
    of that entry; an entry that is not an object, a protected message and
    a message in zone [none] are always the entry of the input. *)
Theorem output_positionwise (msgs : list value) (config : EasyPruningConfig)
    (r : Pruner.PruneResult) :
  applyPruningWithStats msgs config = Some r ->
  length (Pruner.messages r) = length msgs /\
  forall (i : nat) (orig : value),
    msgs !! i = Some orig ->
    (Pruner.messages r !! i = Some orig \/
     exists zone next,
       zone <> ZoneNone /\
       applyStrategy config zone orig = Some (Fresh next) /\
       Pruner.messages r !! i = Some next) /\
    (Pruner.notMessageLike orig = true -> Pruner.messages r !! i = Some orig) /\
    (i ∈ protectedIn msgs config -> Pruner.messages r !! i = Some orig) /\
    (forall meta,
       meta ∈ buildMessageMeta msgs -> Pruner.index meta = i ->
       let starts :=
         Pruner.zoneStarts config (Pruner.lastTokenEnd (buildMessageMeta msgs)) in
       Pruner.resolveZone (Pruner.tokenMid meta) starts.1.1 starts.1.2 starts.2
       = ZoneNone ->
       Pruner.messages r !! i = Some orig).
Proof.
  intros Hr. destruct (apply_spec _ _ _ Hr) as [Hlen Hout].
  split; [exact Hlen|]. intros i orig Hi.
  assert (Hcase : Pruner.messages r !! i = Some orig \/
    exists meta next, meta ∈ buildMessageMeta msgs /\ Pruner.index meta = i /\
      Pruner.message meta = orig /\ rewrittenIn msgs config meta next /\
      Pruner.messages r !! i = Some next).
  { destruct (Hout i) as [E|(meta & next & Hin & Hidx & Hw & Hn)]; [left; congruence|].
    right. exists meta, next.
    destruct (build_sound _ _ _ _ Hin) as (k & Hk & Hl & _).
    simpl in Hk. rewrite <- Hk, Hidx in Hl.
    split; [exact Hin|]. split; [exact Hidx|]. split; [congruence|]. split; assumption. }
  split; [|split; [|split]].
  - destruct Hcase as [E|(meta & next & _ & _ & Hm & (_ & _ & zone & _ & Hz & Ha) & Hn)];
      [left; exact E|].
    right. exists zone, next. rewrite <- Hm. auto.
  - intros Hnot. destruct Hcase as [E|(meta & next & Hin & _ & Hm & _)]; [exact E|].
    destruct (build_sound _ _ _ _ Hin) as (_ & _ & _ & Hobj & _). congruence.
  - intros Hp. rewrite <- Hi. eapply protected_kept; eauto.
  - intros meta Hin Hidx starts Hzone.
    destruct Hcase as [E|(meta' & next & Hin' & Hidx' & _ & (_ & _ & zone & Hz & Hne & _) & _)];
      [exact E|].
    assert (meta' = meta) as -> by (eapply build_unique; eauto; congruence).
    subst starts. congruence.
Qed.

(** *** When the pass returns

    The source raises only where it reads the length of a unified text
    that is [undefined], which takes a content that is [undefined]. *)
Lemma toUnifiedText_defined (content : value) :
  content <> VUndef ->
  exists text, Strategies.toUnifiedText Number_toString content = Some text.
Proof. destruct content; simpl; eauto. congruence. Qed.

Lemma applyStrategy_defined (config : EasyPruningConfig) (zone : MessageZone)
    (msg : value) :
  get msg "content" <> VUndef ->
  exists a, applyStrategy config zone msg = Some a.
Proof.
  intros Hc. destruct (toUnifiedText_defined _ Hc) as [text Ht].
  destruct zone; simpl; eauto.
  - unfold Strategies.applySoftPruning. rewrite Ht. simpl.
    repeat match goal with |- context [if ?b then _ else _] => destruct b end; eauto.
  - unfold Strategies.applyHardPruning.
    repeat match goal with |- context [if ?b then _ else _] => destruct b end; eauto.
  - unfold Strategies.applyDetailPruning. rewrite Ht. simpl.
    repeat match goal with
           | |- context [if ?b then _ else _] => destruct b
           | |- context [match ?x with _ => _ end] => destruct x
           end; eauto.
Qed.

Lemma pruneLoop_defined (config : EasyPruningConfig) (protectedIndices : gset nat)
    (prunableEndToken softStart hardStart detailStart : number)
    (metas : list Pruner.MessageMeta) :
  Forall (fun meta => get (Pruner.message meta) "content" <> VUndef) metas ->
  forall st, exists st',
    pruneLoop config protectedIndices prunableEndToken softStart hardStart
      detailStart metas st = Some st'.
Proof.
  induction 1 as [|meta rest Hm _ IH]; intros st; simpl; [eauto|].
  assert (Hstep : exists mid,
    pruneStep config protectedIndices prunableEndToken softStart hardStart
      detailStart st meta = Some mid).
  { unfold Pruner.pruneStep.
    destruct (bool_decide _); [eauto|]. destruct (geb _ _); [eauto|].
    destruct (Pruner.resolveZone _ _ _ _) eqn:Ez; [eauto| | |];
      match goal with
      | |- context [applyStrategy config ?zone _] =>
          destruct (applyStrategy_defined config zone _ Hm) as [[|next] ->];
          simpl; eauto
      end. }
  destruct Hstep as [mid ->]. simpl. apply IH.
Qed.

(** A pass over messages that all have a content returns a result. *)
Lemma applyPruningWithStats_returns (msgs : list value) (config : EasyPruningConfig) :
  Forall (fun msg => get msg "content" <> VUndef) msgs ->
  exists r, applyPruningWithStats msgs config = Some r.
Proof.
  intros Hall. unfold Pruner.applyPruningWithStats.
  assert (Hmetas : Forall (fun meta => get (Pruner.message meta) "content" <> VUndef)
                     (buildMessageMeta msgs)).
  { apply Forall_forall. intros meta Hin.
    destruct (build_sound _ _ _ _ Hin) as (k & _ & Hl & _).
    rewrite Forall_forall in Hall. apply Hall.
    apply list_elem_of_lookup. eauto. }
  destruct (buildMessageMeta msgs) as [|m0 metas] eqn:Em; [eauto|].
  destruct (Pruner.zoneStarts _ _) as [[softStart hardStart] detailStart].
  match goal with
  | |- context [pruneLoop ?c ?p ?e ?s ?h ?d ?ms ?st] =>
      destruct (pruneLoop_defined c p e s h d ms Hmetas st) as [final ->]
  end.
  simpl. destruct (Pruner.changed final); simpl; eauto.
Qed.

End Orchestrator.

Section BoundariesOfARun.

Variable Number_toString : number -> jstr.

(** C5, amended. On every message list and configuration the three
    boundaries come out in order, soft before hard before detail. A finite
    threshold in [0, 1) resolves to the floor of its product with the
    total, the product being the binary64 one of [totalTokens * value]: the
    exact product of the two binary64 operands, rounded to the nearest
    binary64. A finite threshold at or above 1 resolves to its floor, capped
    by the total, which lies between 0 and the total; a negative threshold,
    an infinity or [NaN] resolves to 0. *)
Theorem zone_boundaries_resolved (msgs : list value) (config : EasyPruningConfig) :
  let totalTokens :=
    Pruner.lastTokenEnd (Pruner.buildMessageMeta Number_toString msgs) in
  let starts := Pruner.zoneStarts config totalTokens in
  leb starts.1.1 starts.1.2 = true /\
  leb starts.1.2 starts.2 = true /\
  forall value : number,
    (forall v, value = Fin v -> (0 <= v)%Q -> (v < 1)%Q ->
               Pruner.resolveThresholdToToken value totalTokens
               = of_Z (Qfloor (binary64 (binary64 (inject_Z totalTokens)
                                         * binary64 v)))) /\
    (forall v, value = Fin v -> (1 <= v)%Q ->
               Pruner.resolveThresholdToToken value totalTokens
               = of_Z (Z.min totalTokens (Qfloor v)) /\
               (0 <= Z.min totalTokens (Qfloor v) <= totalTokens)%Z) /\
    (isFinite value = false \/ ltb value (of_Z 0) = true ->
     Pruner.resolveThresholdToToken value totalTokens = of_Z 0).
Proof.
  intros totalTokens starts.
  pose proof (zoneStarts_ordered config totalTokens) as Hordered.
  fold starts in Hordered. destruct starts as [[softStart hardStart] detailStart].
  destruct Hordered as [Hsoft Hhard].
  split; [exact Hsoft|]. split; [exact Hhard|].
  intros value. split; [|split].
  - intros v -> H0 H1. apply resolve_ratio; assumption.
  - intros v -> H1. split; [apply resolve_absolute, H1|].
    pose proof (lastTokenEnd_nonneg Number_toString msgs) as Htotal.
    fold totalTokens in Htotal.
    assert (1 <= Qfloor v)%Z.
    { change 1%Z with (Qfloor (inject_Z 1)). apply Qfloor_resp_le. exact H1. }
    lia.
  - apply resolve_out_of_range.
Qed.

End BoundariesOfARun.
(** ** The trigger and cooldown gate *)
Section Gate.

Variable Number_toString : number -> jstr.

Local Abbreviation applyPruningWithStats := (Pruner.applyPruningWithStats Number_toString).
Local Abbreviation estimateContextTokens := (Pruner.estimateContextTokens Number_toString).
Local Abbreviation handler := (Pruner.handler Number_toString).



End Gate.
(** ** Normalisation of the configuration *)
Section Normalisation.

Import Spec.

Lemma safePositiveInt_cases (value : option number) (fallback : number) :
  Pruner.safePositiveInt value fallback = fallback \/
  exists q, (0 < q)%Q /\ value = Some (Fin q) /\
            Pruner.safePositiveInt value fallback = of_Z (Qfloor q).
Proof.
  destruct value as [[| | |q]|]; simpl; auto.
  destruct (leb (Fin q) (of_Z 0)) eqn:E; [auto|].
  right. exists q. apply leb_Fin_false in E. auto.
Qed.

Lemma safePositiveInt_fixed (n : number) (fallback : number) :
  positiveInteger n -> Pruner.safePositiveInt (Some n) fallback = n.
Proof.
  intros (z & Hz & ->). simpl.
  replace (leb (of_Z z) (of_Z 0)) with false; [apply floor_of_Z|].
  symmetry. apply not_true_iff_false. rewrite of_Z_le. lia.
Qed.

Lemma safeNonNegativeNumber_cases (value : option number) (fallback : number) :
  Pruner.safeNonNegativeNumber value fallback = fallback \/
  exists q, (0 <= q)%Q /\ value = Some (Fin q) /\
            Pruner.safeNonNegativeNumber value fallback = Fin q.
Proof.
  destruct value as [[| | |q]|]; simpl; auto.
  destruct (ltb (Fin q) (of_Z 0)) eqn:E; [auto|].
  right. exists q. apply ltb_Fin_false in E. auto.
Qed.

Lemma safeNonNegativeNumber_fixed (value : option number) (fallback : number) :
  Pruner.safeNonNegativeNumber
    (Some (Pruner.safeNonNegativeNumber value fallback)) fallback
  = Pruner.safeNonNegativeNumber value fallback.
Proof.
  destruct (safeNonNegativeNumber_cases value fallback) as [-> | (q & Hq & _ & ->)].
  - destruct fallback as [| | |f]; simpl; auto. destruct (ltb _ _); reflexivity.
  - simpl. replace (ltb (Fin q) (of_Z 0)) with false; [reflexivity|].
    symmetry. apply ltb_Fin_false. exact Hq.
Qed.

Lemma keepRecent_finite (q : Q) :
  max (of_Z 0) (floor (Fin q)) = of_Z (Z.max 0 (Qfloor q)).
Proof.
  unfold max, floor, of_Z. rewrite cmp_Fin.
  destruct (Qcompare_spec (inject_Z 0) (inject_Z (Qfloor q))) as [E|E|E].
  - unfold Qeq in E. simpl in E. do 2 f_equal. lia.
  - rewrite <- Zlt_Qlt in E. do 2 f_equal. lia.
  - rewrite <- Zlt_Qlt in E. do 2 f_equal. lia.
Qed.

Lemma keepRecent_fixed (n : number) :
  max (of_Z 0) (floor (max (of_Z 0) (floor n))) = max (of_Z 0) (floor n).
Proof.
  destruct n as [| | |q]; try reflexivity.
  rewrite keepRecent_finite. unfold of_Z at 2. rewrite keepRecent_finite.
  rewrite Qfloor_Z. f_equal. lia.
Qed.

Lemma orString_fixed (value : option jstr) (fallback : jstr) :
  Pruner.orString (Some (Pruner.orString value fallback)) fallback
  = Pruner.orString value fallback.
Proof.
  destruct value as [[|c s]|]; simpl; try reflexivity; destruct fallback; reflexivity.
Qed.

Lemma spreadOver_fixed {A} (d d' : option A) (i : Pruner.optional A) :
  Pruner.spreadOver d' (Pruner.present (Pruner.spreadOver d i))
  = Pruner.spreadOver d i.
Proof. destruct (Pruner.spreadOver d i); reflexivity. Qed.

(** [{ ...defaults, ...input }] read at the key of a count, then
    [safePositiveInt]. *)
Lemma count_follows_input (given : Pruner.optional number) (default : number) :
  positiveInteger default ->
  Pruner.safePositiveInt (Pruner.spreadOver (Some default) given) default
  = flooredOrDefault given default.
Proof.
  intros Hd. destruct given as [| |[| | |q]]; try reflexivity.
  apply safePositiveInt_fixed, Hd.
Qed.

Lemma threshold_follows_input (given : Pruner.optional number) (default : number) :
  Pruner.safeNonNegativeNumber (Pruner.spreadOver (Some default) given) default
  = givenOrDefault given default.
Proof.
  destruct given as [| |[| | |q]]; try reflexivity.
  - cbn [Pruner.spreadOver Pruner.safeNonNegativeNumber givenOrDefault].
    destruct (negb (isFinite default) || ltb default (of_Z 0)); reflexivity.
  - cbn [Pruner.spreadOver Pruner.safeNonNegativeNumber givenOrDefault
         isFinite negb orb].
    destruct (Qle_bool 0 q) eqn:E.
    + apply Qle_bool_iff in E.
      replace (ltb (Fin q) (of_Z 0)) with false; [reflexivity|].
      symmetry. apply ltb_Fin_false. exact E.
    + replace (ltb (Fin q) (of_Z 0)) with true; [reflexivity|].
      symmetry. apply ltb_Fin. apply Qnot_le_lt. intros H.
      apply Qle_bool_iff in H. change (inject_Z 0) with 0%Q in H. congruence.
Qed.

Lemma flooredOrDefault_positive (given : Pruner.optional number) (default : number) :
  positiveInteger default -> ~ fractional given ->
  positiveInteger (flooredOrDefault given default).
Proof.
  intros Hd Hwhole. destruct given as [| |[| | |q]]; try exact Hd.
  cbn [flooredOrDefault]. destruct (Qle_bool q 0) eqn:E; [exact Hd|].
  assert (Hq : (0 < q)%Q).
  { apply Qnot_le_lt. intros H. apply Qle_bool_iff in H. congruence. }
  exists (Qfloor q). split; [|reflexivity].
  change 1%Z with (Qfloor (inject_Z 1)). apply Qfloor_resp_le.
  apply Qnot_lt_le. intros H1. apply Hwhole. exists q. auto.
Qed.

Lemma normalize_counts (defaults : EasyPruningConfig)
    (raw : option Pruner.RawConfig) :
  Forall positiveInteger (countFields defaults) ->
  countFields (Pruner.normalizeConfig defaults raw)
  = zip_with flooredOrDefault (countInputs raw) (countFields defaults).
Proof.
  unfold countFields, countInputs, softTrimInput. intros Hd.
  repeat match goal with
         | H : Forall _ (_ :: _) |- _ => apply Forall_cons in H; destruct H
         end.
  destruct raw as [input|];
    cbn [Pruner.normalizeConfig zip_with pruning_threshold trigger_every_n_tokens
         keep_recent_tokens soft_trim max_chars head_chars tail_chars];
    rewrite !count_follows_input by assumption; reflexivity.
Qed.

Lemma normalize_thresholds (defaults : EasyPruningConfig)
    (raw : option Pruner.RawConfig) :
  thresholdFields (Pruner.normalizeConfig defaults raw)
  = zip_with givenOrDefault (thresholdInputs raw) (thresholdFields defaults).
Proof.
  unfold thresholdFields, thresholdInputs.
  destruct raw as [input|];
    cbn [Pruner.normalizeConfig zip_with soft_threshold hard_threshold
         detail_threshold];
    rewrite !threshold_follows_input; reflexivity.
Qed.

Lemma normalize_counts_positive (defaults : EasyPruningConfig)
    (raw : option Pruner.RawConfig) :
  Forall positiveInteger (countFields defaults) ->
  noFractionalCount raw ->
  Forall positiveInteger (countFields (Pruner.normalizeConfig defaults raw)).
Proof.
  intros Hd Hwhole. rewrite (normalize_counts defaults raw Hd).
  unfold noFractionalCount in Hwhole.
  unfold countFields in Hd |- *. unfold countInputs in Hwhole |- *.
  repeat match goal with
         | H : Forall _ (_ :: _) |- _ => apply Forall_cons in H; destruct H
         end.
  cbn [zip_with].
  repeat (apply Forall_cons; split;
          [apply flooredOrDefault_positive; assumption|]).
  apply Forall_nil. exact I.
Qed.

Lemma normalize_thresholds_safe (defaults : EasyPruningConfig)
    (raw : option Pruner.RawConfig) :
  Forall nonNegative (thresholdFields defaults) ->
  Forall nonNegative (thresholdFields (Pruner.normalizeConfig defaults raw)).
Proof.
  unfold thresholdFields. simpl. intros Hd.
  repeat match goal with
         | H : Forall _ (_ :: _) |- _ => apply Forall_cons in H; destruct H
         end.
  repeat (apply Forall_cons; split;
          [match goal with
           | |- nonNegative (Pruner.safeNonNegativeNumber ?v ?d) =>
               destruct (safeNonNegativeNumber_cases v d) as [-> | (q & Hq & _ & ->)];
               [assumption | exists q; auto]
           end|]).
  apply Forall_nil. exact I.
Qed.

Lemma config_eta (cfg : EasyPruningConfig) :
  cfg = {| pruning_threshold := pruning_threshold cfg;
           trigger_every_n_tokens := trigger_every_n_tokens cfg;
           keep_recent_tokens := keep_recent_tokens cfg;
           keep_recent_messages := keep_recent_messages cfg;
           keep_rencent_message := keep_rencent_message cfg;
           soft_threshold := soft_threshold cfg;
           hard_threshold := hard_threshold cfg;
           detail_threshold := detail_threshold cfg;
           soft_trim := {| max_chars := max_chars (soft_trim cfg);
                           head_chars := head_chars (soft_trim cfg);
                           tail_chars := tail_chars (soft_trim cfg) |};
           hard_clear_placeholder := hard_clear_placeholder cfg;
           detail_placeholder := detail_placeholder cfg;
           skip_tools_with_images := skip_tools_with_images cfg;
           compaction_threshold_hint := compaction_threshold_hint cfg |}.
Proof. destruct cfg as [? ? ? ? ? ? ? ? [] ? ? ? ?]. reflexivity. Qed.

(** C4, amended. With safe defaults, and unless a count is given a number
    strictly between 0 and 1: every count of the normalised configuration
    is the floor of the number given for it when that is finite and above
    0, else the default, and is a positive integer; every threshold is the
    number given for it when that is finite and not negative, else the
    default, and is finite and not negative; a finite keep-recent count [q]
    becomes [max(0, floor q)]; and normalising the result again returns it
    unchanged. *)
Theorem normalizeConfig_safe_idempotent (defaults : EasyPruningConfig)
    (raw : option Pruner.RawConfig) :
  let once := Pruner.normalizeConfig defaults raw in
  safeDefaults defaults ->
  noFractionalCount raw ->
  countFields once
  = zip_with flooredOrDefault (countInputs raw) (countFields defaults) /\
  thresholdFields once
  = zip_with givenOrDefault (thresholdInputs raw) (thresholdFields defaults) /\
  Forall positiveInteger (countFields once) /\
  Forall nonNegative (thresholdFields once) /\
  (forall q, keepRecentInput defaults raw = Fin q ->
             keep_recent_messages once = of_Z (Z.max 0 (Qfloor q))) /\
  Pruner.normalizeConfig defaults (Some (Pruner.asInput once)) = once.
Proof.
  intros once [Hcounts Hratios] Hwhole.
  pose proof (normalize_counts_positive defaults raw Hcounts Hwhole) as Hpos.
  split; [apply normalize_counts, Hcounts|].
  split; [apply normalize_thresholds|].
  split; [exact Hpos|]. split; [apply normalize_thresholds_safe, Hratios|].
  split.
  - intros q Hq. subst once. unfold Pruner.normalizeConfig. simpl.
    rewrite <- keepRecent_finite, <- Hq. unfold keepRecentInput.
    destruct raw as [input|]; reflexivity.
  - fold once in Hpos. unfold countFields in Hpos.
    repeat match goal with
           | H : Forall _ (_ :: _) |- _ => apply Forall_cons in H; destruct H
           end.
    rewrite (config_eta once). rewrite (config_eta (Pruner.normalizeConfig _ _)).
    f_equal; cbn [Pruner.normalizeConfig Pruner.asInput pruning_threshold
      trigger_every_n_tokens keep_recent_tokens keep_recent_messages
      keep_rencent_message soft_threshold hard_threshold detail_threshold
      soft_trim max_chars head_chars tail_chars hard_clear_placeholder
      detail_placeholder skip_tools_with_images compaction_threshold_hint
      Pruner.raw_pruning_threshold Pruner.raw_trigger_every_n_tokens
      Pruner.raw_keep_recent_tokens Pruner.raw_keep_recent_messages
      Pruner.raw_keep_rencent_message Pruner.raw_soft_threshold
      Pruner.raw_hard_threshold Pruner.raw_detail_threshold Pruner.raw_soft_trim
      Pruner.raw_max_chars Pruner.raw_head_chars Pruner.raw_tail_chars
      Pruner.raw_hard_clear_placeholder Pruner.raw_detail_placeholder
      Pruner.raw_skip_tools_with_images Pruner.raw_compaction_threshold_hint
      Pruner.spreadOver];
      try (apply safePositiveInt_fixed; assumption);
      try apply safeNonNegativeNumber_fixed;
      try apply keepRecent_fixed;
      try apply orString_fixed;
      try apply (spreadOver_fixed (A := number));
      try apply (spreadOver_fixed (A := bool)).
    f_equal; apply safePositiveInt_fixed; assumption.
Qed.

End Normalisation.
(** ** Facts about strings *)
Section StringFacts.

Lemma startsWith_app (needle rest : jstr) : startsWith (needle ++ rest) needle = true.
Proof.
  induction needle as [|c needle IH]; simpl; [reflexivity|].
  now rewrite N.eqb_refl, IH.
Qed.

Lemma includes_app (s needle : jstr) (before : jstr) :
  includes s needle = true -> includes (before ++ s) needle = true.
Proof.
  intros H. induction before as [|c before IH]; simpl; [exact H|].
  rewrite IH. apply orb_true_r.
Qed.

Lemma includes_startsWith (s needle : jstr) :
  startsWith s needle = true -> includes s needle = true.
Proof. destruct s; simpl; intros ->; reflexivity. Qed.

Lemma includes_middle (before needle after : jstr) :
  includes (before ++ needle ++ after) needle = true.
Proof. apply includes_app, includes_startsWith, startsWith_app. Qed.

(** Where [lastIndexOf] points, the needle stands. *)
Lemma lastIndexOf_from_found (s needle : jstr) : forall (i r : Z),
  lastIndexOf_from i s needle = r -> r <> (-1)%Z -> (0 <= i)%Z ->
  (i <= r <= i + Z.of_nat (length s))%Z /\
  startsWith (drop (Z.to_nat (r - i)) s) needle = true.
Proof.
  induction s as [|c s IH]; intros i r Hr Hne Hi; simpl in Hr.
  - destruct needle; simpl in Hr; [|congruence].
    subst r. rewrite Z.sub_diag. simpl. split; [lia|reflexivity].
  - destruct (Z.eqb_spec (lastIndexOf_from (i + 1) s needle) (-1)) as [E|E].
    + destruct (startsWith (c :: s) needle) eqn:Es; [|congruence].
      subst r. rewrite Z.sub_diag. simpl drop. split; [simpl length; lia|exact Es].
    + destruct (IH (i + 1)%Z r Hr Hne ltac:(lia)) as [Hb Hs].
      split; [simpl length; lia|].
      replace (Z.to_nat (r - i)) with (S (Z.to_nat (r - (i + 1)))) by lia.
      exact Hs.
Qed.

Lemma slice_from (s : jstr) (idx : Z) :
  (0 <= idx <= Z.of_nat (length s))%Z ->
  slice s (of_Z idx) None = drop (Z.to_nat idx) s.
Proof.
  intros H. unfold slice, relativeIndex, truncate, of_Z.
  replace (Qle_bool 0 (inject_Z idx)) with true
    by (symmetry; apply Qle_bool_iff; change 0%Q with (inject_Z 0);
        rewrite <- Zle_Qle; lia).
  rewrite Qfloor_Z.
  replace (idx <? 0)%Z with false by (symmetry; apply Z.ltb_ge; lia).
  rewrite Z.min_l by lia. apply take_ge. rewrite length_drop. lia.
Qed.

Lemma trimStart_nil (s : jstr) :
  trimStart s = [] -> forallb isWhiteSpace s = true.
Proof.
  induction s as [|c s IH]; simpl; [reflexivity|].
  destruct (isWhiteSpace c); [exact IH|discriminate].
Qed.

(** Trimming a text that opens with a visible code unit leaves some text. *)
Lemma trim_nonempty (c : N) (s : jstr) :
  isWhiteSpace c = false -> trim (c :: s) <> [].
Proof.
  intros Hc Hnil. unfold trim, trimEnd in Hnil. simpl in Hnil. rewrite Hc in Hnil.
  apply (f_equal (@rev N)) in Hnil. rewrite rev_involutive in Hnil. simpl in Hnil.
  apply trimStart_nil in Hnil. rewrite forallb_app in Hnil.
  apply andb_true_iff in Hnil as [_ H]. simpl in H. rewrite Hc in H. discriminate.
Qed.

End StringFacts.

(** ** The degradation strategies *)
Section StrategyFacts.

Variable Number_toString : number -> jstr.

Local Abbreviation roleOf := (Strategies.roleOf Number_toString).
Local Abbreviation toUnifiedText := (Strategies.toUnifiedText Number_toString).
Local Abbreviation skipsImages := (Strategies.skipsImages Number_toString).
Local Abbreviation applySoftPruning := (Strategies.applySoftPruning Number_toString).
Local Abbreviation applyHardPruning := (Strategies.applyHardPruning Number_toString).
Local Abbreviation applyDetailPruning := (Strategies.applyDetailPruning Number_toString).

Lemma lookup_setProp (k : jstr) (v : value) (props : list (jstr * value)) :
  lookupProp k (setProp k v props) = v.
Proof.
  induction props as [|[k' v'] props IH]; simpl.
  - now rewrite bool_decide_eq_true_2.
  - destruct (bool_decide (k' = k)) eqn:E; simpl.
    + now rewrite bool_decide_eq_true_2.
    + now rewrite E.
Qed.

Lemma get_withContent (msg content : value) :
  get (Strategies.withContent msg content) "content" = content.
Proof.
  destruct msg; try reflexivity. apply lookup_setProp.
Qed.

(** The unified text of a reshaped content is the text it was given. *)
Lemma unified_preserved (original : value) (text : jstr) :
  toUnifiedText (Strategies.preserveContentShape original text) = Some text.
Proof. destruct original; reflexivity. Qed.

Lemma toolResult_roles (role : jstr) :
  Strategies.isToolResultRole role = true ->
  role = str "tool_result" \/ role = str "toolResult".
Proof.
  unfold Strategies.isToolResultRole. intros H.
  apply orb_true_iff in H as [H|H]; apply bool_decide_eq_true in H; auto.
Qed.

Local Abbreviation softText := (Spec.softText Number_toString).

Lemma applySoftPruning_unfold (msg : value) (config : EasyPruningConfig) (raw : jstr) :
  Strategies.isToolResultRole (roleOf msg) = true ->
  toUnifiedText (get msg "content") = Some raw ->
  applySoftPruning msg config =
  if skipsImages config msg then Some Same
  else if leb (of_nat (length raw)) (max_chars (soft_trim config)) then Some Same
  else Some (Fresh (Strategies.withContent msg
                      (Strategies.preserveContentShape (get msg "content")
                         (softText config raw)))).
Proof.
  intros Hrole Hraw. unfold Strategies.applySoftPruning. rewrite Hrole, Hraw.
  reflexivity.
Qed.

Lemma softText_marker (config : EasyPruningConfig) (raw : jstr) :
  includes (softText config raw) (str "... (truncated)") = true.
Proof.
  unfold Spec.softText, Strategies.truncationNote.
  set (mark := str "... (truncated)"). rewrite <- !app_assoc.
  rewrite (app_assoc _ [10; 10]%N). apply includes_middle.
Qed.

Lemma softText_size (config : EasyPruningConfig) (raw : jstr) :
  includes (softText config raw)
    (str "[Original size: " ++ Number_toString (of_nat (length raw))
     ++ str " characters]") = true.
Proof.
  unfold Spec.softText, Strategies.truncationNote.
  set (mark := str "... (truncated)"). set (a := str "[Original size: ").
  set (b := str " characters]"). set (n := Number_toString _).
  set (h := slice raw (of_Z 0) _). set (t := slice raw (max _ _) _).
  replace (h ++ ([10; 10]%N ++ mark ++ [10; 10]%N ++ a ++ n ++ b ++ [10%N]) ++ t)
    with ((h ++ [10; 10]%N ++ mark ++ [10; 10]%N) ++ (a ++ n ++ b) ++ ([10%N] ++ t))
    by (rewrite <- !app_assoc; reflexivity).
  apply includes_middle.
Qed.

(** C6, amended. On a tool-result message whose content has a unified
    text: within [max_chars] the message comes back as it is; beyond it,
    and unless the message is skipped for carrying an image, the new content
    reads as a text that contains the elision marker and the note of the
    original size; a message skipped for carrying an image comes back as it
    is. *)
Theorem soft_pruning_trims (msg : value) (config : EasyPruningConfig) (raw : jstr) :
  Strategies.isToolResultRole (roleOf msg) = true ->
  toUnifiedText (get msg "content") = Some raw ->
  (leb (of_nat (length raw)) (max_chars (soft_trim config)) = true ->
   applySoftPruning msg config = Some Same) /\
  (skipsImages config msg = true -> applySoftPruning msg config = Some Same) /\
  (leb (of_nat (length raw)) (max_chars (soft_trim config)) = false ->
   skipsImages config msg = false ->
   exists next soft,
     applySoftPruning msg config = Some (Fresh next) /\
     get next "content" = Strategies.preserveContentShape (get msg "content") soft /\
     toUnifiedText (get next "content") = Some soft /\
     includes soft (str "... (truncated)") = true /\
     includes soft (str "[Original size: " ++ Number_toString (of_nat (length raw))
                    ++ str " characters]") = true).
Proof.
  intros Hrole Hraw. rewrite (applySoftPruning_unfold _ _ _ Hrole Hraw).
  split; [|split].
  - intros ->. destruct (skipsImages config msg); reflexivity.
  - intros ->. reflexivity.
  - intros -> ->. eexists _, (softText config raw). split; [reflexivity|].
    rewrite get_withContent. split; [reflexivity|].
    split; [apply unified_preserved|].
    split; [apply softText_marker|apply softText_size].
Qed.

(** C7, amended. A tool-result message skipped for carrying an image
    leaves hard pruning as it is; any other leaves it with the placeholder
    as its content: a string where the content was a string, a single text
    block where it was a block sequence. *)
Theorem hard_pruning_clears (msg : value) (config : EasyPruningConfig) :
  Strategies.isToolResultRole (roleOf msg) = true ->
  (skipsImages config msg = true -> applyHardPruning msg config = Some Same) /\
  (skipsImages config msg = false ->
   exists next,
     applyHardPruning msg config = Some (Fresh next) /\
     get next "content"
     = Strategies.preserveContentShape (get msg "content")
         (hard_clear_placeholder config) /\
     (forall s, get msg "content" = VStr s ->
                get next "content" = VStr (hard_clear_placeholder config)) /\
     (forall items, get msg "content" = VArr items ->
                    get next "content"
                    = VArr [Strategies.textBlock (hard_clear_placeholder config)])).
Proof.
  intros Hrole. unfold Strategies.applyHardPruning. rewrite Hrole.
  split; intros ->; simpl; [reflexivity|].
  eexists. split; [reflexivity|].
  rewrite get_withContent. split; [reflexivity|].
  split; intros ? ->; reflexivity.
Qed.

Import Spec.

Lemma markerSummary_absent (text : jstr) (ms : list jstr) :
  Forall (absent text) ms -> Strategies.markerSummary ms text = None.
Proof.
  induction 1 as [|marker ms Hm _ IH]; simpl; [reflexivity|].
  unfold absent in Hm. rewrite Hm. exact IH.
Qed.

Lemma markerSummary_first (text : jstr) (before : list jstr) (marker : jstr)
    (after : list jstr) :
  Forall (absent text) before ->
  lastIndexOf text marker <> (-1)%Z ->
  trim (slice text (of_Z (lastIndexOf text marker)) None) <> [] ->
  Strategies.markerSummary (before ++ marker :: after) text
  = Some (trim (slice text (of_Z (lastIndexOf text marker)) None)).
Proof.
  intros Hb Hidx Hne. induction Hb as [|m ms Hm _ IH]; simpl.
  - apply Z.eqb_neq in Hidx. rewrite Hidx.
    destruct (trim _); [congruence|reflexivity].
  - unfold absent in Hm. rewrite Hm. exact IH.
Qed.

Lemma markers_visible : forallb visibleHead Strategies.markers = true.
Proof. reflexivity. Qed.

Lemma found_marker_kept (text marker : jstr) :
  marker ∈ Strategies.markers ->
  lastIndexOf text marker <> (-1)%Z ->
  trim (slice text (of_Z (lastIndexOf text marker)) None) <> [].
Proof.
  intros Hin Hidx.
  pose proof markers_visible as Hv. rewrite forallb_forall in Hv.
  apply list_elem_of_In in Hin. specialize (Hv _ Hin).
  destruct marker as [|c marker]; [discriminate|]. simpl in Hv.
  apply negb_true_iff in Hv.
  destruct (lastIndexOf_from_found text (c :: marker) 0 _ eq_refl Hidx ltac:(lia))
    as [Hb Hs].
  fold (lastIndexOf text (c :: marker)) in Hb, Hs.
  rewrite slice_from by lia. rewrite Z.sub_0_r in Hs.
  destruct (drop _ text) as [|d rest]; [discriminate|].
  simpl in Hs. apply andb_true_iff in Hs as [Hc _]. apply N.eqb_eq in Hc. subst d.
  apply trim_nonempty, Hv.
Qed.

Lemma paragraphs_nonEmpty (text p : jstr) :
  last (Strategies.paragraphs text) = Some p -> Strategies.nonEmpty p = true.
Proof.
  intros H. apply last_Some_elem_of, list_elem_of_In in H.
  unfold Strategies.paragraphs in H. apply filter_In in H. apply H.
Qed.

(** C8, amended. Unless it is skipped for carrying an image, a tool-result
    message whose content has a unified text leaves detail pruning with:
    the prefix and the trimmed text from the last occurrence of the first
    marker, in list order, that occurs at all; failing any marker, the prefix
    and the last non-empty paragraph; failing that too, the placeholder. *)
Theorem detail_pruning_keeps_summary (msg : value) (config : EasyPruningConfig)
    (unified : jstr) :
  Strategies.isToolResultRole (roleOf msg) = true ->
  skipsImages config msg = false ->
  toUnifiedText (get msg "content") = Some unified ->
  exists next kept,
    applyDetailPruning msg config = Some (Fresh next) /\
    get next "content" = Strategies.preserveContentShape (get msg "content") kept /\
    (forall before marker after,
       Strategies.markers = before ++ marker :: after ->
       Forall (absent unified) before ->
       lastIndexOf unified marker <> (-1)%Z ->
       kept = Strategies.detailPrefix
              ++ trim (slice unified (of_Z (lastIndexOf unified marker)) None)) /\
    (Forall (absent unified) Strategies.markers ->
     forall p, last (Strategies.paragraphs unified) = Some p ->
               kept = Strategies.detailPrefix ++ p) /\
    (Forall (absent unified) Strategies.markers ->
     Strategies.paragraphs unified = [] ->
     kept = detail_placeholder config).
Proof.
  intros Hrole Hskip Hunified.
  set (kept := match Strategies.extractFinalSummary unified with
               | Some summary => if Strategies.nonEmpty summary
                                 then Strategies.detailPrefix ++ summary
                                 else detail_placeholder config
               | None => detail_placeholder config
               end).
  exists (Strategies.withContent msg
            (Strategies.preserveContentShape (get msg "content") kept)), kept.
  split; [|split; [apply get_withContent|]].
  - unfold Strategies.applyDetailPruning. rewrite Hskip, Hunified. subst kept.
    apply toolResult_roles in Hrole as [-> | ->]; simpl;
      destruct (Strategies.extractFinalSummary unified) as [summary|];
      try reflexivity; destruct (Strategies.nonEmpty summary); reflexivity.
  - subst kept. unfold Strategies.extractFinalSummary. split; [|split].
    + intros before marker after Hm Hb Hidx.
      assert (Hkept : trim (slice unified (of_Z (lastIndexOf unified marker)) None) <> []).
      { apply found_marker_kept; [|exact Hidx].
        rewrite Hm. apply elem_of_app. right. apply list_elem_of_here. }
      rewrite Hm, (markerSummary_first _ _ _ _ Hb Hidx Hkept).
      destruct (trim _); [congruence|reflexivity].
    + intros Hnone p Hp. rewrite (markerSummary_absent _ _ Hnone), Hp.
      pose proof (paragraphs_nonEmpty _ _ Hp) as Hne.
      destruct p; [discriminate|reflexivity].
    + intros Hnone ->. rewrite (markerSummary_absent _ _ Hnone). reflexivity.
Qed.

(** C9, amended. When a pass reports a change, the after-count is the token
    estimate of the returned list and [deletedTokens] is the before-count
    less the after-count, or 0 when that is negative; so the three agree as
    [before - deleted = after] exactly when the estimate did not grow. *)
Theorem stats_after_change (msgs : list value) (config : EasyPruningConfig)
    (r : Pruner.PruneResult) :
  Pruner.applyPruningWithStats Number_toString msgs config = Some r ->
  Pruner.replaced r = true ->
  let stats := Pruner.resultStats r in
  Pruner.contextTokensAfter stats
  = Pruner.estimateContextTokens Number_toString (Pruner.messages r) /\
  Pruner.deletedTokens stats
  = Z.max 0 (Pruner.contextTokensBefore stats - Pruner.contextTokensAfter stats) /\
  ((Pruner.contextTokensBefore stats - Pruner.deletedTokens stats
    = Pruner.contextTokensAfter stats)%Z <->
   (Pruner.contextTokensAfter stats <= Pruner.contextTokensBefore stats)%Z).
Proof.
  unfold Pruner.applyPruningWithStats.
  destruct (Pruner.buildMessageMeta Number_toString msgs) as [|m0 metas];
    [intros H; injection H as <-; discriminate|].
  destruct (Pruner.zoneStarts _ _) as [[softStart hardStart] detailStart].
  destruct (Pruner.pruneLoop _ _ _ _ _ _ _ _ _) as [final|]; [|discriminate].
  simpl. destruct (Pruner.changed final); simpl; intros H; injection H as <-;
    simpl; [|discriminate].
  intros _. split; [reflexivity|]. split; [reflexivity|]. lia.
Qed.

End StrategyFacts.

(** ** The token estimator and the timeline *)
Section Timeline.

Variable Number_toString : number -> jstr.

Local Abbreviation estimateUnknownChars := (Pruner.estimateUnknownChars Number_toString).
Local Abbreviation estimateMessageTokens := (Pruner.estimateMessageTokens Number_toString).
Local Abbreviation estimateContextTokens := (Pruner.estimateContextTokens Number_toString).
Local Abbreviation buildMessageMeta_from := (Pruner.buildMessageMeta_from Number_toString).
Local Abbreviation buildMessageMeta := (Pruner.buildMessageMeta Number_toString).
Local Abbreviation contribution := (Notions.contribution Number_toString).

Lemma fold_sum_nonneg (items : list value) : forall acc : Z,
  Forall (fun item => 0 <= estimateUnknownChars item)%Z items ->
  (0 <= acc)%Z ->
  (0 <= fold_left (fun sum item => sum + estimateUnknownChars item) items acc)%Z.
Proof.
  induction items as [|item rest IH]; intros acc Hall Hacc; simpl; [exact Hacc|].
  apply Forall_cons in Hall as [Hitem Hrest]. apply IH; [exact Hrest|lia].
Qed.

Fixpoint estimateUnknownChars_nonneg (input : value) :
  (0 <= estimateUnknownChars input)%Z.
Proof.
  destruct input as [| | b | n | s | items | props]; simpl; try lia.
  apply fold_sum_nonneg; [|lia].
    induction items as [|item rest IH]; constructor;
      [apply estimateUnknownChars_nonneg | exact IH].
Qed.

Lemma ceiling_quarter (n : Z) :
  Qceiling (inject_Z n / inject_Z 4) = ((n + 3) / 4)%Z.
Proof.
  unfold Qceiling.
  rewrite (Qfloor_comp (- (inject_Z n / inject_Z 4)) (inject_Z (- n) / inject_Z 4)).
  - rewrite <- Zdiv_Qdiv. Z.div_mod_to_equations. lia.
  - rewrite inject_Z_opp. field.
Qed.

Lemma estimateMessageTokens_floor (msg : value) : (4 <= estimateMessageTokens msg)%Z.
Proof.
  unfold Pruner.estimateMessageTokens, Pruner.TOKENS_PER_CHAR_ESTIMATE.
  rewrite ceiling_quarter.
  pose proof (estimateUnknownChars_nonneg (get msg "content")).
  assert (0 <= match get msg "role" with
               | VStr r => Z.of_nat (length r) | _ => 0 end)%Z
    by (destruct (get msg "role"); lia).
  Z.div_mod_to_equations. lia.
Qed.

(** X1. A message never weighs less than four tokens, whatever its shape;
    with a string role and a string content its token count is the quarter
    of their lengths plus 16, rounded up. *)
Theorem estimate_bounds (msg : value) :
  (4 <= estimateMessageTokens msg)%Z /\
  forall role content : jstr,
    get msg "role" = VStr role -> get msg "content" = VStr content ->
    let chars := (Z.of_nat (length role) + Z.of_nat (length content) + 16)%Z in
    (4 * estimateMessageTokens msg - 3 <= chars <= 4 * estimateMessageTokens msg)%Z.
Proof.
  split; [apply estimateMessageTokens_floor|].
  intros role content Hrole Hcontent chars.
  unfold Pruner.estimateMessageTokens, Pruner.TOKENS_PER_CHAR_ESTIMATE.
  rewrite Hrole, Hcontent, ceiling_quarter. simpl. fold chars.
  Z.div_mod_to_equations. lia.
Qed.

Lemma fold_context_shift (msgs : list value) : forall acc : Z,
  fold_left (fun sum raw => if Pruner.notMessageLike raw then sum
                            else (sum + estimateMessageTokens raw)%Z) msgs acc
  = (acc + estimateContextTokens msgs)%Z.
Proof.
  unfold Pruner.estimateContextTokens.
  induction msgs as [|raw rest IH]; intros acc; simpl; [lia|].
  rewrite IH, (IH (if Pruner.notMessageLike raw then 0%Z else _)).
  destruct (Pruner.notMessageLike raw); lia.
Qed.

Lemma estimateContextTokens_cons (raw : value) (rest : list value) :
  estimateContextTokens (raw :: rest)
  = (contribution raw + estimateContextTokens rest)%Z.
Proof.
  unfold Pruner.estimateContextTokens at 1. simpl. rewrite fold_context_shift.
  unfold Notions.contribution. destruct (Pruner.notMessageLike raw); lia.
Qed.

Lemma estimateContextTokens_app (a b : list value) :
  estimateContextTokens (a ++ b)
  = (estimateContextTokens a + estimateContextTokens b)%Z.
Proof.
  induction a as [|raw a IH]; [reflexivity|].
  simpl app. rewrite !estimateContextTokens_cons, IH. lia.
Qed.

(** X2. The context estimate adds up over a list put together from two,
    an entry that is not an object adds nothing to it and an object adds
    its own estimate. *)
Theorem context_estimate_additive (a b : list value) (raw : value) :
  estimateContextTokens (a ++ raw :: b)
  = (estimateContextTokens a + contribution raw + estimateContextTokens b)%Z /\
  (Pruner.notMessageLike raw = true -> contribution raw = 0%Z) /\
  (Pruner.notMessageLike raw = false ->
   contribution raw = estimateMessageTokens raw).
Proof.
  rewrite estimateContextTokens_app, estimateContextTokens_cons.
  unfold Notions.contribution.
  split; [lia|]. split; intros ->; reflexivity.
Qed.

(** The shape of one metadata entry. *)
Lemma build_entries (msgs : list value) : forall (i : nat) (cursor : Z),
  Forall (fun meta =>
            Pruner.tokenCount meta = estimateMessageTokens (Pruner.message meta) /\
            Pruner.tokenEnd meta = (Pruner.tokenStart meta + Pruner.tokenCount meta)%Z /\
            Pruner.tokenMid meta
            = (inject_Z (Pruner.tokenStart meta)
               + inject_Z (Pruner.tokenCount meta) / 2)%Q)
         (buildMessageMeta_from i cursor msgs).
Proof.
  induction msgs as [|raw rest IH]; intros i cursor; simpl; [constructor|].
  destruct (Pruner.notMessageLike raw); [apply IH|].
  constructor; [|apply IH]. simpl.
  pose proof (estimateMessageTokens_floor raw).
  repeat split; lia.
Qed.

Lemma build_total (msgs : list value) : forall (i : nat) (cursor : Z),
  match last (buildMessageMeta_from i cursor msgs) with
  | Some meta => Pruner.tokenEnd meta
  | None => cursor
  end = (cursor + estimateContextTokens msgs)%Z.
Proof.
  induction msgs as [|raw rest IH]; intros i cursor; simpl.
  - unfold Pruner.estimateContextTokens. simpl. lia.
  - rewrite estimateContextTokens_cons. unfold Notions.contribution.
    destruct (Pruner.notMessageLike raw); [rewrite IH; lia|].
    rewrite last_cons.
    pose proof (estimateMessageTokens_floor raw).
    specialize (IH (S i) (cursor + Z.max 1 (estimateMessageTokens raw))%Z).
    destruct (last _); simpl; rewrite IH; lia.
Qed.

Lemma build_end (msgs : list value) :
  Pruner.lastTokenEnd (buildMessageMeta msgs) = estimateContextTokens msgs.
Proof.
  unfold Pruner.lastTokenEnd, Pruner.buildMessageMeta.
  pose proof (build_total msgs 0 0) as H.
  destruct (last _); rewrite H; lia.
Qed.

(** X3. The floor of one token per message never applies, and the end of
    the timeline is the context estimate of the list: the before-count of a
    pruning pass is [estimateContextTokens] of its input. *)
Theorem timeline_total (msgs : list value) :
  Pruner.lastTokenEnd (buildMessageMeta msgs) = estimateContextTokens msgs /\
  Forall (fun meta =>
            Pruner.tokenCount meta = estimateMessageTokens (Pruner.message meta))
         (buildMessageMeta msgs).
Proof.
  split.
  - apply build_end.
  - eapply Forall_impl; [apply build_entries|]. simpl. tauto.
Qed.

Lemma half_inside (a b : Q) : (1 <= b -> a < a + b / 2 < a + b)%Q.
Proof.
  intros H.
  assert (E : (b / 2 == b * (1 # 2))%Q) by reflexivity.
  split.
  - apply Qlt_le_trans with (a + b * (1 # 2))%Q; [lra|].
    apply Qplus_le_r. rewrite E. apply Qle_refl.
  - apply Qle_lt_trans with (a + b * (1 # 2))%Q; [|lra].
    apply Qplus_le_r. rewrite E. apply Qle_refl.
Qed.

Lemma build_first (msgs : list value) : forall (i : nat) (cursor : Z) meta,
  buildMessageMeta_from i cursor msgs !! 0%nat = Some meta ->
  Pruner.tokenStart meta = cursor /\ (i <= Pruner.index meta)%nat.
Proof.
  induction msgs as [|raw rest IH]; intros i cursor meta H; simpl in H; [discriminate|].
  destruct (Pruner.notMessageLike raw).
  - destruct (IH _ _ _ H). split; [assumption|lia].
  - injection H as <-. simpl. split; [reflexivity|lia].
Qed.

Lemma build_adjacent (msgs : list value) : forall (i : nat) (cursor : Z) k m1 m2,
  buildMessageMeta_from i cursor msgs !! k = Some m1 ->
  buildMessageMeta_from i cursor msgs !! S k = Some m2 ->
  Pruner.tokenStart m2 = Pruner.tokenEnd m1 /\
  (Pruner.index m1 < Pruner.index m2)%nat.
Proof.
  induction msgs as [|raw rest IH]; intros i cursor k m1 m2 H1 H2;
    simpl in H1, H2; [discriminate|].
  destruct (Pruner.notMessageLike raw); [eauto|].
  destruct k as [|k]; simpl in H1, H2; [|eauto].
  injection H1 as <-. simpl. apply build_first in H2. exact H2.
Qed.

(** X4. The timeline is one unbroken token axis: the first span starts at
    0, each span starts where the one before ends, spans are at least one
    token long with their midpoint strictly inside, and indices grow along
    the timeline. *)
Theorem timeline_contiguous (msgs : list value) :
  let metas := buildMessageMeta msgs in
  (forall meta, metas !! 0%nat = Some meta -> Pruner.tokenStart meta = 0%Z) /\
  (forall k m1 m2, metas !! k = Some m1 -> metas !! S k = Some m2 ->
                   Pruner.tokenStart m2 = Pruner.tokenEnd m1 /\
                   (Pruner.index m1 < Pruner.index m2)%nat) /\
  Forall (fun meta =>
            (1 <= Pruner.tokenCount meta)%Z /\
            Pruner.tokenEnd meta = (Pruner.tokenStart meta + Pruner.tokenCount meta)%Z /\
            (inject_Z (Pruner.tokenStart meta) < Pruner.tokenMid meta)%Q /\
            (Pruner.tokenMid meta < inject_Z (Pruner.tokenEnd meta))%Q)
         metas.
Proof.
  intros metas. split; [|split].
  - intros meta H. apply build_first in H. apply H.
  - intros k m1 m2. apply build_adjacent.
  - eapply Forall_impl; [apply build_entries|]. simpl.
    intros meta (Hcount & Hend & Hmid).
    pose proof (estimateMessageTokens_floor (Pruner.message meta)) as Hfour.
    rewrite <- Hcount in Hfour.
    assert (Hq : (1 <= inject_Z (Pruner.tokenCount meta))%Q)
      by (change 1%Q with (inject_Z 1); rewrite <- Zle_Qle; lia).
    split; [lia|]. split; [exact Hend|].
    rewrite Hmid, Hend, inject_Z_plus. apply half_inside, Hq.
Qed.

Lemma build_messages (msgs : list value) : forall (i : nat) (cursor : Z),
  List.map Pruner.message (buildMessageMeta_from i cursor msgs)
  = List.filter (fun raw => negb (Pruner.notMessageLike raw)) msgs.
Proof.
  induction msgs as [|raw rest IH]; intros i cursor; simpl; [reflexivity|].
  destruct (Pruner.notMessageLike raw); simpl; [apply IH|]. f_equal. apply IH.
Qed.

(** X5. The timeline has one entry for each object of the list, in order,
    and none for any other entry; each entry carries the message found at
    its index. *)
Theorem timeline_entries (msgs : list value) :
  List.map Pruner.message (buildMessageMeta msgs)
  = List.filter (fun raw => negb (Pruner.notMessageLike raw)) msgs /\
  Forall (fun meta => msgs !! Pruner.index meta = Some (Pruner.message meta))
         (buildMessageMeta msgs).
Proof.
  split; [apply build_messages|].
  apply Forall_forall. intros meta Hin.
  destruct (build_sound Number_toString _ _ _ _ Hin) as (k & Hk & Hl & _).
  simpl in Hk. congruence.
Qed.

End Timeline.

(** ** Where the boundaries fall *)
Section ZoneOrder.

Variable Number_toString : number -> jstr.

Lemma resolve_bounds (value : number) (totalTokens : Z) :
  (0 <= totalTokens)%Z ->
  exists z : Z, Pruner.resolveThresholdToToken value totalTokens = of_Z z /\
                (0 <= z)%Z /\ ((totalTokens < 2 ^ 53)%Z -> (z <= totalTokens)%Z).
Proof.
  intros Htotal.
  assert (Hzero : exists z : Z, of_Z 0 = of_Z z /\ (0 <= z)%Z /\
                                ((totalTokens < 2 ^ 53)%Z -> (z <= totalTokens)%Z))
    by (exists 0%Z; split; [reflexivity|split; [lia|intros _; exact Htotal]]).
  destruct value as [| | |v];
    try (rewrite resolve_out_of_range by (left; reflexivity); exact Hzero).
  destruct (Qlt_le_dec v 0) as [Hneg|Hpos].
  { rewrite resolve_out_of_range; [exact Hzero|].
    right. apply ltb_Fin. exact Hneg. }
  destruct (Qlt_le_dec v 1) as [Hratio|Habs].
  - rewrite resolve_ratio by assumption. eexists. split; [reflexivity|].
    assert (H0 : (0 <= inject_Z totalTokens)%Q)
      by (change 0%Q with (inject_Z 0); rewrite <- Zle_Qle; exact Htotal).
    pose proof (binary64_nonneg _ H0) as Ht0.
    pose proof (binary64_nonneg _ Hpos) as Hv0.
    assert (Hp0 : (0 <= binary64 (inject_Z totalTokens) * binary64 v)%Q)
      by (apply Qmult_le_0_compat; assumption).
    split.
    + change 0%Z with (Qfloor (inject_Z 0)). apply Qfloor_resp_le.
      apply binary64_nonneg, Hp0.
    + intros Hsmall.
      pose proof (binary64_le _ totalTokens H0 (Qle_refl _) Hsmall) as Ht.
      assert (Hv : (binary64 v <= inject_Z 1)%Q)
        by (apply binary64_le;
            [exact Hpos | apply Qlt_le_weak; exact Hratio | reflexivity]).
      rewrite <- (Qfloor_Z totalTokens) at 2. apply Qfloor_resp_le.
      apply binary64_le; [exact Hp0| |exact Hsmall].
      apply Qle_trans with (inject_Z totalTokens * 1)%Q;
        [|rewrite Qmult_1_r; apply Qle_refl].
      apply Qmult_le_compat_nonneg; split; assumption.
  - rewrite resolve_absolute by assumption. eexists. split; [reflexivity|].
    assert (1 <= Qfloor v)%Z.
    { change 1%Z with (Qfloor (inject_Z 1)). apply Qfloor_resp_le. exact Habs. }
    split; [lia|intros _; lia].
Qed.

(** X6. In every run the three boundaries are whole token positions of the
    token axis, in order: 0 <= soft <= hard <= detail; and detail <= total
    when the total is below 2^53, where a token count is a binary64. *)
Theorem boundaries_on_axis (msgs : list value) (config : EasyPruningConfig) :
  let totalTokens :=
    Pruner.lastTokenEnd (Pruner.buildMessageMeta Number_toString msgs) in
  exists softStart hardStart detailStart : Z,
    Pruner.zoneStarts config totalTokens
    = (of_Z softStart, of_Z hardStart, of_Z detailStart) /\
    (0 <= softStart <= hardStart)%Z /\
    (hardStart <= detailStart)%Z /\
    ((totalTokens < 2 ^ 53)%Z -> (detailStart <= totalTokens)%Z).
Proof.
  intros totalTokens.
  pose proof (lastTokenEnd_nonneg Number_toString msgs) as Htotal.
  fold totalTokens in Htotal. unfold Pruner.zoneStarts.
  destruct (resolve_bounds (soft_threshold config) _ Htotal) as (s & -> & Hs & Hs').
  destruct (resolve_bounds (hard_threshold config) _ Htotal) as (h & -> & Hh & Hh').
  destruct (resolve_bounds (detail_threshold config) _ Htotal) as (d & -> & Hd & Hd').
  destruct (ltb (of_Z h) (of_Z s)) eqn:Ehs.
  - apply of_Z_lt in Ehs.
    destruct (ltb (of_Z d) (of_Z s)) eqn:Eds.
    + apply of_Z_lt in Eds. exists s, s, s. repeat split; first [lia | exact Hs'].
    + apply not_true_iff_false in Eds. rewrite of_Z_lt in Eds.
      exists s, s, d. repeat split; first [lia | exact Hd'].
  - apply not_true_iff_false in Ehs. rewrite of_Z_lt in Ehs.
    destruct (ltb (of_Z d) (of_Z h)) eqn:Edh.
    + apply of_Z_lt in Edh. exists s, h, h. repeat split; first [lia | exact Hh'].
    + apply not_true_iff_false in Edh. rewrite of_Z_lt in Edh.
      exists s, h, d. repeat split; first [lia | exact Hd'].
Qed.

(** X7. Along the token axis the zones come in the order none, soft, hard,
    detail: of two positions, the later one is never in a milder zone,
    however the thresholds are configured. *)
Theorem zones_monotone (config : EasyPruningConfig) (totalTokens : Z)
    (earlier later : Q) :
  (earlier <= later)%Q ->
  let starts := Pruner.zoneStarts config totalTokens in
  (Notions.zoneRank (Pruner.resolveZone earlier starts.1.1 starts.1.2 starts.2)
   <= Notions.zoneRank (Pruner.resolveZone later starts.1.1 starts.1.2 starts.2))%nat.
Proof.
  intros Hle starts.
  pose proof (zoneStarts_ordered config totalTokens) as Hordered.
  fold starts in Hordered.
  assert (Hfin : exists s h d, starts = (Fin s, Fin h, Fin d)).
  { subst starts. unfold Pruner.zoneStarts.
    destruct (resolve_finite (soft_threshold config) totalTokens) as [s ->].
    destruct (resolve_finite (hard_threshold config) totalTokens) as [h ->].
    destruct (resolve_finite (detail_threshold config) totalTokens) as [d ->].
    destruct (ltb (Fin h) (Fin s)); destruct (ltb (Fin d) _); eauto. }
  destruct Hfin as (s & h & d & ->). simpl in *.
  destruct Hordered as [Hsh Hhd]. apply leb_Fin in Hsh, Hhd.
  unfold Pruner.resolveZone.
  destruct (ltb (Fin earlier) (Fin s)) eqn:E1; [simpl; lia|].
  apply ltb_Fin_false in E1.
  replace (ltb (Fin later) (Fin s)) with false
    by (symmetry; apply ltb_Fin_false; lra).
  destruct (ltb (Fin earlier) (Fin h)) eqn:E2;
    [repeat match goal with |- context [if ?b then _ else _] => destruct b end;
     simpl; lia|].
  apply ltb_Fin_false in E2.
  replace (ltb (Fin later) (Fin h)) with false
    by (symmetry; apply ltb_Fin_false; lra).
  destruct (ltb (Fin earlier) (Fin d)) eqn:E3;
    [repeat match goal with |- context [if ?b then _ else _] => destruct b end;
     simpl; lia|].
  apply ltb_Fin_false in E3.
  replace (ltb (Fin later) (Fin d)) with false
    by (symmetry; apply ltb_Fin_false; lra).
  simpl. lia.
Qed.

End ZoneOrder.

(** ** What the strategies keep and what they leave alone *)
Section StrategyShape.

Variable Number_toString : number -> jstr.

Local Abbreviation roleOf := (Strategies.roleOf Number_toString).
Local Abbreviation toUnifiedText := (Strategies.toUnifiedText Number_toString).
Local Abbreviation skipsImages := (Strategies.skipsImages Number_toString).
Local Abbreviation applySoftPruning := (Strategies.applySoftPruning Number_toString).
Local Abbreviation applyHardPruning := (Strategies.applyHardPruning Number_toString).
Local Abbreviation applyDetailPruning := (Strategies.applyDetailPruning Number_toString).
Local Abbreviation applyStrategy := (Strategies.applyStrategy Number_toString).

Lemma lookup_setProp_ne (k k' : jstr) (v : value) (props : list (jstr * value)) :
  k' <> k -> lookupProp k' (setProp k v props) = lookupProp k' props.
Proof.
  intros Hne. induction props as [|[k0 v0] props IH]; simpl.
  - rewrite bool_decide_eq_false_2 by congruence. reflexivity.
  - destruct (bool_decide (k0 = k)) eqn:E; simpl.
    + apply bool_decide_eq_true in E. subst k0.
      rewrite !bool_decide_eq_false_2 by congruence. reflexivity.
    + destruct (bool_decide (k0 = k')); [reflexivity|exact IH].
Qed.

Lemma roleOf_plain (msg : value) :
  (forall props, msg <> VObj props) -> roleOf msg = [].
Proof. destruct msg; try reflexivity. intros H. now destruct (H props). Qed.

Lemma role_object (msg : value) :
  Strategies.isToolResultRole (roleOf msg) = true \/
  Strategies.isAssistantRole (roleOf msg) = true ->
  exists props, msg = VObj props.
Proof.
  destruct msg; eauto; unfold Strategies.roleOf; simpl; intros [H|H]; discriminate.
Qed.

(** A strategy builds a new object only for a tool result, or in the
    detail zone for an assistant message, and the new object is the old one
    with another content. *)
Lemma fresh_shape (config : EasyPruningConfig) (zone : MessageZone)
    (msg next : value) :
  applyStrategy config zone msg = Some (Fresh next) ->
  (Strategies.isToolResultRole (roleOf msg) = true \/
   (Strategies.isAssistantRole (roleOf msg) = true /\ zone = ZoneDetail)) /\
  exists content, next = Strategies.withContent msg content.
Proof.
  destruct zone; simpl.
  - discriminate.
  - unfold Strategies.applySoftPruning.
    destruct (Strategies.isToolResultRole (roleOf msg)); simpl; [|discriminate].
    destruct (skipsImages config msg); [discriminate|].
    destruct (toUnifiedText _); simpl; [|discriminate].
    destruct (leb _ _); [discriminate|].
    intros H. injection H as <-. eauto.
  - unfold Strategies.applyHardPruning.
    destruct (Strategies.isToolResultRole (roleOf msg)); simpl; [|discriminate].
    destruct (skipsImages config msg); [discriminate|].
    intros H. injection H as <-. eauto.
  - unfold Strategies.applyDetailPruning.
    destruct (bool_decide _ || bool_decide _); [discriminate|].
    destruct (Strategies.isAssistantRole (roleOf msg)).
    + destruct (get msg "content"); try discriminate;
        try (intros H; injection H as <-; eauto).
      destruct (0 <? _)%nat; intros H; injection H as <-; eauto.
    + destruct (Strategies.isToolResultRole (roleOf msg)); [|discriminate].
      destruct (skipsImages config msg); [discriminate|].
      destruct (toUnifiedText _); simpl; [|discriminate].
      destruct (Strategies.extractFinalSummary _) as [summary|];
        [destruct (Strategies.nonEmpty summary)|];
        intros H; injection H as <-; eauto.
Qed.

Lemma get_withContent_other (props : list (jstr * value)) (content : value)
    (k : string) :
  str k <> str "content" ->
  get (Strategies.withContent (VObj props) content) k = get (VObj props) k.
Proof. intros Hne. simpl. apply lookup_setProp_ne. exact Hne. Qed.

Lemma roleOf_withContent (props : list (jstr * value)) (content : value) :
  roleOf (Strategies.withContent (VObj props) content) = roleOf (VObj props).
Proof.
  unfold Strategies.roleOf. rewrite get_withContent_other; [reflexivity|].
  discriminate.
Qed.

Lemma fresh_messageLike (config : EasyPruningConfig) (zone : MessageZone)
    (msg next : value) :
  applyStrategy config zone msg = Some (Fresh next) ->
  Pruner.notMessageLike next = false.
Proof.
  intros H. apply fresh_shape in H as [Hrole [content ->]].
  destruct (role_object msg) as [props ->]; [tauto|]. reflexivity.
Qed.

(** X8. What a strategy builds is the message it was given with another
    content: both are objects, every property of any other name reads as
    before, the role among them, and the result is still an object of the
    history. *)
Theorem strategies_keep_fields (config : EasyPruningConfig) (zone : MessageZone)
    (msg next : value) :
  applyStrategy config zone msg = Some (Fresh next) ->
  (exists props props' : list (jstr * value),
     msg = VObj props /\ next = VObj props' /\
     forall key : jstr, key <> str "content" ->
                        lookupProp key props' = lookupProp key props) /\
  (forall k : string, str k <> str "content" -> get next k = get msg k) /\
  roleOf next = roleOf msg /\
  Pruner.notMessageLike next = false.
Proof.
  intros H. apply fresh_shape in H as [Hrole [content ->]].
  destruct (role_object msg) as [props ->]; [tauto|].
  split; [|split; [|split]].
  - exists props, (setProp (str "content") content props).
    split; [reflexivity|]. split; [reflexivity|].
    intros key Hkey. apply lookup_setProp_ne, Hkey.
  - intros k Hk. apply get_withContent_other, Hk.
  - apply roleOf_withContent.
  - reflexivity.
Qed.

(** X9. A message that is not a tool result is handed back by soft and
    hard pruning, and by detail pruning too unless it is an assistant
    message; none of the three can raise on it, an assistant message
    included. *)
Theorem other_roles_untouched (config : EasyPruningConfig) (msg : value) :
  Strategies.isToolResultRole (roleOf msg) = false ->
  applySoftPruning msg config = Some Same /\
  applyHardPruning msg config = Some Same /\
  (Strategies.isAssistantRole (roleOf msg) = false ->
   applyDetailPruning msg config = Some Same) /\
  exists result, applyDetailPruning msg config = Some result.
Proof.
  intros Htool.
  unfold Strategies.applySoftPruning, Strategies.applyHardPruning,
    Strategies.applyDetailPruning.
  rewrite Htool. cbn [negb]. split; [reflexivity|]. split; [reflexivity|]. split.
  - intros ->. destruct (bool_decide _ || bool_decide _); reflexivity.
  - destruct (bool_decide _ || bool_decide _); [eauto|].
    destruct (Strategies.isAssistantRole (roleOf msg)); [|eauto].
    destruct (get msg "content"); eauto.
    destruct (0 <? _)%nat; eauto.
Qed.

Lemma assistant_not_exempt (role : jstr) :
  Strategies.isAssistantRole role = true ->
  bool_decide (role = str "user") || bool_decide (role = str "system") = false.
Proof. intros H. apply bool_decide_eq_true in H. subst role. reflexivity. Qed.

Lemma filter_text_fixed (items : list value) :
  List.filter Strategies.isTextBlock (List.filter Strategies.isTextBlock items)
  = List.filter Strategies.isTextBlock items.
Proof.
  induction items as [|item items IH]; simpl; [reflexivity|].
  destruct (Strategies.isTextBlock item) eqn:E; simpl; [|exact IH].
  rewrite E, IH. reflexivity.
Qed.

(** The blocks detail pruning leaves of a block sequence. *)
Lemma assistant_blocks (props : list (jstr * value)) (config : EasyPruningConfig)
    (items : list value) :
  Strategies.isAssistantRole (roleOf (VObj props)) = true ->
  get (VObj props) "content" = VArr items ->
  applyDetailPruning (VObj props) config
  = Some (Fresh (Strategies.withContent (VObj props)
                   (VArr (match List.filter Strategies.isTextBlock items with
                          | [] => [Strategies.textBlock (detail_placeholder config)]
                          | kept => kept
                          end)))).
Proof.
  intros Hrole Hcontent. unfold Strategies.applyDetailPruning.
  rewrite (assistant_not_exempt _ Hrole), Hrole, Hcontent.
  destruct (List.filter Strategies.isTextBlock items); reflexivity.
Qed.

(** X10. Detail pruning of an assistant message: a string content is left
    alone; of a block sequence exactly the text blocks stay, in their
    order, or a single placeholder block when there is none; and pruning
    the result once more yields the same content. *)
Theorem assistant_detail (msg : value) (config : EasyPruningConfig) :
  Strategies.isAssistantRole (roleOf msg) = true ->
  (forall s, get msg "content" = VStr s ->
             applyDetailPruning msg config = Some Same) /\
  (forall items, get msg "content" = VArr items ->
     exists next again kept,
       applyDetailPruning msg config = Some (Fresh next) /\
       get next "content" = VArr kept /\
       Forall (fun block => Strategies.isTextBlock block = true) kept /\
       (List.filter Strategies.isTextBlock items <> [] ->
        kept = List.filter Strategies.isTextBlock items) /\
       (List.filter Strategies.isTextBlock items = [] ->
        kept = [Strategies.textBlock (detail_placeholder config)]) /\
       applyDetailPruning next config = Some (Fresh again) /\
       get again "content" = VArr kept).
Proof.
  intros Hrole. destruct (role_object msg) as [props ->]; [tauto|]. split.
  - intros s Hs. unfold Strategies.applyDetailPruning.
    rewrite (assistant_not_exempt _ Hrole), Hrole, Hs. reflexivity.
  - intros items Hitems.
    set (kept := match List.filter Strategies.isTextBlock items with
                 | [] => [Strategies.textBlock (detail_placeholder config)]
                 | kept => kept
                 end).
    assert (Hall : Forall (fun block => Strategies.isTextBlock block = true) kept).
    { subst kept. destruct (List.filter _ items) as [|b bs] eqn:E.
      - repeat constructor.
      - rewrite <- E. apply Forall_forall. intros block Hin.
        apply list_elem_of_In, filter_In in Hin. apply Hin. }
    assert (Hfixed : List.filter Strategies.isTextBlock kept = kept).
    { clear -Hall. induction Hall as [|b bs Hb _ IH]; simpl; [reflexivity|].
      rewrite Hb, IH. reflexivity. }
    assert (Hne : kept <> []).
    { subst kept. destruct (List.filter _ items); discriminate. }
    exists (Strategies.withContent (VObj props) (VArr kept)),
           (Strategies.withContent
              (Strategies.withContent (VObj props) (VArr kept)) (VArr kept)),
           kept.
    split; [apply assistant_blocks; assumption|].
    split; [apply get_withContent|].
    split; [exact Hall|].
    split; [subst kept; destruct (List.filter _ items); [congruence|reflexivity]|].
    split; [intros E; subst kept; rewrite E; reflexivity|].
    split; [|apply get_withContent].
    change (Strategies.withContent (VObj props) (VArr kept))
      with (VObj (setProp (str "content") (VArr kept) props)) at 1 2.
    rewrite (assistant_blocks _ config kept).
    + rewrite Hfixed. destruct kept; [congruence|reflexivity].
    + change (VObj (setProp (str "content") (VArr kept) props))
        with (Strategies.withContent (VObj props) (VArr kept)).
      rewrite roleOf_withContent. exact Hrole.
    + apply (get_withContent (VObj props)).
Qed.


Lemma applyHardPruning_unfold (msg : value) (config : EasyPruningConfig) :
  Strategies.isToolResultRole (roleOf msg) = true ->
  applyHardPruning msg config =
  if skipsImages config msg then Some Same
  else Some (Fresh (Strategies.withContent msg
                      (Strategies.preserveContentShape (get msg "content")
                         (hard_clear_placeholder config)))).
Proof. intros Hrole. unfold Strategies.applyHardPruning. now rewrite Hrole. Qed.


Lemma tool_not_other (role : jstr) :
  Strategies.isToolResultRole role = true ->
  bool_decide (role = str "user") || bool_decide (role = str "system") = false /\
  Strategies.isAssistantRole role = false.
Proof.
  intros H. apply toolResult_roles in H as [-> | ->]; split; reflexivity.
Qed.

(** X12. With [skip_tools_with_images] on, a tool result whose content
    holds an image is handed back as it is by the strategy of every zone,
    and without an error even where its content cannot be turned into
    text. *)
Theorem image_results_skipped (config : EasyPruningConfig) (zone : MessageZone)
    (msg : value) :
  Strategies.isToolResultRole (roleOf msg) = true ->
  skip_tools_with_images config = Some true ->
  Strategies.hasImageContent Number_toString (get msg "content") = true ->
  applyStrategy config zone msg = Some Same.
Proof.
  intros Htool Hflag Himage.
  assert (Hskip : skipsImages config msg = true)
    by (unfold Strategies.skipsImages; rewrite Hflag; exact Himage).
  destruct (tool_not_other _ Htool) as [Hus Has].
  destruct zone; unfold Strategies.applyStrategy.
  - reflexivity.
  - unfold Strategies.applySoftPruning. rewrite Htool. simpl. rewrite Hskip. reflexivity.
  - rewrite (applyHardPruning_unfold _ _ Htool), Hskip. reflexivity.
  - unfold Strategies.applyDetailPruning. rewrite Hus, Has, Htool, Hskip. reflexivity.
Qed.

(** X13. [preserveContentShape] keeps the kind of the content it replaces,
    a string for a string, a one-block array for an array and a string for
    anything else, and [toUnifiedText] reads the given text back from
    it. *)
Theorem shape_round_trip (original : value) (text : jstr) :
  toUnifiedText (Strategies.preserveContentShape original text) = Some text /\
  (forall items, original = VArr items ->
     Strategies.preserveContentShape original text
     = VArr [Strategies.textBlock text]) /\
  ((forall items, original <> VArr items) ->
   Strategies.preserveContentShape original text = VStr text).
Proof.
  split; [destruct original; reflexivity|]. split.
  - intros items ->. reflexivity.
  - intros H. destruct original as [| | | | |items|]; try reflexivity.
    now destruct (H items).
Qed.

End StrategyShape.

(** ** Trimming, paragraphs and the summary *)
Section Summary.

Import Notions.

Lemma trimStart_length (s : jstr) : (length (trimStart s) <= length s)%nat.
Proof.
  induction s as [|c s IH]; simpl; [lia|].
  destruct (isWhiteSpace c); simpl; lia.
Qed.

Lemma trimStart_head (s : jstr) (c : N) (t : jstr) :
  trimStart s = c :: t -> isWhiteSpace c = false.
Proof.
  induction s as [|d s IH]; simpl; [discriminate|].
  destruct (isWhiteSpace d) eqn:E; [exact IH|]. intros H. congruence.
Qed.

Lemma trimStart_visible (c : N) (s : jstr) :
  isWhiteSpace c = false -> trimStart (c :: s) = c :: s.
Proof. intros H. simpl. now rewrite H. Qed.

Lemma trimStart_fixed (s : jstr) : trimStart (trimStart s) = trimStart s.
Proof.
  destruct (trimStart s) as [|c t] eqn:E; [reflexivity|].
  apply trimStart_visible, (trimStart_head _ _ _ E).
Qed.

Lemma trimStart_snoc (s : jstr) (c : N) :
  isWhiteSpace c = false -> trimStart (s ++ [c]) = trimStart s ++ [c].
Proof.
  intros H. induction s as [|d s IH]; simpl; [now rewrite H|].
  destruct (isWhiteSpace d); [exact IH|reflexivity].
Qed.

Lemma trimEnd_visible (c : N) (s : jstr) :
  isWhiteSpace c = false -> trimEnd (c :: s) = c :: trimEnd s.
Proof.
  intros H. unfold trimEnd. simpl rev at 2.
  rewrite trimStart_snoc by exact H. rewrite rev_app_distr. reflexivity.
Qed.

Lemma trimEnd_fixed (s : jstr) : trimEnd (trimEnd s) = trimEnd s.
Proof. unfold trimEnd. now rewrite rev_involutive, trimStart_fixed. Qed.

(** [trim] leaves nothing to trim. *)
Lemma trim_fixed (s : jstr) : trim (trim s) = trim s.
Proof.
  unfold trim at 1.
  assert (H : trimStart (trim s) = trim s).
  { unfold trim. destruct (trimStart s) as [|c t] eqn:E; [reflexivity|].
    pose proof (trimStart_head _ _ _ E) as Hc.
    rewrite trimEnd_visible by exact Hc. apply trimStart_visible, Hc. }
  rewrite H. unfold trim. apply trimEnd_fixed.
Qed.

Lemma blank_not_visible (s : jstr) : blank s = negb (hasVisible s).
Proof.
  induction s as [|c s IH]; [reflexivity|].
  simpl. rewrite IH. destruct (isWhiteSpace c); reflexivity.
Qed.

Lemma trimStart_blank (s : jstr) : blank s = true -> trimStart s = [].
Proof.
  induction s as [|c s IH]; simpl; [reflexivity|].
  destruct (isWhiteSpace c); [exact IH|discriminate].
Qed.

Lemma trim_blank (s : jstr) : blank s = true -> trim s = [].
Proof. intros H. unfold trim. now rewrite trimStart_blank. Qed.

Lemma trim_visible (s : jstr) : hasVisible s = true -> trim s <> [].
Proof.
  intros Hv Hnil. unfold trim, trimEnd in Hnil.
  apply (f_equal (@rev N)) in Hnil. rewrite rev_involutive in Hnil. simpl in Hnil.
  apply trimStart_nil in Hnil.
  assert (Hstart : trimStart s = []).
  { destruct (trimStart s) as [|c t] eqn:E; [reflexivity|].
    pose proof (trimStart_head _ _ _ E) as Hc.
    simpl in Hnil. rewrite forallb_app in Hnil. simpl in Hnil.
    rewrite Hc in Hnil. rewrite andb_false_r in Hnil. discriminate. }
  apply trimStart_nil in Hstart. fold (blank s) in Hstart.
  rewrite blank_not_visible, Hv in Hstart. discriminate.
Qed.

Lemma hasVisible_split (n : nat) (s : jstr) :
  hasVisible s = hasVisible (take n s) || hasVisible (drop n s).
Proof.
  unfold hasVisible. rewrite <- existsb_app, take_drop. reflexivity.
Qed.

(** A match of the blank-line pattern is white space throughout. *)
Lemma lastLineFeed_blank (s : jstr) : forall i j : nat,
  lastLineFeed i s = Some j ->
  (i <= j)%nat /\ blank (take (j - i + 1) s) = true.
Proof.
  induction s as [|c s IH]; intros i j H; simpl in H; [discriminate|].
  destruct (isWhiteSpace c) eqn:Ec; [|discriminate].
  destruct (lastLineFeed (S i) s) as [j'|] eqn:Er.
  - injection H as <-. destruct (IH _ _ Er) as [Hle Hb]. split; [lia|].
    replace (j' - i + 1)%nat with (S (j' - S i + 1)) by lia.
    simpl. now rewrite Ec.
  - destruct (c =? 10)%N; [|discriminate]. injection H as <-.
    split; [lia|]. rewrite Nat.sub_diag. simpl. now rewrite Ec.
Qed.

Lemma blankLineMatch_blank (s : jstr) (n : nat) :
  blankLineMatch s = Some n -> (2 <= n)%nat /\ blank (take n s) = true.
Proof.
  destruct s as [|c s]; simpl; [discriminate|].
  destruct (N.eqb_spec c 10) as [->|]; [|discriminate].
  intros H. destruct (lastLineFeed_blank _ _ _ H) as [Hle Hb]. split; [exact Hle|].
  destruct n as [|n]; [lia|]. simpl.
  replace (S n - 2 + 1)%nat with n in Hb by lia. exact Hb.
Qed.

Lemma splitBlank_go_cons (skip : nat) (cur : jstr) (c : N) (t : jstr) :
  splitBlank_go skip cur (c :: t) =
  match skip with
  | S k => splitBlank_go k cur t
  | O => match blankLineMatch (c :: t) with
         | Some n => rev cur :: splitBlank_go (n - 1) [] t
         | None => splitBlank_go 0 (c :: cur) t
         end
  end.
Proof. reflexivity. Qed.

(** A visible code unit of the text ends up in some piece of the split. *)
Lemma split_visible (s : jstr) : forall (skip : nat) (cur : jstr),
  hasVisible (rev cur) || hasVisible (drop skip s) = true ->
  existsb hasVisible (splitBlank_go skip cur s) = true.
Proof.
  induction s as [|c s IH]; intros skip cur H.
  - simpl. rewrite drop_nil in H. simpl in H. rewrite orb_false_r in *. exact H.
  - rewrite splitBlank_go_cons. destruct skip as [|k].
    + destruct (blankLineMatch (c :: s)) as [n|] eqn:Em.
      * simpl existsb. destruct (hasVisible (rev cur)); [reflexivity|].
        simpl in H |- *. apply IH. simpl.
        destruct (blankLineMatch_blank _ _ Em) as [Hn Hb].
        change (hasVisible (c :: s) = true) in H.
        rewrite (hasVisible_split n) in H.
        rewrite blank_not_visible in Hb. apply negb_true_iff in Hb.
        rewrite Hb in H. simpl in H.
        destruct n as [|n]; [lia|]. simpl in H.
        replace (S n - 1)%nat with n by lia. exact H.
      * apply IH. simpl rev. simpl drop in H |- *.
        unfold hasVisible in *. rewrite existsb_app. simpl in *.
        destruct (existsb _ (rev cur)); simpl in *; [reflexivity|].
        rewrite orb_false_r. exact H.
    + apply IH. exact H.
Qed.

(** Of a text that is white space throughout, so is every piece. *)
Lemma split_blank (s : jstr) : forall (skip : nat) (cur : jstr),
  blank (rev cur) = true -> blank s = true ->
  forallb blank (splitBlank_go skip cur s) = true.
Proof.
  induction s as [|c s IH]; intros skip cur Hcur Hs.
  - simpl. now rewrite Hcur.
  - rewrite splitBlank_go_cons.
    simpl in Hs. apply andb_true_iff in Hs as [Hc Hs].
    destruct skip as [|k]; [|apply IH; assumption].
    destruct (blankLineMatch (c :: s)) as [n|].
    + simpl forallb. rewrite Hcur. simpl. apply IH; [reflexivity|exact Hs].
    + apply IH; [|exact Hs]. simpl rev. unfold blank in *.
      rewrite forallb_app, Hcur. simpl. now rewrite Hc.
Qed.

Lemma markerSummary_trimmed (text : jstr) (ms : list jstr) (s : jstr) :
  Strategies.markerSummary ms text = Some s -> s <> [] /\ trim s = s.
Proof.
  induction ms as [|marker ms IH]; simpl; [discriminate|].
  destruct (_ =? -1)%Z; [exact IH|].
  remember (trim (slice text (of_Z (lastIndexOf text marker)) None)) as sliced eqn:E.
  destruct sliced as [|c t]; simpl; [exact IH|].
  intros H. injection H as <-. split; [discriminate|].
  rewrite E. apply trim_fixed.
Qed.

(** X14. A summary [extractFinalSummary] returns is never empty and is
    trimmed: it neither starts nor ends with white space. *)
Theorem summary_trimmed (text summary : jstr) :
  Strategies.extractFinalSummary text = Some summary ->
  summary <> [] /\ trim summary = summary.
Proof.
  unfold Strategies.extractFinalSummary.
  destruct (Strategies.markerSummary _ text) as [sliced|] eqn:Em.
  - intros H. injection H as <-. eapply markerSummary_trimmed, Em.
  - destruct (last (Strategies.paragraphs text)) as [final|] eqn:El; [|discriminate].
    destruct (0 <? length final)%nat eqn:En; [|discriminate].
    intros H. injection H as <-. split.
    + destruct final; [discriminate|discriminate].
    + apply last_Some_elem_of, list_elem_of_In in El.
      unfold Strategies.paragraphs in El. apply filter_In in El as [El _].
      apply in_map_iff in El as (piece & <- & _). apply trim_fixed.
Qed.

Lemma blank_no_marker (text marker : jstr) :
  blank text = true -> Spec.visibleHead marker = true ->
  lastIndexOf text marker = (-1)%Z.
Proof.
  intros Hb Hv. destruct (Z.eq_dec (lastIndexOf text marker) (-1)%Z) as [E|Hne]; [exact E|].
  exfalso.
  destruct (lastIndexOf_from_found text marker 0 _ eq_refl Hne ltac:(lia)) as [_ Hs].
  destruct marker as [|c marker]; [discriminate|]. simpl in Hv.
  apply negb_true_iff in Hv.
  set (k := Z.to_nat _) in Hs.
  assert (Hd : blank (drop k text) = true).
  { unfold blank in *. rewrite <- (take_drop k text), forallb_app in Hb.
    apply andb_true_iff in Hb. apply Hb. }
  destruct (drop k text) as [|d rest]; [discriminate|].
  simpl in Hs, Hd. apply andb_true_iff in Hs as [Hc _]. apply N.eqb_eq in Hc.
  subst d. rewrite Hv in Hd. discriminate.
Qed.

(** X15. [extractFinalSummary] finds nothing exactly in a text that is
    white space throughout (the empty text among them): only then does
    detail pruning fall back on the placeholder. *)
Theorem no_summary_iff_blank (text : jstr) :
  Strategies.extractFinalSummary text = None <-> blank text = true.
Proof.
  split.
  - intros Hnone. rewrite blank_not_visible. apply negb_true_iff.
    destruct (hasVisible text) eqn:Hv; [exfalso|reflexivity].
    unfold Strategies.extractFinalSummary in Hnone.
    destruct (Strategies.markerSummary _ text); [discriminate|].
    assert (Hsome : existsb hasVisible (splitBlankLines text) = true)
      by (apply split_visible; simpl; exact Hv).
    apply existsb_exists in Hsome as (piece & Hin & Hpiece).
    assert (Hpara : In (trim piece) (Strategies.paragraphs text)).
    { unfold Strategies.paragraphs. apply filter_In. split.
      - apply in_map, Hin.
      - pose proof (trim_visible _ Hpiece). destruct (trim piece); [congruence|reflexivity]. }
    destruct (last (Strategies.paragraphs text)) as [final|] eqn:El.
    + pose proof (paragraphs_nonEmpty _ _ El) as Hne.
      destruct final; [discriminate|discriminate].
    + apply last_None in El. rewrite El in Hpara. inversion Hpara.
  - intros Hb. unfold Strategies.extractFinalSummary.
    rewrite markerSummary_absent.
    + assert (Hpara : Strategies.paragraphs text = []).
      { unfold Strategies.paragraphs.
        pose proof (split_blank text 0 [] eq_refl Hb) as Hall.
        fold (splitBlankLines text) in Hall.
        induction (splitBlankLines text) as [|piece pieces IH]; [reflexivity|].
        simpl in Hall. apply andb_true_iff in Hall as [Hp Hrest].
        simpl. rewrite (trim_blank _ Hp). simpl. apply IH, Hrest. }
      rewrite Hpara. reflexivity.
    + apply Forall_forall. intros marker Hin. apply blank_no_marker; [exact Hb|].
      pose proof markers_visible as Hv. rewrite forallb_forall in Hv.
      apply Hv, list_elem_of_In, Hin.
Qed.

End Summary.

(** ** The text soft pruning builds *)
Section SoftShape.

Variable Number_toString : number -> jstr.

Local Abbreviation roleOf := (Strategies.roleOf Number_toString).
Local Abbreviation toUnifiedText := (Strategies.toUnifiedText Number_toString).
Local Abbreviation skipsImages := (Strategies.skipsImages Number_toString).
Local Abbreviation applySoftPruning := (Strategies.applySoftPruning Number_toString).

Lemma max_zero (z : Z) : max (of_Z 0) (of_Z z) = of_Z (Z.max 0 z).
Proof.
  rewrite <- (floor_of_Z z) at 1. unfold of_Z at 2.
  rewrite keepRecent_finite, Qfloor_Z. reflexivity.
Qed.

Lemma sub_of_Z (a b : Z) : sub (of_Z a) (of_Z b) = of_Z (a - b).
Proof.
  unfold sub, of_Z, inject_Z. simpl. unfold Qplus. simpl.
  do 2 f_equal. lia.
Qed.

Lemma truncate_integer (z : Z) : truncate (inject_Z z) = z.
Proof.
  unfold truncate. destruct (Qle_bool 0 (inject_Z z));
    [apply Qfloor_Z | apply Qceiling_Z].
Qed.

(** [raw.slice(0, h)] for a whole [h]. *)
Lemma slice_head (raw : jstr) (h : Z) :
  (0 <= h)%Z -> slice raw (of_Z 0) (Some (of_Z h)) = take (Z.to_nat h) raw.
Proof.
  intros Hh. unfold slice, relativeIndex, of_Z. rewrite !truncate_integer.
  change (0 <? 0)%Z with false. cbv iota.
  replace (h <? 0)%Z with false by (symmetry; apply Z.ltb_ge; exact Hh).
  rewrite (Z.min_l 0) by lia. simpl drop.
  destruct (Z.le_ge_cases h (Z.of_nat (length raw))) as [Hle|Hge].
  - rewrite Z.min_l by lia. rewrite Z.sub_0_r. reflexivity.
  - rewrite Z.min_r by lia. rewrite Z.sub_0_r, Nat2Z.id.
    change (drop (Z.to_nat 0) raw) with raw.
    rewrite (take_ge raw (length raw)) by lia.
    rewrite (take_ge raw (Z.to_nat h)) by lia. reflexivity.
Qed.

(** X16. With whole [head_chars] and [tail_chars], what soft pruning puts
    in place of an oversized text is its first [head_chars] code units, the
    truncation note, and its last [tail_chars] code units; each side is the
    whole text when the text is shorter than the budget, so the result can
    be longer than the original. *)
Theorem soft_text_shape (msg : value) (config : EasyPruningConfig) (raw : jstr)
    (h t : nat) :
  Strategies.isToolResultRole (roleOf msg) = true ->
  skipsImages config msg = false ->
  toUnifiedText (get msg "content") = Some raw ->
  leb (of_nat (length raw)) (max_chars (soft_trim config)) = false ->
  head_chars (soft_trim config) = of_nat h ->
  tail_chars (soft_trim config) = of_nat t ->
  exists next soft,
    applySoftPruning msg config = Some (Fresh next) /\
    toUnifiedText (get next "content") = Some soft /\
    soft = take h raw
           ++ Strategies.truncationNote Number_toString (length raw)
           ++ drop (length raw - t) raw /\
    length soft
    = (Nat.min h (length raw)
       + length (Strategies.truncationNote Number_toString (length raw))
       + Nat.min t (length raw))%nat.
Proof.
  intros Hrole Hskip Hraw Hlong Hhead Htail.
  rewrite (applySoftPruning_unfold _ _ _ _ Hrole Hraw), Hskip, Hlong.
  eexists _, _. split; [reflexivity|].
  rewrite get_withContent, unified_preserved.
  assert (Hsoft : Spec.softText Number_toString config raw
                  = take h raw
                    ++ Strategies.truncationNote Number_toString (length raw)
                    ++ drop (length raw - t) raw).
  { unfold Spec.softText. rewrite Hhead, Htail. unfold of_nat.
    rewrite !max_zero, sub_of_Z, max_zero.
    rewrite slice_head by lia. rewrite slice_from by lia.
    f_equal; [f_equal; lia|]. f_equal. f_equal. lia. }
  split; [reflexivity|]. split; [exact Hsoft|].
  rewrite Hsoft, !length_app, length_take, length_drop. lia.
Qed.

End SoftShape.

(** ** What a pass changes and what its statistics count *)
Section PassFacts.

Variable Number_toString : number -> jstr.

Local Abbreviation roleOf := (Strategies.roleOf Number_toString).
Local Abbreviation applyStrategy := (Strategies.applyStrategy Number_toString).
Local Abbreviation estimateMessageTokens := (Pruner.estimateMessageTokens Number_toString).
Local Abbreviation estimateContextTokens := (Pruner.estimateContextTokens Number_toString).
Local Abbreviation buildMessageMeta_from := (Pruner.buildMessageMeta_from Number_toString).
Local Abbreviation buildMessageMeta := (Pruner.buildMessageMeta Number_toString).
Local Abbreviation pruneStep := (Pruner.pruneStep Number_toString).
Local Abbreviation pruneLoop := (Pruner.pruneLoop Number_toString).
Local Abbreviation applyPruningWithStats := (Pruner.applyPruningWithStats Number_toString).
Local Abbreviation contribution := (Notions.contribution Number_toString).

(** X17. A pass alters only tool results and assistant messages: at an
    index where the returned list differs from the input, the input holds
    one of the two. *)
Theorem only_tool_and_assistant_altered (msgs : list value)
    (config : EasyPruningConfig) (r : Pruner.PruneResult) (i : nat) (orig : value) :
  applyPruningWithStats msgs config = Some r ->
  msgs !! i = Some orig ->
  Pruner.messages r !! i <> Some orig ->
  Strategies.isToolResultRole (roleOf orig) = true \/
  Strategies.isAssistantRole (roleOf orig) = true.
Proof.
  intros Hr Hi Hdiff. destruct (apply_spec _ _ _ _ Hr) as [_ Hout].
  destruct (Hout i) as [E|(meta & next & Hin & Hidx & (_ & _ & zone & _ & _ & Ha) & _)];
    [congruence|].
  destruct (build_sound _ _ _ _ _ Hin) as (k & Hk & Hl & _).
  simpl in Hk. rewrite <- Hk, Hidx, Hi in Hl. injection Hl as ->.
  apply fresh_shape in Ha as [[Ht|[Ha _]] _]; auto.
Qed.

(** The two ways one turn of the second loop ends. *)
Lemma pruneStep_cases (config : EasyPruningConfig) (protectedIndices : gset nat)
    (prunableEndToken softStart hardStart detailStart : number)
    (st st' : Pruner.Pass) (meta : Pruner.MessageMeta) :
  pruneStep config protectedIndices prunableEndToken softStart hardStart
    detailStart st meta = Some st' ->
  st' = st \/
  exists zone next,
    zone <> ZoneNone /\
    (Pruner.index meta ∉ protectedIndices) /\
    applyStrategy config zone (Pruner.message meta) = Some (Fresh next) /\
    st' = {| Pruner.out := <[ Pruner.index meta := next ]> (Pruner.out st);
             Pruner.changed := true;
             Pruner.stats :=
               Pruner.recordChange zone
                 (Z.max 0 (estimateMessageTokens (Pruner.message meta)
                           - estimateMessageTokens next))
                 (Pruner.stats st) |}.
Proof.
  unfold Pruner.pruneStep. intros H.
  destruct (bool_decide (Pruner.index meta ∈ protectedIndices)) eqn:Ep;
    [left; congruence|].
  apply bool_decide_eq_false in Ep.
  destruct (geb _ prunableEndToken); [left; congruence|].
  destruct (Pruner.resolveZone _ _ _ _) eqn:Ez; [left; congruence| | |];
    (destruct (applyStrategy config _ (Pruner.message meta)) as [[|next]|] eqn:Ea;
     simpl in H; [left; congruence| |discriminate];
     right; injection H as <-;
     match type of Ea with
     | Strategies.applyStrategy _ _ ?z _ = _ => exists z, next
     end;
     split; [discriminate|]; split; [exact Ep|]; split; [exact Ea|reflexivity]).
Qed.




(** *** The counters *)


Lemma pruneLoop_counters (config : EasyPruningConfig) (protectedIndices : gset nat)
    (prunableEndToken softStart hardStart detailStart : number)
    (metas : list Pruner.MessageMeta) : forall st st',
  pruneLoop config protectedIndices prunableEndToken softStart hardStart
    detailStart metas st = Some st' ->
  Notions.countersAgree st ->
  Notions.countersAgree st' /\
  Pruner.totalMessages (Pruner.stats st') = Pruner.totalMessages (Pruner.stats st) /\
  Pruner.protectedMessages (Pruner.stats st')
  = Pruner.protectedMessages (Pruner.stats st) /\
  Pruner.contextTokensBefore (Pruner.stats st')
  = Pruner.contextTokensBefore (Pruner.stats st) /\
  Pruner.contextTokensAfter (Pruner.stats st')
  = Pruner.contextTokensAfter (Pruner.stats st) /\
  Pruner.deletedTokens (Pruner.stats st') = Pruner.deletedTokens (Pruner.stats st).
Proof.
  induction metas as [|meta rest IH]; intros st st' H Hst; simpl in H.
  - injection H as <-. repeat split; auto; apply Hst.
  - destruct (pruneStep _ _ _ _ _ _ st meta) as [mid|] eqn:Es; [|discriminate].
    simpl in H. apply pruneStep_cases in Es as [-> | (zone & next & Hz & _ & _ & ->)];
      [eauto|].
    destruct (IH _ _ H) as (Hc & Ht & Hp & Hb & Ha & Hd).
    + unfold Notions.countersAgree, Notions.zoneTotal in *. simpl.
      destruct Hst as (H1 & H2 & H3 & H4 & H5 & H6 & H7 & H8).
      destruct zone; try congruence; simpl; repeat split; try lia; auto;
        intros _; lia.
    + simpl in *. repeat split; auto; apply Hc.
Qed.

Lemma protectedSet_size (a b : number) (metas : list Pruner.MessageMeta) :
  (size (Pruner.protectedSet a b metas) <= length metas)%nat.
Proof.
  unfold Pruner.protectedSet.
  assert (G : forall acc : gset nat,
    (size (fold_left (fun acc meta =>
                        if Pruner.protects a b meta
                        then {[ Pruner.index meta ]} ∪ acc else acc) metas acc)
     <= size acc + length metas)%nat).
  { induction metas as [|m rest IH]; intros acc; simpl; [lia|].
    etransitivity; [apply IH|].
    destruct (Pruner.protects a b m); [|lia].
    rewrite size_union_alt, size_singleton.
    pose proof (subseteq_size (acc ∖ {[Pruner.index m]}) acc) as Hsub.
    assert (Hin : acc ∖ {[Pruner.index m]} ⊆ acc) by (apply subseteq_difference_l; reflexivity).
    specialize (Hsub Hin).
    lia. }
  specialize (G ∅). rewrite size_empty in G. exact G.
Qed.

Lemma build_length (msgs : list value) : forall (i : nat) (cursor : Z),
  (length (buildMessageMeta_from i cursor msgs) <= length msgs)%nat.
Proof.
  induction msgs as [|raw rest IH]; intros i cursor; simpl; [lia|].
  destruct (Pruner.notMessageLike raw); simpl.
  - specialize (IH (S i) cursor). lia.
  - specialize (IH (S i) (cursor + Z.max 1 (estimateMessageTokens raw))%Z). lia.
Qed.

(** X19. The statistics of a pass agree with each other and with the
    list: [totalMessages] is the length of the input, the before-count is
    its context estimate, [changedMessages] is the sum of the three zone
    counts and is positive exactly when the pass reports a change, no
    deleted-token count is negative, and no more messages are counted
    protected than the list holds. A pass that reports no change returns its
    input with equal before- and after-counts. *)
Theorem stats_consistent (msgs : list value) (config : EasyPruningConfig)
    (r : Pruner.PruneResult) :
  applyPruningWithStats msgs config = Some r ->
  let s := Pruner.resultStats r in
  Pruner.totalMessages s = Z.of_nat (length msgs) /\
  Pruner.contextTokensBefore s = estimateContextTokens msgs /\
  Pruner.changedMessages s = Notions.zoneTotal (Pruner.zoneChanged s) /\
  (Pruner.replaced r = true <-> (1 <= Pruner.changedMessages s)%Z) /\
  (0 <= Pruner.soft (Pruner.zoneDeletedTokens s))%Z /\
  (0 <= Pruner.hard (Pruner.zoneDeletedTokens s))%Z /\
  (0 <= Pruner.detail (Pruner.zoneDeletedTokens s))%Z /\
  (0 <= Pruner.deletedTokens s)%Z /\
  (0 <= Pruner.protectedMessages s <= Pruner.totalMessages s)%Z /\
  (Pruner.replaced r = false ->
   Pruner.messages r = msgs /\
   Pruner.deletedTokens s = 0%Z /\
   Pruner.contextTokensAfter s = Pruner.contextTokensBefore s).
Proof.
  unfold Pruner.applyPruningWithStats.
  pose proof (build_end Number_toString msgs) as Htotal.
  destruct (buildMessageMeta msgs) as [|m0 metas] eqn:Em.
  - intros H. injection H as <-. simpl. unfold Notions.zoneTotal. simpl.
    rewrite Htotal. repeat split; try lia; try discriminate; auto.
  - rewrite <- Em in Htotal |- *.
    destruct (Pruner.zoneStarts _ _) as [[softStart hardStart] detailStart].
    destruct (Pruner.pruneLoop _ _ _ _ _ _ _ _ _) as [final|] eqn:El; [|discriminate].
    apply pruneLoop_counters in El as (Hc & Ht & Hp & Hb & Ha & Hd).
    + simpl in Ht, Hp, Hb, Ha, Hd.
      destruct Hc as (H1 & H2 & H3 & H4 & H5 & H6 & H7 & H8).
      pose proof (protectedSet_size
                    (Pruner.keepRecentMessageStartIndexOf config (length msgs))
                    (Pruner.keepRecentStartTokenOf config
                       (Pruner.lastTokenEnd (buildMessageMeta msgs)))
                    (buildMessageMeta msgs)) as Hsize.
      pose proof (build_length msgs 0 0) as Hlen.
      fold (buildMessageMeta msgs) in Hlen.
      simpl. destruct (Pruner.changed final) eqn:Ech; simpl;
        intros H; injection H as <-; simpl;
        rewrite ?Ht, ?Hp, ?Hb, ?Ha, ?Hd;
        (split; [reflexivity|]); (split; [exact Htotal|]); (split; [exact H1|]);
        (split; [rewrite <- H8; split; congruence|]);
        (split; [exact H5|]); (split; [exact H6|]); (split; [exact H7|]).
      * split; [lia|]. split; [lia|]. discriminate.
      * split; [lia|]. split; [lia|]. intros _. auto.
    + unfold Notions.countersAgree, Notions.zoneTotal. simpl.
      repeat split; try lia; try discriminate.
Qed.

(** *** Deleted tokens, zone by zone *)

Lemma estimate_insert (l : list value) (i : nat) (old new : value) :
  l !! i = Some old ->
  estimateContextTokens (<[ i := new ]> l)
  = (estimateContextTokens l - contribution old + contribution new)%Z.
Proof.
  intros Hi.
  assert (Hlt : (i < length l)%nat) by (eapply lookup_lt_Some; exact Hi).
  rewrite insert_take_drop by exact Hlt.
  replace (estimateContextTokens l)
    with (estimateContextTokens (take i l ++ old :: drop (S i) l))
    by (now rewrite take_drop_middle).
  rewrite !estimateContextTokens_app, !estimateContextTokens_cons. lia.
Qed.

Lemma zoneTotal_bump (zone : MessageZone) (n : Z) (c : Pruner.ZoneCounts) :
  zone <> ZoneNone ->
  Notions.zoneTotal (Pruner.bump zone n c) = (Notions.zoneTotal c + n)%Z.
Proof. unfold Notions.zoneTotal. destruct zone; simpl; try congruence; lia. Qed.

(** Over entries with distinct indices that still hold their messages,
    the loop lowers the estimate of the working copy by no more than it
    adds to the zones' deleted-token counts. *)
Lemma pruneLoop_tokens (config : EasyPruningConfig) (protectedIndices : gset nat)
    (prunableEndToken softStart hardStart detailStart : number)
    (metas : list Pruner.MessageMeta) : forall st st',
  NoDup (List.map Pruner.index metas) ->
  Forall (fun meta =>
            Pruner.out st !! Pruner.index meta = Some (Pruner.message meta) /\
            Pruner.notMessageLike (Pruner.message meta) = false) metas ->
  pruneLoop config protectedIndices prunableEndToken softStart hardStart
    detailStart metas st = Some st' ->
  (estimateContextTokens (Pruner.out st)
   - estimateContextTokens (Pruner.out st')
   <= Notions.zoneTotal (Pruner.zoneDeletedTokens (Pruner.stats st'))
      - Notions.zoneTotal (Pruner.zoneDeletedTokens (Pruner.stats st)))%Z.
Proof.
  induction metas as [|meta rest IH]; intros st st' Hnd Hall H; simpl in H.
  - injection H as <-. lia.
  - destruct (pruneStep _ _ _ _ _ _ st meta) as [mid|] eqn:Es; [|discriminate].
    simpl in H. simpl in Hnd. apply NoDup_cons in Hnd as [Hfresh Hnd].
    apply Forall_cons in Hall as [[Hhere Hobj] Hall].
    apply pruneStep_cases in Es as [-> | (zone & next & Hz & _ & Ha & ->)];
      [apply IH; assumption|].
    assert (Hrest : Forall (fun m =>
              <[ Pruner.index meta := next ]> (Pruner.out st) !! Pruner.index m
              = Some (Pruner.message m) /\
              Pruner.notMessageLike (Pruner.message m) = false) rest).
    { apply Forall_forall. intros m Hin.
      rewrite Forall_forall in Hall. destruct (Hall m Hin) as [Hm Hmo].
      split; [|exact Hmo]. rewrite list_lookup_insert_ne; [exact Hm|].
      intros E. apply Hfresh. rewrite E. apply list_elem_of_In, in_map.
      apply list_elem_of_In, Hin. }
    match type of H with
    | Pruner.pruneLoop _ _ _ _ _ _ _ _ ?mid = _ =>
        pose proof (IH mid st' Hnd Hrest H) as IH'
    end.
    simpl in IH'.
    rewrite (estimate_insert _ _ _ next Hhere) in IH'.
    rewrite zoneTotal_bump in IH' by exact Hz.
    pose proof (fresh_messageLike Number_toString _ _ _ _ Ha) as Hnext.
    unfold Notions.contribution in IH'. rewrite Hobj, Hnext in IH'. lia.
Qed.

Lemma build_indices (msgs : list value) : forall (i : nat) (cursor : Z),
  NoDup (List.map Pruner.index (buildMessageMeta_from i cursor msgs)).
Proof.
  induction msgs as [|raw rest IH]; intros i cursor; simpl; [constructor|].
  destruct (Pruner.notMessageLike raw); [apply IH|].
  simpl. constructor; [|apply IH].
  intros Hin. apply list_elem_of_In, in_map_iff in Hin as (meta & Hi & Hin).
  apply list_elem_of_In in Hin.
  destruct (build_sound _ _ _ _ _ Hin) as (k & Hk & _). lia.
Qed.

(** X20. The per-zone deleted-token counts never under-report: when a pass
    reports a change, their sum is at least the drop of the context
    estimate, and so at least [deletedTokens]. *)
Theorem zone_deleted_covers_total (msgs : list value) (config : EasyPruningConfig)
    (r : Pruner.PruneResult) :
  applyPruningWithStats msgs config = Some r ->
  Pruner.replaced r = true ->
  let s := Pruner.resultStats r in
  (Pruner.contextTokensBefore s - Pruner.contextTokensAfter s
   <= Notions.zoneTotal (Pruner.zoneDeletedTokens s))%Z /\
  (Pruner.deletedTokens s <= Notions.zoneTotal (Pruner.zoneDeletedTokens s))%Z.
Proof.
  unfold Pruner.applyPruningWithStats.
  pose proof (build_end Number_toString msgs) as Htotal.
  destruct (buildMessageMeta msgs) as [|m0 metas] eqn:Em;
    [intros H; injection H as <-; discriminate|].
  rewrite <- Em in Htotal |- *.
  destruct (Pruner.zoneStarts _ _) as [[softStart hardStart] detailStart].
  destruct (Pruner.pruneLoop _ _ _ _ _ _ _ _ _) as [final|] eqn:El; [|discriminate].
  pose proof El as Hcount. apply pruneLoop_counters in Hcount
    as ((_ & _ & _ & _ & H5 & H6 & H7 & _) & _ & _ & Hb & _);
    [|unfold Notions.countersAgree, Notions.zoneTotal; simpl;
      repeat split; try lia; try discriminate].
  apply pruneLoop_tokens in El.
  - simpl in El, Hb. simpl.
    destruct (Pruner.changed final); simpl; intros H; injection H as <-;
      [|discriminate]. intros _. simpl. rewrite Hb, Htotal.
    unfold Notions.zoneTotal in *. simpl in El. lia.
  - apply build_indices.
  - apply Forall_forall. intros meta Hin. simpl.
    destruct (build_sound _ _ _ _ _ Hin) as (k & Hk & Hl & Hobj & _).
    simpl in Hk. rewrite Hk. auto.
Qed.

End PassFacts.

(** ** Defaults without overrides *)
Section DefaultsKept.

Import Spec.

Lemma safeNonNegativeNumber_self (n : number) :
  Pruner.safeNonNegativeNumber (Some n) n = n.
Proof. simpl. destruct (negb (isFinite n) || ltb n (of_Z 0)); reflexivity. Qed.

Lemma orString_self (s : jstr) : Pruner.orString (Some s) s = s.
Proof. destruct s; reflexivity. Qed.

Lemma keepRecent_natural (n : number) :
  Notions.naturalNumber n -> max (of_Z 0) (floor n) = n.
Proof.
  intros (z & Hz & ->). unfold of_Z at 2. rewrite keepRecent_finite, Qfloor_Z.
  f_equal. lia.
Qed.

(** X21. Without overrides ([undefined] or [{}]) defaults whose counts are
    positive integers and whose keep-recent count is a natural number come
    back from [normalizeConfig] unchanged. *)
Theorem defaults_kept (defaults : EasyPruningConfig) :
  Forall positiveInteger (countFields defaults) ->
  Notions.naturalNumber (keep_recent_messages defaults) ->
  Pruner.normalizeConfig defaults None = defaults /\
  Pruner.normalizeConfig defaults (Some Pruner.emptyRaw) = defaults.
Proof.
  intros Hcounts Hkeep.
  assert (H : Pruner.normalizeConfig defaults (Some Pruner.emptyRaw) = defaults).
  { unfold countFields in Hcounts.
    repeat match goal with
           | H : Forall _ (_ :: _) |- _ => apply Forall_cons in H; destruct H
           end.
    rewrite (config_eta defaults) at 2.
    unfold Pruner.normalizeConfig, Pruner.emptyRaw, Pruner.emptyRawSoftTrim.
    cbn [Pruner.raw_pruning_threshold Pruner.raw_trigger_every_n_tokens
      Pruner.raw_keep_recent_tokens Pruner.raw_keep_recent_messages
      Pruner.raw_keep_rencent_message Pruner.raw_soft_threshold
      Pruner.raw_hard_threshold Pruner.raw_detail_threshold Pruner.raw_soft_trim
      Pruner.raw_max_chars Pruner.raw_head_chars Pruner.raw_tail_chars
      Pruner.raw_hard_clear_placeholder Pruner.raw_detail_placeholder
      Pruner.raw_skip_tools_with_images Pruner.raw_compaction_threshold_hint
      Pruner.spreadOver].
    rewrite !safePositiveInt_fixed by assumption.
    rewrite !safeNonNegativeNumber_self, !orString_self.
    rewrite (keepRecent_natural _ Hkeep). reflexivity. }
  split; exact H.
Qed.

(** X22. Whatever the input and the defaults, the keep-recent count of a
    normalised configuration is never negative: it is a natural number,
    [+Infinity] or [NaN]. *)
Theorem keep_recent_never_negative (defaults : EasyPruningConfig)
    (raw : option Pruner.RawConfig) :
  let kept := keep_recent_messages (Pruner.normalizeConfig defaults raw) in
  (Notions.naturalNumber kept \/ kept = PInf \/ kept = NaN) /\
  ltb kept (of_Z 0) = false.
Proof.
  intros kept. subst kept. unfold Pruner.normalizeConfig.
  cbn [keep_recent_messages].
  match goal with |- context [floor ?n] => generalize n end.
  intros [| | |q]; simpl.
  - split; [right; right; reflexivity|reflexivity].
  - split; [right; left; reflexivity|reflexivity].
  - split; [left; exists 0%Z; split; [lia|reflexivity]|reflexivity].
  - change (max (of_Z 0) (of_Z (Qfloor q))) with (max (of_Z 0) (floor (Fin q))).
    rewrite keepRecent_finite. split.
    + left. eexists. split; [|reflexivity]. lia.
    + apply not_true_iff_false. rewrite of_Z_lt. lia.
Qed.

End DefaultsKept.

(** ** The gate across sessions and across calls *)
Section GateFacts.

Variable Number_toString : number -> jstr.

Local Abbreviation applyPruningWithStats := (Pruner.applyPruningWithStats Number_toString).
Local Abbreviation estimateContextTokens := (Pruner.estimateContextTokens Number_toString).
Local Abbreviation handler := (Pruner.handler Number_toString).


(** X24. Right after a pass that pruned, with a positive
    [trigger_every_n_tokens], a call in the same session whose context is
    less than [trigger_every_n_tokens] above that of the pruning call is
    always skipped, leaving the store and the messages as they are. *)
Theorem cooldown_after_prune (config : EasyPruningConfig)
    (sessionState : gmap jstr Pruner.SessionTriggerState)
    (msgs later : list value) (ctx : Pruner.Ctx) (now then_ : Z)
    (first : Pruner.Handled) (s : Pruner.PruningStats) :
  handler config sessionState msgs ctx now = Some first ->
  Pruner.outcome first = Pruner.Pruned s ->
  (0 <= Pruner.pruneCount (Notions.stateOf sessionState ctx))%Z ->
  ltb (of_Z 0) (trigger_every_n_tokens config) = true ->
  ltb (of_Z (estimateContextTokens later - estimateContextTokens msgs))
      (trigger_every_n_tokens config) = true ->
  exists second,
    handler config (Pruner.sessions first) later ctx then_ = Some second /\
    Notions.skipped (Pruner.outcome second) /\
    Pruner.sessions second = Pruner.sessions first /\
    Pruner.eventMessages second = later.
Proof.
  intros Hfirst Hout Hcount Hpos Hgrow.
  assert (Hstate : Pruner.sessions first !! Pruner.sessionKeyOf ctx
                   = Some {| Pruner.lastTriggerTokenCount := estimateContextTokens msgs;
                             Pruner.lastTriggeredAt := now;
                             Pruner.pruneCount :=
                               (Pruner.pruneCount (Notions.stateOf sessionState ctx)
                                + 1)%Z |}).
  { unfold Pruner.handler in Hfirst.
    destruct msgs as [|m0 rest]; [injection Hfirst as <-; discriminate|].
    set (msgs := m0 :: rest) in *.
    destruct (ltb _ (pruning_threshold config));
      [injection Hfirst as <-; discriminate|].
    destruct (_ && _); [injection Hfirst as <-; discriminate|].
    destruct (applyPruningWithStats msgs config) as [r|]; [|discriminate].
    simpl in Hfirst. destruct (Pruner.replaced r); injection Hfirst as <-;
      [|discriminate].
    simpl. apply lookup_insert_eq. }
  unfold Pruner.handler, Notions.skipped.
  destruct later as [|l0 lrest]; [eexists; split; [reflexivity|]; simpl; auto|].
  set (later := l0 :: lrest) in *.
  destruct (ltb _ (pruning_threshold config));
    [eexists; split; [reflexivity|]; simpl; auto|].
  rewrite Hstate. cbn [default id Pruner.pruneCount Pruner.lastTriggerTokenCount].
  replace (0 <? _ + 1)%Z with true by (symmetry; apply Z.ltb_lt; lia).
  replace (ltb (of_Z (Z.max 0 (estimateContextTokens later
                               - estimateContextTokens msgs))) _) with true.
  - simpl. eexists; split; [reflexivity|]; simpl; auto.
  - symmetry.
    destruct (Z.max_spec 0 (estimateContextTokens later - estimateContextTokens msgs))
      as [[_ ->]|[_ ->]]; assumption.
Qed.

End GateFacts.

(** ** The model run on the test suite's inputs and on the inputs that
    separate the code from the claims *)
Section Runs.

Import Data.

Local Abbreviation applyPruningWithStats := (Pruner.applyPruningWithStats renderNumber).
Local Abbreviation applySoftPruning := (Strategies.applySoftPruning renderNumber).
Local Abbreviation applyHardPruning := (Strategies.applyHardPruning renderNumber).
Local Abbreviation applyDetailPruning := (Strategies.applyDetailPruning renderNumber).
Local Abbreviation roleOf := (Strategies.roleOf renderNumber).
Local Abbreviation toUnifiedText := (Strategies.toUnifiedText renderNumber).

(** The alias test of the suite. *)
Example alias_accepted :
  keep_recent_messages (Pruner.normalizeConfig testDefaults (Some aliasInput)) = of_Z 7.
Proof. reflexivity. Qed.

(** The hard-pruning test of the suite. *)
Example hard_test :
  applyHardPruning longPayload testDefaults
  = Some (Fresh (msg "tool_result" (VStr (str "[CLEARED]")))).
Proof. reflexivity. Qed.

(** The detail-pruning test of the suite. *)
Example detail_test :
  applyDetailPruning thinkingReply testDefaults
  = Some (Fresh (msg "assistant"
                   (VArr [ VObj [(str "type", VStr (str "text"));
                                 (str "text", VStr (str "final reply"))] ]))).
Proof. reflexivity. Qed.

(** The test "protects user and system messages": nothing changes. *)
Example protects_test :
  applyPruningWithStats protectedMessagesExample testDefaults
  = Some {| Pruner.messages := protectedMessagesExample;
            Pruner.resultStats :=
              Pruner.withProtected 4 (Pruner.emptyStats 78 4);
            Pruner.replaced := false |}.
Proof. vm_compute. reflexivity. Qed.

(** A system message, under the test defaults. *)
Lemma system_message_witness :
  (roleOf (msg "system" (VStr (str "SOUL"))) = str "system" \/
   roleOf (msg "system" (VStr (str "SOUL"))) = str "user") /\
  applyDetailPruning (msg "system" (VStr (str "SOUL"))) testDefaults = Some Same /\
  forall r, applyPruningWithStats protectedMessagesExample testDefaults = Some r ->
            Pruner.messages r !! 0%nat = Some (msg "system" (VStr (str "SOUL"))).
Proof.
  assert (H : roleOf (msg "system" (VStr (str "SOUL"))) = str "system" \/
              roleOf (msg "system" (VStr (str "SOUL"))) = str "user")
    by (left; reflexivity).
  split; [exact H|].
  destruct (system_user_never_altered renderNumber testDefaults _ H)
    as (_ & _ & Hdetail & Hrun).
  split; [exact Hdetail|].
  exact (proj2 (Hrun protectedMessagesExample 0%nat eq_refl)).
Defined.

(** The recent-tail test of the suite: index 5 of 8 with three kept. *)
Lemma recent_tail_witness :
  exists r, applyPruningWithStats tailMessages tailConfig = Some r /\
            Spec.recentByIndex tailMessages tailConfig 5 /\
            Pruner.messages r !! 5%nat = tailMessages !! 5%nat.
Proof.
  eexists. split; [vm_compute; reflexivity|].
  assert (H : Spec.recentByIndex tailMessages tailConfig 5) by (vm_compute; reflexivity).
  split; [exact H|].
  apply (recent_tail_never_altered renderNumber tailMessages tailConfig _ 5%nat);
    [vm_compute; reflexivity | left; exact H].
Defined.


(** The shipped defaults with four overrides: a count with a fraction is
    floored, a negative count and a [NaN] threshold give way to the
    defaults, a threshold in range is taken. *)
Lemma normalizeConfig_witness :
  let once := Pruner.normalizeConfig defaultConfig (Some overrideInput) in
  Spec.safeDefaults defaultConfig /\
  Spec.noFractionalCount (Some overrideInput) /\
  pruning_threshold once = of_Z 120000 /\
  keep_recent_tokens once = of_Z 10000 /\
  soft_threshold once = Fin (1 # 2) /\
  detail_threshold once = Fin (95 # 100) /\
  Pruner.normalizeConfig defaultConfig (Some (Pruner.asInput once)) = once.
Proof.
  assert (Hd : Spec.safeDefaults defaultConfig).
  { split.
    - repeat (apply Forall_cons; split;
              [eexists; split; [|reflexivity]; lia|]). apply Forall_nil. exact I.
    - repeat (apply Forall_cons; split;
              [eexists; split; [|reflexivity]; unfold Qle; simpl; lia|]).
      apply Forall_nil. exact I. }
  assert (Hw : Spec.noFractionalCount (Some overrideInput)).
  { repeat (apply Forall_cons; split;
            [intros (q & Hq & H0 & H1); try discriminate Hq;
             injection Hq as <-; revert H0 H1; unfold Qlt; simpl; lia|]).
    apply Forall_nil. exact I. }
  destruct (normalizeConfig_safe_idempotent defaultConfig (Some overrideInput) Hd Hw)
    as (Hcounts & Hthresholds & _ & _ & _ & Hfixed).
  split; [exact Hd|]. split; [exact Hw|].
  split; [exact (f_equal (fun l => nth 0 l NaN) Hcounts)|].
  split; [exact (f_equal (fun l => nth 2 l NaN) Hcounts)|].
  split; [exact (f_equal (fun l => nth 0 l NaN) Hthresholds)|].
  split; [exact (f_equal (fun l => nth 2 l NaN) Hthresholds)|].
  exact Hfixed.
Defined.

(** C4 as stated fails: [0.5] is floored to [0], which a second
    normalisation replaces by the default; and a negative keep-recent count
    becomes [0], not the default [10]. *)
Lemma normalizeConfig_counterexample :
  let once := Pruner.normalizeConfig defaultConfig (Some fractionalInput) in
  let twice := Pruner.normalizeConfig defaultConfig (Some (Pruner.asInput once)) in
  pruning_threshold once = of_Z 0 /\
  pruning_threshold twice = of_Z 80000 /\
  twice <> once /\
  keep_recent_messages
    (Pruner.normalizeConfig defaultConfig (Some negativeKeepInput)) = of_Z 0 /\
  keep_recent_messages defaultConfig = of_Z 10.
Proof.
  repeat split; try reflexivity. intros H.
  apply (f_equal pruning_threshold) in H. discriminate H.
Qed.

(** C5 as stated fails: the threshold [-0.5] is below 1.0, yet on a
    history of 78 tokens it resolves to 0 and not to [floor(78 * -0.5)]. *)
Lemma negative_threshold_counterexample :
  let totalTokens :=
    Pruner.lastTokenEnd (Pruner.buildMessageMeta renderNumber protectedMessagesExample) in
  totalTokens = 78%Z /\
  ltb (Fin (-1 # 2)) (of_Z 1) = true /\
  Pruner.resolveThresholdToToken (Fin (-1 # 2)) totalTokens = of_Z 0 /\
  floor (mul (of_Z totalTokens) (Fin (-1 # 2))) = of_Z (-39).
Proof. repeat split; vm_compute; reflexivity. Qed.

(** The shipped soft threshold on a history of 90 tokens: the binary64
    nearest to 0.7 is below 0.7, its product with 90 is rounded to the
    binary64 just below 63, and the boundary is 62; on 100 tokens the
    product is rounded to 70. *)
Example ratio_product_rounded :
  Pruner.resolveThresholdToToken (soft_threshold defaultConfig) 90 = of_Z 62 /\
  Qfloor (inject_Z 90 * (7 # 10)) = 63%Z /\
  Pruner.resolveThresholdToToken (soft_threshold defaultConfig) 100 = of_Z 70 /\
  Pruner.zoneStarts defaultConfig 90 = (of_Z 62, of_Z 76, of_Z 85).
Proof. repeat split; vm_compute; reflexivity. Qed.

(** On the shipped and the suite's ratios, and others, with token totals
    small and large, the product of the model is the product the machine
    computes in binary64, and a literal of the model is the float nearest
    to it. *)
Example binary64_product_of_the_machine :
  forallb (fun ratio => Hardware.sameLiteral ratio.1 ratio.2) Hardware.ratios = true /\
  forallb (fun totalTokens =>
             forallb (fun ratio => Hardware.sameProduct totalTokens ratio.1 ratio.2)
                     Hardware.ratios)
          Hardware.totals = true.
Proof. split; vm_compute; reflexivity. Qed.

(** The soft-pruning test of the suite. *)
Lemma soft_pruning_witness :
  exists next soft,
    applySoftPruning oversized testDefaults = Some (Fresh next) /\
    toUnifiedText (get next "content") = Some soft /\
    includes soft (str "... (truncated)") = true /\
    includes soft (str "[Original size: 100 characters]") = true.
Proof.
  assert (Hrole : Strategies.isToolResultRole (roleOf oversized) = true) by reflexivity.
  assert (Hraw : toUnifiedText (get oversized "content") = Some (repeated 100 "A"))
    by reflexivity.
  destruct (soft_pruning_trims renderNumber oversized testDefaults _ Hrole Hraw)
    as (_ & _ & Hlong).
  destruct Hlong as (next & soft & Ha & _ & Hu & Hm & Hs);
    [vm_compute; reflexivity | vm_compute; reflexivity |].
  exists next, soft. repeat split; assumption.
Defined.

(** C6 as stated fails: a tool result of 108 code units that names a
    [.png] file comes back as it is, with no elision marker. *)
Lemma soft_pruning_counterexample :
  Strategies.isToolResultRole (roleOf screenshot) = true /\
  toUnifiedText (get screenshot "content")
  = Some (str "shot.png" ++ repeated 100 "A") /\
  leb (of_nat (length (str "shot.png" ++ repeated 100 "A")))
      (max_chars (soft_trim testDefaults)) = false /\
  applySoftPruning screenshot testDefaults = Some Same /\
  includes (str "shot.png" ++ repeated 100 "A") (str "... (truncated)") = false.
Proof. repeat split; vm_compute; reflexivity. Qed.

(** The hard-pruning test of the suite. *)
Lemma hard_pruning_witness :
  exists next,
    applyHardPruning longPayload testDefaults = Some (Fresh next) /\
    get next "content" = VStr (str "[CLEARED]").
Proof.
  destruct (hard_pruning_clears renderNumber longPayload testDefaults eq_refl)
    as [_ Hclear].
  destruct (Hclear eq_refl) as (next & Ha & _ & Hs & _).
  exists next. split; [exact Ha|]. exact (Hs _ eq_refl).
Defined.

(** C7 as stated fails: under the shipped defaults a tool result that
    names a [.png] file keeps its content. *)
Lemma hard_pruning_counterexample :
  Strategies.isToolResultRole (roleOf chart) = true /\
  applyHardPruning chart defaultConfig = Some Same /\
  get chart "content" = VStr (str "see chart.png") /\
  str "see chart.png" <> hard_clear_placeholder defaultConfig.
Proof. repeat split; try reflexivity. discriminate. Qed.

(** A tool result that ends in [Final Answer: 42]. *)
Lemma detail_pruning_witness :
  exists next,
    applyDetailPruning solved defaultConfig = Some (Fresh next) /\
    get next "content"
    = VStr (Strategies.detailPrefix ++ str "Final Answer: 42").
Proof.
  destruct (detail_pruning_keeps_summary renderNumber solved defaultConfig
              (str "step 1" ++ [10; 10]%N ++ str "Final Answer: 42"))
    as (next & kept & Ha & Hc & Hfirst & _);
    [reflexivity | reflexivity | reflexivity |].
  exists next. split; [exact Ha|]. rewrite Hc.
  rewrite (Hfirst [] (str "Final Answer:") (tail Strategies.markers) eq_refl
             (Forall_nil_2 _)) by (vm_compute; discriminate).
  vm_compute. reflexivity.
Defined.

(** C8 as stated fails: of [Summary: a] followed by [Answer: b] the code
    keeps everything from [Summary:], the earlier marker in the list, while
    the last occurrence of any marker is that of [Answer:]. *)
Lemma detail_pruning_counterexample :
  applyDetailPruning report defaultConfig
  = Some (Fresh (msg "tool_result" (VStr (Strategies.detailPrefix ++ twoMarkers)))) /\
  Spec.lastOccurrenceOfAnyMarker twoMarkers = 11%Z /\
  trim (slice twoMarkers (of_Z (Spec.lastOccurrenceOfAnyMarker twoMarkers)) None)
  = str "Answer: b" /\
  twoMarkers <> str "Answer: b".
Proof. repeat split; try (vm_compute; reflexivity). discriminate. Qed.

(** The absolute-threshold test of the suite. *)
Lemma stats_witness :
  exists r,
    applyPruningWithStats absoluteMessages absoluteConfig = Some r /\
    Pruner.replaced r = true /\
    Pruner.deletedTokens (Pruner.resultStats r)
    = Z.max 0 (Pruner.contextTokensBefore (Pruner.resultStats r)
               - Pruner.contextTokensAfter (Pruner.resultStats r)).
Proof.
  eexists. split; [vm_compute; reflexivity|]. split; [reflexivity|].
  exact (proj1 (proj2
    (stats_after_change renderNumber absoluteMessages absoluteConfig _
       ltac:(vm_compute; reflexivity) eq_refl))).
Defined.

(** C9 as stated fails, on the same test: the pass changes all three
    messages, the estimate grows from 111 to 113 tokens, and
    [deletedTokens] is 0. *)
Lemma stats_counterexample :
  exists r,
    applyPruningWithStats absoluteMessages absoluteConfig = Some r /\
    Pruner.replaced r = true /\
    Pruner.contextTokensBefore (Pruner.resultStats r) = 111%Z /\
    Pruner.deletedTokens (Pruner.resultStats r) = 0%Z /\
    Pruner.contextTokensAfter (Pruner.resultStats r) = 113%Z.
Proof. eexists. split; [vm_compute; reflexivity|]. repeat split. Qed.

(** The absolute-threshold test of the suite: three entries in, three out. *)
Lemma output_positionwise_witness :
  exists r,
    applyPruningWithStats absoluteMessages absoluteConfig = Some r /\
    length (Pruner.messages r) = length absoluteMessages.
Proof.
  eexists. split; [vm_compute; reflexivity|].
  exact (proj1 (output_positionwise renderNumber absoluteMessages absoluteConfig _
                  ltac:(vm_compute; reflexivity))).
Defined.

End Runs.

(** * The further properties on inputs of the test suite *)
Section FurtherRuns.

Import Data.

Local Abbreviation applyPruningWithStats := (Pruner.applyPruningWithStats renderNumber).
Local Abbreviation applyStrategy := (Strategies.applyStrategy renderNumber).
Local Abbreviation applySoftPruning := (Strategies.applySoftPruning renderNumber).
Local Abbreviation applyHardPruning := (Strategies.applyHardPruning renderNumber).
Local Abbreviation applyDetailPruning := (Strategies.applyDetailPruning renderNumber).
Local Abbreviation roleOf := (Strategies.roleOf renderNumber).
Local Abbreviation toUnifiedText := (Strategies.toUnifiedText renderNumber).
Local Abbreviation handler := (Pruner.handler renderNumber).

(** Positions 10 and 50 of an axis of 100 tokens, under the test defaults:
    zone none, then zone soft. *)
Lemma zones_monotone_witness :
  (10 <= 50)%Q /\
  Pruner.zoneStarts testDefaults 100 = (of_Z 30, of_Z 60, of_Z 85) /\
  (Notions.zoneRank (Pruner.resolveZone 10 (of_Z 30) (of_Z 60) (of_Z 85))
   <= Notions.zoneRank (Pruner.resolveZone 50 (of_Z 30) (of_Z 60) (of_Z 85)))%nat.
Proof.
  assert (H : (10 <= 50)%Q) by (unfold Qle; simpl; lia).
  split; [exact H|]. split; [vm_compute; reflexivity|].
  exact (zones_monotone testDefaults 100 10 50 H).
Defined.

(** The hard-pruning test of the suite: the role stays. *)
Lemma strategies_keep_fields_witness :
  applyStrategy testDefaults ZoneHard longPayload
  = Some (Fresh (msg "tool_result" (VStr (str "[CLEARED]")))) /\
  roleOf (msg "tool_result" (VStr (str "[CLEARED]"))) = roleOf longPayload.
Proof.
  assert (H : applyStrategy testDefaults ZoneHard longPayload
              = Some (Fresh (msg "tool_result" (VStr (str "[CLEARED]")))))
    by reflexivity.
  split; [exact H|].
  exact (proj1 (proj2 (proj2 (strategies_keep_fields renderNumber _ _ _ _ H)))).
Defined.

(** A user message. *)
Lemma other_roles_untouched_witness :
  Strategies.isToolResultRole (roleOf (msg "user" (VStr (str "hello")))) = false /\
  applySoftPruning (msg "user" (VStr (str "hello"))) testDefaults = Some Same /\
  applyHardPruning (msg "user" (VStr (str "hello"))) testDefaults = Some Same.
Proof.
  assert (H : Strategies.isToolResultRole (roleOf (msg "user" (VStr (str "hello"))))
              = false) by reflexivity.
  split; [exact H|].
  destruct (other_roles_untouched renderNumber testDefaults _ H) as (Hs & Hh & _).
  split; [exact Hs|exact Hh].
Defined.

(** The assistant test of the suite: pruning the reply twice. *)
Lemma assistant_detail_witness :
  Strategies.isAssistantRole (roleOf thinkingReply) = true /\
  exists next again kept,
    applyDetailPruning thinkingReply testDefaults = Some (Fresh next) /\
    get next "content" = VArr kept /\
    applyDetailPruning next testDefaults = Some (Fresh again) /\
    get again "content" = VArr kept.
Proof.
  assert (H : Strategies.isAssistantRole (roleOf thinkingReply) = true) by reflexivity.
  split; [exact H|].
  destruct (proj2 (assistant_detail renderNumber thinkingReply testDefaults H) _ eq_refl)
    as (next & again & kept & H1 & H2 & _ & _ & _ & H3 & H4).
  exists next, again, kept. auto.
Defined.

(** The soft-pruning test of the suite: 100 code units, 10 kept on each
    side. *)
Lemma soft_text_shape_witness :
  exists next soft,
    applySoftPruning oversized testDefaults = Some (Fresh next) /\
    toUnifiedText (get next "content") = Some soft /\
    soft = take 10 (repeated 100 "A")
           ++ Strategies.truncationNote renderNumber 100
           ++ drop 90 (repeated 100 "A") /\
    length soft = 71%nat.
Proof.
  destruct (soft_text_shape renderNumber oversized testDefaults (repeated 100 "A")
              10 10 eq_refl eq_refl eq_refl eq_refl eq_refl eq_refl)
    as (next & soft & H1 & H2 & H3 & H4).
  exists next, soft. split; [exact H1|]. split; [exact H2|].
  split; [exact H3|]. rewrite H4. reflexivity.
Defined.

(** A text with two markers. *)
Lemma summary_trimmed_witness :
  Strategies.extractFinalSummary twoMarkers = Some (str "Summary: a" ++ [10%N] ++ str "Answer: b") /\
  trim (str "Summary: a" ++ [10%N] ++ str "Answer: b")
  = str "Summary: a" ++ [10%N] ++ str "Answer: b".
Proof.
  assert (H : Strategies.extractFinalSummary twoMarkers
              = Some (str "Summary: a" ++ [10%N] ++ str "Answer: b"))
    by (vm_compute; reflexivity).
  split; [exact H|]. exact (proj2 (summary_trimmed _ _ H)).
Defined.

(** The absolute-threshold test of the suite: the second message changes,
    a tool result. *)
Lemma only_tool_and_assistant_altered_witness :
  exists r orig,
    applyPruningWithStats absoluteMessages absoluteConfig = Some r /\
    absoluteMessages !! 1%nat = Some orig /\
    Pruner.messages r !! 1%nat <> Some orig /\
    (Strategies.isToolResultRole (roleOf orig) = true \/
     Strategies.isAssistantRole (roleOf orig) = true).
Proof.
  assert (E : exists r,
             applyPruningWithStats absoluteMessages absoluteConfig = Some r /\
             Pruner.messages r !! 1%nat
             <> Some (msg "tool_result" (VStr (repeated 120 "Y")))).
  { eexists. split; [vm_compute; reflexivity|]. vm_compute. discriminate. }
  destruct E as (r & Er & Hdiff).
  exists r, (msg "tool_result" (VStr (repeated 120 "Y"))).
  split; [exact Er|]. split; [reflexivity|]. split; [exact Hdiff|].
  exact (only_tool_and_assistant_altered renderNumber absoluteMessages absoluteConfig
           r 1%nat _ Er eq_refl Hdiff).
Defined.


(** The statistics of the absolute-threshold test. *)
Lemma stats_consistent_witness :
  exists r,
    applyPruningWithStats absoluteMessages absoluteConfig = Some r /\
    Pruner.totalMessages (Pruner.resultStats r) = 3%Z /\
    Pruner.changedMessages (Pruner.resultStats r)
    = Notions.zoneTotal (Pruner.zoneChanged (Pruner.resultStats r)).
Proof.
  assert (E : exists r, applyPruningWithStats absoluteMessages absoluteConfig = Some r)
    by (eexists; vm_compute; reflexivity).
  destruct E as (r & Er). exists r. split; [exact Er|].
  destruct (stats_consistent renderNumber absoluteMessages absoluteConfig r Er)
    as (H1 & _ & H3 & _).
  split; [exact H1|exact H3].
Defined.

Lemma zone_deleted_covers_total_witness :
  exists r,
    applyPruningWithStats absoluteMessages absoluteConfig = Some r /\
    Pruner.replaced r = true /\
    (Pruner.deletedTokens (Pruner.resultStats r)
     <= Notions.zoneTotal (Pruner.zoneDeletedTokens (Pruner.resultStats r)))%Z.
Proof.
  assert (E : exists r,
             applyPruningWithStats absoluteMessages absoluteConfig = Some r /\
             Pruner.replaced r = true)
    by (eexists; split; vm_compute; reflexivity).
  destruct E as (r & Er & Hr). exists r. split; [exact Er|]. split; [exact Hr|].
  exact (proj2 (zone_deleted_covers_total renderNumber absoluteMessages absoluteConfig
                  r Er Hr)).
Defined.

(** The shipped defaults. *)
Lemma defaults_kept_witness :
  Forall Spec.positiveInteger (Spec.countFields defaultConfig) /\
  Notions.naturalNumber (keep_recent_messages defaultConfig) /\
  Pruner.normalizeConfig defaultConfig None = defaultConfig.
Proof.
  assert (Hc : Forall Spec.positiveInteger (Spec.countFields defaultConfig))
    by (repeat (apply Forall_cons; split; [eexists; split; [|reflexivity]; lia|]);
        apply Forall_nil; exact I).
  assert (Hk : Notions.naturalNumber (keep_recent_messages defaultConfig))
    by (exists 10%Z; split; [lia|reflexivity]).
  split; [exact Hc|]. split; [exact Hk|].
  exact (proj1 (defaults_kept defaultConfig Hc Hk)).
Defined.


(** The same history offered again right after it was pruned. *)
Lemma cooldown_after_prune_witness :
  exists first second,
    handler absoluteConfig ∅ absoluteMessages anonymous 1000 = Some first /\
    handler absoluteConfig (Pruner.sessions first) absoluteMessages anonymous 2000
    = Some second /\
    Notions.skipped (Pruner.outcome second) /\
    Pruner.eventMessages second = absoluteMessages.
Proof.
  assert (E : exists first s,
             handler absoluteConfig ∅ absoluteMessages anonymous 1000 = Some first /\
             Pruner.outcome first = Pruner.Pruned s)
    by (do 2 eexists; split; vm_compute; reflexivity).
  destruct E as (first & s & Efirst & Hout).
  assert (Hc : (0 <= Pruner.pruneCount (Notions.stateOf ∅ anonymous))%Z)
    by (vm_compute; discriminate).
  assert (Hp : ltb (of_Z 0) (trigger_every_n_tokens absoluteConfig) = true)
    by reflexivity.
  assert (Hg : ltb (of_Z (Pruner.estimateContextTokens renderNumber absoluteMessages
                          - Pruner.estimateContextTokens renderNumber absoluteMessages))
                   (trigger_every_n_tokens absoluteConfig) = true)
    by (vm_compute; reflexivity).
  destruct (cooldown_after_prune renderNumber absoluteConfig ∅ absoluteMessages
              absoluteMessages anonymous 1000 2000 first s Efirst Hout Hc Hp Hg)
    as (second & H1 & H2 & _ & H4).
  exists first, second. auto.
Defined.

(** A tool result that names an image file, in the hard zone. *)
Lemma image_results_skipped_witness :
  Strategies.hasImageContent renderNumber (get screenshot "content") = true /\
  applyStrategy testDefaults ZoneHard screenshot = Some Same.
Proof.
  assert (H : Strategies.hasImageContent renderNumber (get screenshot "content") = true)
    by (vm_compute; reflexivity).
  split; [exact H|].
  exact (image_results_skipped renderNumber testDefaults ZoneHard screenshot
           eq_refl eq_refl H).
Defined.

End FurtherRuns.
